(** * Protocol fee tracker: the filter-join-rank pipeline of [app.py]

    A shallow embedding of the data pipeline of the dashboard script
    [src/app.py] (the currency formatter, the sidebar selections, the four
    filtered tables, the KPI cards, the overview join and the top-10
    rankings), with the properties of the specification stated about it.

    The script is straight-line Python over pandas data frames.  A data frame
    is modelled by its column labels and its rows of cells; every pandas
    operation the script calls is a function on that model, and a Python
    exception is a value of the [result] type, threaded through the script in
    source order.  Calls that only draw ([st.markdown], [st.dataframe],
    [st.plotly_chart]) are the rendering layer and are not part of the
    model; what they are given (the card strings, the displayed tables) is.
    Of [px.bar] the model keeps the check of the column names it is given,
    which raises before anything is drawn. *)

From Stdlib Require Import ZArith List String Ascii Bool Lia.
From Stdlib Require Import Floats.SpecFloat DecimalString.
From Stdlib Require Import Sorting.Permutation Sorting.Sorted.
Import ListNotations.

Local Open Scope string_scope.
Local Open Scope list_scope.
Local Open Scope Z_scope.

(** ** Python exceptions *)

(** A [KeyError] carries its argument: the label that was looked up, or
    the message pandas builds for a list of labels. *)
Inductive exn : Type :=
| KeyError (key : string)
| TypeError
| OverflowError
| ValueError.

Inductive result (A : Type) : Type :=
| Ok (a : A)
| Raise (e : exn).

Arguments Ok {A} a.
Arguments Raise {A} e.

Definition bind {A B : Type} (r : result A) (k : A -> result B) : result B :=
  match r with
  | Ok a => k a
  | Raise e => Raise e
  end.

Notation "'let*' x ':=' r 'in' k" := (bind r (fun x => k))
  (at level 10, x pattern, r at level 100, k at level 200).

(** ** Python floats: IEEE 754 binary64 *)

Module PyFloat.

Definition prec : Z := 53.
Definition emax : Z := 1024.

Definition float : Type := spec_float.

(** [float(z)]: the nearest binary64, ties to even; an infinite result
    stands for the overflow the callers turn into [OverflowError]. *)
Definition of_Z (z : Z) : float := binary_normalize prec emax z 0 false.

Definition add : float -> float -> float := SFadd prec emax.
Definition div : float -> float -> float := SFdiv prec emax.

Definition is_nan (f : float) : bool :=
  match f with
  | S754_nan => true
  | _ => false
  end.

Definition is_inf (f : float) : bool :=
  match f with
  | S754_infinity _ => true
  | _ => false
  end.

(** [x >= y] and [x == y] of two floats (false when either is NaN). *)
Definition geb (x y : float) : bool := SFleb y x.
Definition eqb (x y : float) : bool := SFeqb x y.
Definition ltb (x y : float) : bool := SFltb x y.

(** An integer [z] as the unrounded pair (mantissa [|z|], exponent 0). *)
Definition raw_of_Z (z : Z) : float :=
  match z with
  | Z0 => S754_zero false
  | Zpos p => S754_finite false p 0
  | Zneg p => S754_finite true p 0
  end.

(** [a / b] of two Python ints with [b <> 0]: the exact quotient rounded
    once to the nearest binary64. *)
Definition int_truediv (a b : Z) : float := div (raw_of_Z a) (raw_of_Z b).

(** *** The [.2f] presentation type *)

(** [n / d] rounded to the nearest integer, ties to even ([0 <= n], [0 < d]). *)
Definition round_half_even (n d : Z) : Z :=
  let q := n / d in
  let r := n mod d in
  match 2 * r ?= d with
  | Lt => q
  | Gt => q + 1
  | Eq => if Z.even q then q else q + 1
  end.

(** The value [m * 2^e] in hundredths, correctly rounded. *)
Definition hundredths (m : positive) (e : Z) : Z :=
  match e with
  | Zneg p => round_half_even (Zpos m * 100) (2 ^ Zpos p)
  | _ => Zpos m * 100 * 2 ^ e
  end.

Definition digits (n : Z) : string := NilZero.string_of_uint (N.to_uint (Z.to_N n)).

Definition pad2 (n : Z) : string :=
  if n <? 10 then ("0" ++ digits n)%string else digits n.

Definition sign_str (s : bool) : string := if s then "-" else "".

Definition fixed2 (s : bool) (h : Z) : string :=
  (sign_str s ++ digits (h / 100) ++ "." ++ pad2 (h mod 100))%string.

(** [format(f, ".2f")]. *)
Definition format_2f (f : float) : string :=
  match f with
  | S754_nan => "nan"
  | S754_infinity s => (sign_str s ++ "inf")%string
  | S754_zero s => fixed2 s 0
  | S754_finite s m e => fixed2 s (hundredths m e)
  end.

End PyFloat.

(** ** [format_currency] *)

(** The values [format_currency] is called with: [None], a Python [int]
    (the literal [0] of the market-cap card), a float (a column sum, a
    cell) or a [str] (the sum of a column of strings). *)
Inductive amount : Type :=
| ANone
| AInt (z : Z)
| AFloat (f : PyFloat.float)
| AStr (s : string).

(** [amount is None] *)
Definition is_None (a : amount) : bool :=
  match a with
  | ANone => true
  | _ => false
  end.

(** [pd.isna(amount)] on a scalar *)
Definition pd_isna (a : amount) : bool :=
  match a with
  | ANone => true
  | AInt _ => false
  | AFloat f => PyFloat.is_nan f
  | AStr _ => false
  end.

(** [amount == k] for an int literal [k] that binary64 represents exactly *)
Definition eq_int (a : amount) (k : Z) : bool :=
  match a with
  | ANone => false
  | AInt z => z =? k
  | AFloat f => PyFloat.eqb f (PyFloat.of_Z k)
  | AStr _ => false
  end.

(** [amount >= k] for such a literal; [None >= k] and [str >= k] are a
    [TypeError]. *)
Definition ge_int (a : amount) (k : Z) : result bool :=
  match a with
  | ANone => Raise TypeError
  | AInt z => Ok (k <=? z)
  | AFloat f => Ok (PyFloat.geb f (PyFloat.of_Z k))
  | AStr _ => Raise TypeError
  end.

(** [amount / k] for [k <> 0]: int / int overflows with [OverflowError],
    float / int yields an infinity instead. *)
Definition truediv_int (a : amount) (k : Z) : result PyFloat.float :=
  match a with
  | ANone => Raise TypeError
  | AInt z =>
      let q := PyFloat.int_truediv z k in
      if PyFloat.is_inf q then Raise OverflowError else Ok q
  | AFloat f => Ok (PyFloat.div f (PyFloat.of_Z k))
  | AStr _ => Raise TypeError
  end.

(** [f"{amount:.2f}"]: an int is converted to float first; a [str] has
    no format code [f]. *)
Definition format_2f (a : amount) : result string :=
  match a with
  | ANone => Raise TypeError
  | AInt z =>
      let f := PyFloat.of_Z z in
      if PyFloat.is_inf f then Raise OverflowError else Ok (PyFloat.format_2f f)
  | AFloat f => Ok (PyFloat.format_2f f)
  | AStr _ => Raise ValueError
  end.

Definition format_currency (amount : amount) : result string :=
  if is_None amount || pd_isna amount || eq_int amount 0 then Ok "$0"
  else
    let* ge_b := ge_int amount 1000000000 in
    if ge_b then
      let* q := truediv_int amount 1000000000 in
      Ok ("$" ++ PyFloat.format_2f q ++ "B")%string
    else
      let* ge_m := ge_int amount 1000000 in
      if ge_m then
        let* q := truediv_int amount 1000000 in
        Ok ("$" ++ PyFloat.format_2f q ++ "M")%string
      else
        let* ge_k := ge_int amount 1000 in
        if ge_k then
          let* q := truediv_int amount 1000 in
          Ok ("$" ++ PyFloat.format_2f q ++ "K")%string
        else
          let* s := format_2f amount in
          Ok ("$" ++ s)%string.

(** ** A stable descending sort

    [above y x] says that [y] ranks strictly before [x].  An element is
    inserted after everything that ranks strictly before it and in front of
    its ties, so that ties keep the order they had. *)
Section StableSort.

Context {A : Type} (above : A -> A -> bool).

Fixpoint insert_desc (x : A) (l : list A) : list A :=
  match l with
  | [] => [x]
  | y :: l' => if above y x then y :: insert_desc x l' else x :: l
  end.

Fixpoint sort_desc (l : list A) : list A :=
  match l with
  | [] => []
  | x :: l' => insert_desc x (sort_desc l')
  end.

End StableSort.

(** ** Data frames *)

(** A cell of a data frame: a missing value [None], a string, or a float
    (NaN is the missing value of a float column).  The numeric columns of
    the four tables are float columns; a float cell holds a binary64 value
    in the canonical form of [SpecFloat] ([valid_binary]), the form
    [PyFloat.of_Z] and the arithmetic produce. *)
Inductive cell : Type :=
| CNone
| CStr (s : string)
| CFloat (f : PyFloat.float).

Definition NaN : cell := CFloat S754_nan.

(** A frame is its column labels and its rows, one cell per column.  Row
    labels are not modelled: the script never looks a row up by label and
    resets the index of every table it shows. *)
Record DataFrame : Type := {
  columns : list string;
  rows : list (list cell)
}.

(** Every row has one cell per column. *)
Definition aligned (df : DataFrame) : Prop :=
  Forall (fun r => List.length r = List.length (columns df)) (rows df).

Module Pandas.

(** A [Series] is the list of its values. *)
Definition Series : Type := list cell.

Fixpoint column_pos (c : string) (cols : list string) : option nat :=
  match cols with
  | [] => None
  | c' :: cols' =>
      if String.eqb c c' then Some O
      else option_map S (column_pos c cols')
  end.

(** [c in df.columns] *)
Definition has_column (c : string) (df : DataFrame) : bool :=
  match column_pos c (columns df) with
  | Some _ => true
  | None => false
  end.

Definition cell_at (i : nat) (r : list cell) : cell := nth i r CNone.

(** [df[c]] *)
Definition getitem (df : DataFrame) (c : string) : result Series :=
  match column_pos c (columns df) with
  | Some i => Ok (map (cell_at i) (rows df))
  | None => Raise (KeyError c)
  end.

(** [pd.isna] on a cell *)
Definition isna (c : cell) : bool :=
  match c with
  | CNone => true
  | CStr _ => false
  | CFloat f => PyFloat.is_nan f
  end.

(** Equality of cells as pandas' hash tables see it ([isin], [unique],
    join keys): strings by content, floats by value, NaN equal to NaN. *)
Definition cell_eqb (a b : cell) : bool :=
  match a, b with
  | CNone, CNone => true
  | CStr s, CStr t => String.eqb s t
  | CFloat f, CFloat g =>
      PyFloat.eqb f g || (PyFloat.is_nan f && PyFloat.is_nan g)
  | _, _ => false
  end.

Definition cell_in (c : cell) (values : list cell) : bool :=
  existsb (cell_eqb c) values.

(** [s.isin(values)] *)
Definition isin (s : Series) (values : list cell) : list bool :=
  map (fun c => cell_in c values) s.

(** [xs[mask]] on the rows of a frame or the values of a series *)
Fixpoint select {A : Type} (xs : list A) (mask : list bool) : list A :=
  match xs, mask with
  | x :: xs', b :: mask' =>
      if b then x :: select xs' mask' else select xs' mask'
  | _, _ => []
  end.

(** [df[mask]] *)
Definition bool_index (df : DataFrame) (mask : list bool) : DataFrame :=
  {| columns := columns df; rows := select (rows df) mask |}.

(** [s.dropna()] *)
Definition dropna (s : Series) : Series :=
  filter (fun c => negb (isna c)) s.

(** [s.unique()]: the distinct values in order of first appearance *)
Fixpoint unique_from (seen : list cell) (s : Series) : list cell :=
  match s with
  | [] => []
  | c :: s' =>
      if cell_in c seen then unique_from seen s'
      else c :: unique_from (c :: seen) s'
  end.

Definition unique (s : Series) : list cell := unique_from [] s.

(** [a < b] in Python: strings by code point (the order of their UTF-8
    bytes), floats by value, anything else a [TypeError]. *)
Definition py_lt (a b : cell) : result bool :=
  match a, b with
  | CStr s, CStr t => Ok (String.ltb s t)
  | CFloat f, CFloat g => Ok (PyFloat.ltb f g)
  | _, _ => Raise TypeError
  end.

(** [sorted(xs)], as a stable insertion sort on [<]; a comparison that
    raises makes the whole call raise. *)
Fixpoint sorted_insert (x : cell) (l : list cell) : result (list cell) :=
  match l with
  | [] => Ok [x]
  | y :: l' =>
      let* lt := py_lt y x in
      if lt then
        let* r := sorted_insert x l' in
        Ok (y :: r)
      else Ok (x :: y :: l')
  end.

Fixpoint sorted (xs : list cell) : result (list cell) :=
  match xs with
  | [] => Ok []
  | x :: xs' =>
      let* r := sorted xs' in
      sorted_insert x r
  end.

(** [len(df)] *)
Definition len (df : DataFrame) : nat := List.length (rows df).

(** [df.empty]: no rows or no columns *)
Definition empty (df : DataFrame) : bool :=
  match rows df, columns df with
  | [], _ => true
  | _, [] => true
  | _, _ => false
  end.

(** The float values of a float64 column; a column that holds a string
    or [None] has dtype object.  The dtype of a column is read off its
    cells. *)
Fixpoint float_values (s : Series) : result (list PyFloat.float) :=
  match s with
  | [] => Ok []
  | CFloat f :: s' =>
      let* fs := float_values s' in
      Ok (f :: fs)
  | _ :: _ => Raise TypeError
  end.

(** *** [s.sum()]

    A column whose cells are all floats is a float64 column: its missing
    values (NaN) are replaced by zero and the array is summed by numpy's
    pairwise summation.  Any other column has dtype object: its missing
    values are replaced by the int [0] and Python adds the values from
    left to right. *)

Definition add_all (acc : PyFloat.float) (l : list PyFloat.float) : PyFloat.float :=
  fold_left PyFloat.add l acc.

(** The eight running sums of the unrolled loop. *)
Record acc8 : Type := {
  r0 : PyFloat.float; r1 : PyFloat.float; r2 : PyFloat.float; r3 : PyFloat.float;
  r4 : PyFloat.float; r5 : PyFloat.float; r6 : PyFloat.float; r7 : PyFloat.float
}.

(** [for (i = 8; i < n - (n % 8); i += 8) r[j] += a[i + j]]: the blocks of
    eight are added to the running sums; what is left is fewer than
    eight values. *)
Fixpoint add_blocks (r : acc8) (l : list PyFloat.float) {struct l}
  : acc8 * list PyFloat.float :=
  match l with
  | a0 :: a1 :: a2 :: a3 :: a4 :: a5 :: a6 :: a7 :: l' =>
      add_blocks {| r0 := PyFloat.add (r0 r) a0; r1 := PyFloat.add (r1 r) a1;
                    r2 := PyFloat.add (r2 r) a2; r3 := PyFloat.add (r3 r) a3;
                    r4 := PyFloat.add (r4 r) a4; r5 := PyFloat.add (r5 r) a5;
                    r6 := PyFloat.add (r6 r) a6; r7 := PyFloat.add (r7 r) a7 |} l'
  | _ => (r, l)
  end.

(** A block of at most 128 values: fewer than eight are added in order
    to [-0.0]; otherwise eight running sums are kept, combined as a tree,
    and the values left over are added in order. *)
Definition unrolled_sum (l : list PyFloat.float) : PyFloat.float :=
  match l with
  | a0 :: a1 :: a2 :: a3 :: a4 :: a5 :: a6 :: a7 :: l' =>
      let '(r, rest) :=
        add_blocks {| r0 := a0; r1 := a1; r2 := a2; r3 := a3;
                      r4 := a4; r5 := a5; r6 := a6; r7 := a7 |} l' in
      add_all
        (PyFloat.add
           (PyFloat.add (PyFloat.add (r0 r) (r1 r)) (PyFloat.add (r2 r) (r3 r)))
           (PyFloat.add (PyFloat.add (r4 r) (r5 r)) (PyFloat.add (r6 r) (r7 r))))
        rest
  | _ => add_all (S754_zero true) l
  end.

(** More than 128 values are split in two, the first part a multiple of
    eight, and the two sums are added.  Every split shortens the list, so
    that fuel equal to its length is never used up. *)
Fixpoint pairwise_sum (fuel : nat) (l : list PyFloat.float) : PyFloat.float :=
  match fuel with
  | O => unrolled_sum l
  | S fuel' =>
      if (128 <? List.length l)%nat then
        let half := (List.length l / 2)%nat in
        let n2 := (half - half mod 8)%nat in
        PyFloat.add (pairwise_sum fuel' (firstn n2 l))
                    (pairwise_sum fuel' (skipn n2 l))
      else unrolled_sum l
  end.

(** [values.sum()] of a float64 array: the sum of no value is [0.0], and
    the sum of some values starts from [-0.0]. *)
Definition np_sum (values : list PyFloat.float) : PyFloat.float :=
  match values with
  | [] => S754_zero false
  | _ :: _ => PyFloat.add (S754_zero true) (pairwise_sum (List.length values) values)
  end.

Definition zero_if_nan (f : PyFloat.float) : PyFloat.float :=
  if PyFloat.is_nan f then S754_zero false else f.

(** The Python value of a cell of an object column, a missing value
    replaced by [0]. *)
Definition object_value (c : cell) : amount :=
  match c with
  | CNone => AInt 0
  | CStr s => AStr s
  | CFloat f => if PyFloat.is_nan f then AInt 0 else AFloat f
  end.

(** [a + b] in Python: numbers add (an int is converted to float beside
    a float), strings are concatenated, a number and a string do not
    add. *)
Definition py_add (a b : amount) : result amount :=
  match a, b with
  | AInt x, AInt y => Ok (AInt (x + y))
  | AInt x, AFloat g =>
      if PyFloat.is_inf (PyFloat.of_Z x) then Raise OverflowError
      else Ok (AFloat (PyFloat.add (PyFloat.of_Z x) g))
  | AFloat f, AInt y =>
      if PyFloat.is_inf (PyFloat.of_Z y) then Raise OverflowError
      else Ok (AFloat (PyFloat.add f (PyFloat.of_Z y)))
  | AFloat f, AFloat g => Ok (AFloat (PyFloat.add f g))
  | AStr s, AStr t => Ok (AStr (s ++ t))
  | _, _ => Raise TypeError
  end.

Fixpoint object_sum_from (acc : amount) (values : list amount) : result amount :=
  match values with
  | [] => Ok acc
  | v :: values' =>
      let* acc' := py_add acc v in
      object_sum_from acc' values'
  end.

Definition object_sum (values : list amount) : result amount :=
  match values with
  | [] => Ok (AInt 0)
  | v :: values' => object_sum_from v values'
  end.

Definition sum (s : Series) : result amount :=
  match float_values s with
  | Ok fs => Ok (AFloat (np_sum (map zero_if_nan fs)))
  | Raise _ => object_sum (map object_value s)
  end.

(** *** [df[cols]] for a list of labels *)

Definition label_in (c : string) (cols : list string) : bool :=
  existsb (String.eqb c) cols.

Fixpoint positions (cols : list string) (have : list string) : option (list nat) :=
  match cols with
  | [] => Some []
  | c :: cols' =>
      match column_pos c have, positions cols' have with
      | Some i, Some ps => Some (i :: ps)
      | _, _ => None
      end
  end.

(** The labels asked for that the frame does not have, each once. *)
Fixpoint distinct_from (seen : list string) (l : list string) : list string :=
  match l with
  | [] => []
  | c :: l' =>
      if label_in c seen then distinct_from seen l'
      else c :: distinct_from (c :: seen) l'
  end.

Definition not_found (cols have : list string) : list string :=
  distinct_from [] (filter (fun c => negb (label_in c have)) cols).

(** [repr] of a list of labels; the labels of the script have no quote,
    backslash or control character, and are shown between single
    quotes. *)
Definition quoted (c : string) : string := ("'" ++ c ++ "'")%string.

Definition list_repr (labels : list string) : string :=
  ("[" ++ String.concat ", " (map quoted labels) ++ "]")%string.

(** The message of the [KeyError]: the missing labels, or the whole list
    when no label is found. *)
Definition not_in_index (cols have : list string) : string :=
  if forallb (fun c => negb (label_in c have)) cols
  then ("None of [Index(" ++ list_repr cols
        ++ ", dtype='object')] are in the [columns]")%string
  else (list_repr (not_found cols have) ++ " not in index")%string.

Definition getitems (df : DataFrame) (cols : list string) : result DataFrame :=
  match positions cols (columns df) with
  | Some ps =>
      Ok {| columns := cols;
            rows := map (fun r => map (fun i => cell_at i r) ps) (rows df) |}
  | None => Raise (KeyError (not_in_index cols (columns df)))
  end.

(** *** [pd.merge(left, right, on=key, how="left")] *)

Fixpoint remove_at {A : Type} (i : nat) (l : list A) : list A :=
  match l, i with
  | [], _ => []
  | _ :: l', O => l'
  | x :: l', S i' => x :: remove_at i' l'
  end.

(** The right rows whose key equals the key of the left row [l]. *)
Definition matches (i j : nat) (right_rows : list (list cell)) (l : list cell)
  : list (list cell) :=
  filter (fun r => cell_eqb (cell_at i l) (cell_at j r)) right_rows.

(** The output rows of one left row: one per match, in the order of the
    right frame, or the left row padded with NaN when nothing matches. *)
Definition joined (i j width : nat) (right_rows : list (list cell)) (l : list cell)
  : list (list cell) :=
  match matches i j right_rows l with
  | [] => [l ++ repeat NaN width]
  | ms => map (fun r => l ++ remove_at j r) ms
  end.

(** The key column appears once; a label the two frames share outside
    the key gets the suffixes [_x] and [_y]; the left rows keep their
    order. *)
Definition merge_left (left right : DataFrame) (on : string) : result DataFrame :=
  match column_pos on (columns left), column_pos on (columns right) with
  | Some i, Some j =>
      let lrest := remove_at i (columns left) in
      let rrest := remove_at j (columns right) in
      let lcols :=
        map (fun c => if negb (String.eqb c on) && label_in c rrest
                      then (c ++ "_x")%string else c) (columns left) in
      let rcols :=
        map (fun c => if label_in c lrest then (c ++ "_y")%string else c) rrest in
      Ok {| columns := lcols ++ rcols;
            rows := flat_map (joined i j (List.length rrest) (rows right)) (rows left) |}
  | _, _ => Raise (KeyError on)
  end.

(** *** [df.nlargest(n, column)] *)

(** [a] ranks strictly before [b] in descending order; NaN ranks last. *)
Definition float_above (a b : PyFloat.float) : bool :=
  negb (PyFloat.is_nan a) && (PyFloat.is_nan b || PyFloat.ltb b a).

(** The ranking value of a cell of a float column. *)
Definition float_of (c : cell) : PyFloat.float :=
  match c with
  | CFloat f => f
  | _ => S754_nan
  end.

Definition ranks_above (i : nat) (r1 r2 : list cell) : bool :=
  float_above (float_of (cell_at i r1)) (float_of (cell_at i r2)).

(** The rows in descending order of the ranking column, ties in their
    original order ([keep="first"]), rows without a value last; the first
    [n] of them.  A column of dtype object is refused with a
    [TypeError]. *)
Definition nlargest (n : nat) (c : string) (df : DataFrame) : result DataFrame :=
  match column_pos c (columns df) with
  | None => Raise (KeyError c)
  | Some i =>
      let* _ := float_values (map (cell_at i) (rows df)) in
      Ok {| columns := columns df;
            rows := firstn n (sort_desc (ranks_above i) (rows df)) |}
  end.

End Pandas.

(** ** Plotly *)

Module Plotly.

(** [px.bar(df, x=..., y=..., color=...)]: every name given is looked up
    in the columns of the frame, and a name that is not a column is
    refused with a [ValueError].  The figure is not modelled. *)
Definition bar (df : DataFrame) (names : list string) : result unit :=
  if forallb (fun c => Pandas.has_column c df) names then Ok tt
  else Raise ValueError.

End Plotly.

(** ** The script *)

Import Pandas.

(** *** Sidebar filters (lines 79-87) *)

(** [st.sidebar.multiselect(label, options, default=...)]: the widget
    returns the default until the user touches it, and afterwards the
    options the user picked, which it holds as positions in [options]. *)
Definition multiselect (options default : list cell) (picked : option (list nat))
  : list cell :=
  match picked with
  | None => default
  | Some picks =>
      flat_map (fun i => match nth_error options i with
                         | Some o => [o]
                         | None => []
                         end) picks
  end.

Definition protocols (df_protocols_tvl : DataFrame) : result (list cell) :=
  let* p := getitem df_protocols_tvl "Protocol" in
  sorted (unique p).

Definition default_protocols (protocols : list cell) : list cell :=
  if (5 <? List.length protocols)%nat then firstn 5 protocols else protocols.

Definition categories (df_protocols_tvl : DataFrame) : result (list cell) :=
  if has_column "Category" df_protocols_tvl then
    let* c := getitem df_protocols_tvl "Category" in
    sorted (unique (dropna c))
  else Ok [].

(** What the user did with the two widgets. *)
Record widgets : Type := {
  protocol_picks : option (list nat);
  category_picks : option (list nat)
}.

Record selection : Type := {
  selected_protocols : list cell;
  selected_categories : list cell
}.

Definition sidebar (df_protocols_tvl : DataFrame) (ui : widgets) : result selection :=
  let* protocols := protocols df_protocols_tvl in
  let selected_protocols :=
    multiselect protocols (default_protocols protocols) (protocol_picks ui) in
  let* categories := categories df_protocols_tvl in
  let selected_categories := multiselect categories categories (category_picks ui) in
  Ok {| selected_protocols := selected_protocols;
        selected_categories := selected_categories |}.

(** *** Filter data (lines 89-96) *)

(** Line 90. *)
Definition protocol_filter (df_protocols_tvl : DataFrame) (selected_protocols : list cell)
  : result DataFrame :=
  let* p := getitem df_protocols_tvl "Protocol" in
  Ok (bool_index df_protocols_tvl (isin p selected_protocols)).

(** Lines 91-92; a non-empty list is truthy. *)
Definition category_filter (filtered_tvl : DataFrame) (selected_categories : list cell)
  : result DataFrame :=
  match selected_categories with
  | [] => Ok filtered_tvl
  | _ :: _ =>
      let* c := getitem filtered_tvl "Category" in
      Ok (bool_index filtered_tvl (isin c selected_categories))
  end.

Definition filtered_tvl (df_protocols_tvl : DataFrame) (sel : selection)
  : result DataFrame :=
  let* by_protocol := protocol_filter df_protocols_tvl (selected_protocols sel) in
  category_filter by_protocol (selected_categories sel).

(** Lines 94-96, one per table: [df[df['Protocol'].isin(filtered_tvl['Protocol'])]]. *)
Definition filtered_by (df filtered_tvl : DataFrame) : result DataFrame :=
  let* p := getitem df "Protocol" in
  let* keys := getitem filtered_tvl "Protocol" in
  Ok (bool_index df (isin p keys)).

Record filtered : Type := {
  f_tvl : DataFrame;
  f_fees : DataFrame;
  f_revenue : DataFrame;
  f_market : DataFrame
}.

Definition filter_data (df_protocols_tvl df_protocols_revenue df_protocols_fees
                          df_protocols_market_data : DataFrame) (sel : selection)
  : result filtered :=
  let* filtered_tvl := filtered_tvl df_protocols_tvl sel in
  let* filtered_fees := filtered_by df_protocols_fees filtered_tvl in
  let* filtered_revenue := filtered_by df_protocols_revenue filtered_tvl in
  let* filtered_market := filtered_by df_protocols_market_data filtered_tvl in
  Ok {| f_tvl := filtered_tvl;
        f_fees := filtered_fees;
        f_revenue := filtered_revenue;
        f_market := filtered_market |}.

(** *** KPIs (lines 98-117) *)

(** [str(n)] *)
Definition str (n : nat) : string := NilZero.string_of_uint (Nat.to_uint n).

Definition total_tvl (filtered_tvl : DataFrame) : result amount :=
  let* s := getitem filtered_tvl "TVL (USD)" in
  sum s.

Definition total_market_cap (filtered_market : DataFrame) : result amount :=
  if has_column "Market Cap (USD)" filtered_market then
    let* s := getitem filtered_market "Market Cap (USD)" in
    sum s
  else Ok (AInt 0).

(** The values of the three cards. *)
Record kpis : Type := {
  card_protocols : string;
  card_tvl : string;
  card_market_cap : string
}.

Definition kpi_cards (f : filtered) : result kpis :=
  let protocols_card := str (len (f_tvl f)) in
  let* tvl := total_tvl (f_tvl f) in
  let* tvl_card := format_currency tvl in
  let* cap := total_market_cap (f_market f) in
  let* cap_card := format_currency cap in
  Ok {| card_protocols := protocols_card;
        card_tvl := tvl_card;
        card_market_cap := cap_card |}.

(** *** Overview table (lines 119-137) *)

Definition overview_cols (filtered_tvl filtered_market : DataFrame) : list string :=
  filter (fun col => has_column col filtered_tvl) ["Protocol"; "Category"; "TVL (USD)"]
  ++ (if has_column "Market Cap (USD)" filtered_market then ["Market Cap (USD)"] else [])
  ++ (if has_column "Current Price (USD)" filtered_market then ["Current Price (USD)"] else []).

Definition overview_df (filtered_tvl filtered_market : DataFrame) : result DataFrame :=
  merge_left filtered_tvl filtered_market "Protocol".

(** The table handed to [st.dataframe]: [overview_df[overview_cols]].  Its
    TVL column goes through [format_currency] only when the table is drawn. *)
Definition overview_table (f : filtered) : result DataFrame :=
  let* joined := overview_df (f_tvl f) (f_market f) in
  getitems joined (overview_cols (f_tvl f) (f_market f)).

(** *** Rankings (lines 139-166) *)

Definition top_tvl (filtered_tvl : DataFrame) : result DataFrame :=
  nlargest 10 "TVL (USD)" filtered_tvl.

(** Lines 152-153 and 161-162: nothing is ranked for an empty table. *)
Definition top_section (df : DataFrame) (metric : string)
  : result (option DataFrame) :=
  if empty df then Ok None
  else
    let* top := nlargest 10 metric df in
    Ok (Some top).

Definition top_revenue (filtered_revenue : DataFrame) : result (option DataFrame) :=
  top_section filtered_revenue "24h Revenue (USD)".

Definition top_fees (filtered_fees : DataFrame) : result (option DataFrame) :=
  top_section filtered_fees "24h Fees (USD)".

(** Lines 154 and 163: the columns a ranking is shown with. *)
Definition revenue_shown : list string :=
  ["Protocol"; "24h Revenue (USD)"; "7d Revenue (USD)"; "30d Revenue (USD)";
   "Total Revenue (USD)"].

Definition fees_shown : list string :=
  ["Protocol"; "24h Fees (USD)"; "7d Fees (USD)"; "30d Fees (USD)";
   "Total Fees (USD)"].

Definition shown_table (top : option DataFrame) (shown : list string)
  : result (option DataFrame) :=
  match top with
  | None => Ok None
  | Some df =>
      let* table := getitems df shown in
      Ok (Some table)
  end.

(** Line 142: the chart of the TVL ranking, coloured by Category. *)
Definition tvl_chart (top_tvl : DataFrame) : result unit :=
  Plotly.bar top_tvl ["Protocol"; "TVL (USD)"; "Category"].

(** Lines 155 and 164: the chart of a ranking that was computed. *)
Definition metric_chart (top : option DataFrame) (metric : string) : result unit :=
  match top with
  | None => Ok tt
  | Some df => Plotly.bar df ["Protocol"; metric]
  end.

(** The rows of a ranking, none when the section was skipped. *)
Definition ranked_rows (top : option DataFrame) : list (list cell) :=
  match top with
  | Some df => rows df
  | None => []
  end.

(** *** The whole run, in source order *)

Record dashboard : Type := {
  d_selection : selection;
  d_filtered : filtered;
  d_kpis : kpis;
  d_overview : DataFrame;
  d_top_tvl : DataFrame;
  d_top_revenue : option DataFrame;
  d_revenue_table : option DataFrame;
  d_top_fees : option DataFrame;
  d_fees_table : option DataFrame
}.

Definition run (df_protocols_tvl df_protocols_revenue df_protocols_fees
                  df_protocols_market_data : DataFrame) (ui : widgets)
  : result dashboard :=
  let* sel := sidebar df_protocols_tvl ui in
  let* f := filter_data df_protocols_tvl df_protocols_revenue df_protocols_fees
              df_protocols_market_data sel in
  let* k := kpi_cards f in
  let* ov := overview_table f in
  let* by_tvl := top_tvl (f_tvl f) in
  let* _ := tvl_chart by_tvl in
  let* by_revenue := top_revenue (f_revenue f) in
  let* revenue_table := shown_table by_revenue revenue_shown in
  let* _ := metric_chart by_revenue "24h Revenue (USD)" in
  let* by_fees := top_fees (f_fees f) in
  let* fees_table := shown_table by_fees fees_shown in
  let* _ := metric_chart by_fees "24h Fees (USD)" in
  Ok {| d_selection := sel;
        d_filtered := f;
        d_kpis := k;
        d_overview := ov;
        d_top_tvl := by_tvl;
        d_top_revenue := by_revenue;
        d_revenue_table := revenue_table;
        d_top_fees := by_fees;
        d_fees_table := fees_table |}.

(** ** The scenario of the specification *)

Definition num (z : Z) : cell := CFloat (PyFloat.of_Z z).

Definition scenario_tvl : DataFrame :=
  {| columns := ["Protocol"; "Category"; "TVL (USD)"];
     rows := [[CStr "A"; CStr "Cat1"; num 500];
              [CStr "B"; CStr "Cat2"; num 2500000000]] |}.

Definition scenario_revenue : DataFrame :=
  {| columns := ["Protocol"; "24h Revenue (USD)"; "7d Revenue (USD)";
                 "30d Revenue (USD)"; "Total Revenue (USD)"];
     rows := [[CStr "A"; num 10; num 70; num 300; num 1000]] |}.

Definition scenario_fees : DataFrame :=
  {| columns := ["Protocol"; "24h Fees (USD)"; "7d Fees (USD)";
                 "30d Fees (USD)"; "Total Fees (USD)"];
     rows := [] |}.

Definition scenario_market : DataFrame :=
  {| columns := ["Protocol"; "Market Cap (USD)"; "Current Price (USD)"];
     rows := [] |}.

(** ** Further tables and selections *)

(** A TVL table without a Category column. *)
Definition no_category_tvl : DataFrame :=
  {| columns := ["Protocol"; "TVL (USD)"];
     rows := [[CStr "B"; num 2500000000]; [CStr "A"; num 500]] |}.

(** A TVL table of twelve rows with ties and missing values. *)
Definition ranking_tvl : DataFrame :=
  {| columns := ["Protocol"; "TVL (USD)"];
     rows := [[CStr "a"; num 5]; [CStr "b"; NaN]; [CStr "c"; num 7];
              [CStr "d"; num 5]; [CStr "e"; num 0]; [CStr "f"; num 9];
              [CStr "g"; NaN]; [CStr "h"; num 7]; [CStr "i"; num 1];
              [CStr "j"; num 5]; [CStr "k"; num 3]; [CStr "l"; num 7]] |}.

(** A market table with two rows for protocol A. *)
Definition duplicate_market : DataFrame :=
  {| columns := ["Protocol"; "Market Cap (USD)"; "Current Price (USD)"];
     rows := [[CStr "A"; num 100; num 1]; [CStr "A"; num 200; num 2]] |}.

Definition all_defaults : widgets :=
  {| protocol_picks := None; category_picks := None |}.

(** The user deselects every protocol, or every category. *)
Definition no_protocols : widgets :=
  {| protocol_picks := Some []; category_picks := None |}.

Definition no_categories : widgets :=
  {| protocol_picks := None; category_picks := Some [] |}.

Definition nothing_selected : widgets :=
  {| protocol_picks := Some []; category_picks := Some [] |}.

(** Tables without any optional column. *)
Definition bare_tvl : DataFrame :=
  {| columns := ["Protocol"; "TVL (USD)"];
     rows := [[CStr "B"; num 2500000000]; [CStr "A"; NaN]; [CStr "C"; num 500]] |}.

Definition bare_market : DataFrame :=
  {| columns := ["Protocol"];
     rows := [[CStr "A"]; [CStr "C"]] |}.

(** A TVL table with its key column but without its TVL column, and a
    fees table without its key column. *)
Definition tvl_without_values : DataFrame :=
  {| columns := ["Protocol"; "Category"];
     rows := [[CStr "A"; CStr "Cat1"]] |}.

Definition fees_without_key : DataFrame :=
  {| columns := ["24h Fees (USD)"];
     rows := [[num 3]] |}.

(** A TVL table without its key column. *)
Definition tvl_without_key : DataFrame :=
  {| columns := ["Category"; "TVL (USD)"];
     rows := [[CStr "Cat1"; num 500]] |}.

(** A TVL table with a protocol that has no category. *)
Definition uncategorised_tvl : DataFrame :=
  {| columns := ["Protocol"; "Category"; "TVL (USD)"];
     rows := [[CStr "A"; CStr "Dexes"; num 500];
              [CStr "B"; NaN; num 700];
              [CStr "C"; CStr "Lending"; num 900]] |}.

(** A market table that carries a Category column of its own. *)
Definition categorised_market : DataFrame :=
  {| columns := ["Protocol"; "Category"; "Market Cap (USD)"];
     rows := [[CStr "A"; CStr "Token"; num 100]] |}.

(** A revenue table without its metric columns. *)
Definition keys_only_revenue : DataFrame :=
  {| columns := ["Protocol"];
     rows := [[CStr "A"]] |}.

(** ** Vocabulary of the properties *)

(** An amount below zero: a negative int, or a float that compares less
    than zero (which excludes NaN and both zeros). *)
Definition negative (a : amount) : Prop :=
  match a with
  | ANone => False
  | AInt z => z < 0
  | AFloat f => PyFloat.ltb f (S754_zero false) = true
  | AStr _ => False
  end.

(** The sum of a column without strings: a float, or the int [0] of an
    object column whose values are all missing. *)
Definition is_number (a : amount) : bool :=
  match a with
  | AInt z => z =? 0
  | AFloat _ => true
  | _ => false
  end.

(** *** Ranking order *)

(** [x] does not rank strictly after [y]. *)
Definition not_below {A : Type} (above : A -> A -> bool) (x y : A) : Prop :=
  above y x = false.

(** A float as a point of a lexicographically ordered triple: NaN lowest,
    then minus infinity, the negative numbers, zero, the positive numbers
    and plus infinity. *)
Definition rank (f : PyFloat.float) : Z * Z * Z :=
  match f with
  | S754_nan => (-3, 0, 0)
  | S754_infinity true => (-2, 0, 0)
  | S754_finite true m e => (-1, - e, - Zpos m)
  | S754_zero _ => (0, 0, 0)
  | S754_finite false m e => (1, e, Zpos m)
  | S754_infinity false => (2, 0, 0)
  end.

Definition lex_cmp (a b : Z * Z * Z) : comparison :=
  let '(a1, a2, a3) := a in
  let '(b1, b2, b3) := b in
  match a1 ?= b1 with
  | Eq => match a2 ?= b2 with
          | Eq => a3 ?= b3
          | c => c
          end
  | c => c
  end.

Definition lex_lt (a b : Z * Z * Z) : Prop :=
  let '(a1, a2, a3) := a in
  let '(b1, b2, b3) := b in
  a1 < b1 \/ (a1 = b1 /\ (a2 < b2 \/ (a2 = b2 /\ a3 < b3))).

(** [a] may stand before [b] in a descending ranking: [b] is missing, or
    both are present and [a >= b]. *)
Definition descending (a b : PyFloat.float) : Prop :=
  PyFloat.is_nan b = true \/
  (PyFloat.is_nan a = false /\ PyFloat.geb a b = true).

(** [a] and [v] tie: neither ranks above the other. *)
Definition float_tied (v a : PyFloat.float) : bool :=
  negb (Pandas.float_above v a) && negb (Pandas.float_above a v).

(** *** Reading a row by label *)

(** The cell of row [r] of frame [df] under label [c]. *)
Definition value_at (df : DataFrame) (c : string) (r : list cell) : cell :=
  match Pandas.column_pos c (columns df) with
  | Some i => Pandas.cell_at i r
  | None => CNone
  end.

(** The ranking value of row [r] for the metric [c]. *)
Definition metric (df : DataFrame) (c : string) (r : list cell) : PyFloat.float :=
  Pandas.float_of (value_at df c r).

(** [c] is a float column of [df] (it may hold NaN). *)
Definition numeric_column (c : string) (df : DataFrame) : bool :=
  match Pandas.getitem df c with
  | Ok s => match Pandas.float_values s with
            | Ok _ => true
            | Raise _ => false
            end
  | Raise _ => false
  end.

Definition has_columns (cols : list string) (df : DataFrame) : bool :=
  forallb (fun c => Pandas.has_column c df) cols.

(** [top] is a top-[n] ranking of the rows of [df] by the column [c]:
    - it has [min n (number of rows)] rows;
    - it is in descending order of the metric, missing values last;
    - of the rows that tie at any value it holds the earliest, in their
      original order;
    - it consists of rows of the table, and no row left out ranks before
      a row taken. *)
Definition top_n_of (n : nat) (c : string) (df : DataFrame) (top : list (list cell))
  : Prop :=
  List.length top = Nat.min n (List.length (rows df)) /\
  StronglySorted (fun r1 r2 => descending (metric df c r1) (metric df c r2)) top /\
  (forall v, exists later,
      filter (fun r => float_tied v (metric df c r)) (rows df) =
      filter (fun r => float_tied v (metric df c r)) top ++ later) /\
  (exists rest,
      Permutation (top ++ rest) (rows df) /\
      Forall (fun r => Forall (fun t => descending (metric df c t) (metric df c r)) top)
        rest).

(** *** Rows of a join *)

Definition float_eq_dec (a b : PyFloat.float) : {a = b} + {a <> b}.
Proof.
  decide equality; first [apply Bool.bool_dec | apply Pos.eq_dec | apply Z.eq_dec].
Defined.

Definition cell_eq_dec (a b : cell) : {a = b} + {a <> b}.
Proof.
  decide equality; first [apply String.string_dec | apply float_eq_dec].
Defined.

(** How many rows of [out] start with the [w] cells of the row [l]. *)
Definition appearances (w : nat) (l : list cell) (out : list (list cell)) : nat :=
  count_occ (list_eq_dec cell_eq_dec) (map (firstn w) out) l.

(** *** The shape the script relies on *)

Definition is_str (x : cell) : bool :=
  match x with
  | CStr _ => true
  | _ => false
  end.

Definition str_or_missing (x : cell) : bool :=
  match x with
  | CStr _ => true
  | _ => Pandas.isna x
  end.

Definition float_or_missing (x : cell) : bool :=
  match x with
  | CStr _ => false
  | _ => true
  end.

(** The column [c] of [df] exists and all its cells pass [ok]. *)
Definition column_all (ok : cell -> bool) (c : string) (df : DataFrame) : bool :=
  match Pandas.getitem df c with
  | Ok s => forallb ok s
  | Raise _ => false
  end.

Definition optional_column_all (ok : cell -> bool) (c : string) (df : DataFrame)
  : bool :=
  if Pandas.has_column c df then column_all ok c df else true.

(** The column [c] of [df] exists and holds strings only. *)
Definition string_column (c : string) (df : DataFrame) : bool :=
  column_all is_str c df.

(** No label other than Protocol is shared by the TVL and the market table. *)
Definition only_key_shared (tvl market : DataFrame) : bool :=
  forallb (fun c => String.eqb c "Protocol"
                    || negb (Pandas.label_in c (columns market)))
    (columns tvl).

(** What the script needs of its four tables, the optional columns
    (Category, Market Cap (USD), Current Price (USD)) left free to be
    absent: string Protocol keys, float ranking columns, the revenue and
    fees columns that are shown, and no label other than Protocol shared by
    the TVL and the market table. *)
Definition required_schema (tvl revenue fees market : DataFrame) : bool :=
  string_column "Protocol" tvl
  && numeric_column "TVL (USD)" tvl
  && optional_column_all str_or_missing "Category" tvl
  && string_column "Protocol" revenue
  && numeric_column "24h Revenue (USD)" revenue
  && has_columns revenue_shown revenue
  && string_column "Protocol" fees
  && numeric_column "24h Fees (USD)" fees
  && has_columns fees_shown fees
  && string_column "Protocol" market
  && optional_column_all float_or_missing "Market Cap (USD)" market
  && only_key_shared tvl market.

(** The four filtered tables have no rows. *)
Definition emptied (f : filtered) : Prop :=
  rows (f_tvl f) = [] /\ rows (f_fees f) = [] /\
  rows (f_revenue f) = [] /\ rows (f_market f) = [].

(** The three cards show zero. *)
Definition zero_cards (k : kpis) : Prop :=
  card_protocols k = "0" /\ card_tvl k = "$0" /\ card_market_cap k = "$0".

(** [ft] has the columns of [df] and rows of [df] only. *)
Definition inside (ft df : DataFrame) : Prop :=
  columns ft = columns df /\ incl (rows ft) (rows df).


(** ** The KPI card markup (lines 62-69) *)

Definition dquote : string := String "034"%char EmptyString.
Definition newline : string := String "010"%char EmptyString.

(** The CSS class of a card: ["default"] falls back on the orange card. *)
Definition card_class (card_type : string) : string :=
  if negb (String.eqb card_type "default")
  then ("metric-card-" ++ card_type)%string
  else "metric-card-orange".

(** The f-string of [create_metric_card], with its line breaks and
    indentation; title and value are inserted as they are. *)
Definition create_metric_card (title value card_type : string) : string :=
  (newline ++ "    <div class=" ++ dquote ++ card_class card_type ++ dquote ++ ">"
   ++ newline ++ "        <div class=" ++ dquote ++ "metric-title" ++ dquote ++ ">"
   ++ title ++ "</div>"
   ++ newline ++ "        <div class=" ++ dquote ++ "metric-value" ++ dquote ++ ">"
   ++ value ++ "</div>"
   ++ newline ++ "    </div>"
   ++ newline ++ "    ")%string.

(** ** More vocabulary *)

(** The amounts shown as "$0": [None], NaN and zero. *)
Definition shown_as_zero (a : amount) : bool :=
  is_None a || pd_isna a || eq_int a 0.

(** The unit an int of at least one thousand is divided by. *)
Definition unit_of (z : Z) : Z :=
  if 1000000000 <=? z then 1000000000
  else if 1000000 <=? z then 1000000
  else 1000.

(** The int is too large for a float: below one thousand the int itself
    is converted, from one thousand on its quotient by the unit. *)
Definition overflows (z : Z) : bool :=
  if 1000 <=? z then PyFloat.is_inf (PyFloat.int_truediv z (unit_of z))
  else PyFloat.is_inf (PyFloat.of_Z z).

(** Strings in ascending code-point order. *)
Definition str_lt (a b : cell) : Prop :=
  match a, b with
  | CStr s, CStr t => String.ltb s t = true
  | _, _ => False
  end.

(** The row passes both steps of the TVL filter. *)
Definition passes (df : DataFrame) (sel : selection) (r : list cell) : bool :=
  Pandas.cell_in (value_at df "Protocol" r) (selected_protocols sel)
  && match selected_categories sel with
     | [] => true
     | _ :: _ => Pandas.cell_in (value_at df "Category" r) (selected_categories sel)
     end.

(** The five labels of the overview table, in their order. *)
Definition overview_labels : list string :=
  ["Protocol"; "Category"; "TVL (USD)"; "Market Cap (USD)"; "Current Price (USD)"].

(** [l1] is [l2] with some elements left out. *)
Inductive subseq {A : Type} : list A -> list A -> Prop :=
| subseq_nil : subseq [] []
| subseq_skip x l1 l2 : subseq l1 l2 -> subseq l1 (x :: l2)
| subseq_keep x l1 l2 : subseq l1 l2 -> subseq (x :: l1) (x :: l2).

(** The values of a float column that are not NaN. *)
Definition present (fs : list PyFloat.float) : list PyFloat.float :=
  filter (fun f => negb (PyFloat.is_nan f)) fs.

(** [s.fillna(0)] on a float column: every missing value replaced by zero. *)
Definition fillna_zero (s : Pandas.Series) : Pandas.Series :=
  map (fun c => if Pandas.isna c then CFloat (S754_zero false) else c) s.

(** A zero of either sign. *)
Definition is_zero (f : PyFloat.float) : bool :=
  match f with
  | S754_zero _ => true
  | _ => false
  end.

(** The eight running sums are zero. *)
Definition zeros8 (r : Pandas.acc8) : Prop :=
  is_zero (Pandas.r0 r) = true /\ is_zero (Pandas.r1 r) = true /\
  is_zero (Pandas.r2 r) = true /\ is_zero (Pandas.r3 r) = true /\
  is_zero (Pandas.r4 r) = true /\ is_zero (Pandas.r5 r) = true /\
  is_zero (Pandas.r6 r) = true /\ is_zero (Pandas.r7 r) = true.

(** What a sum over a column that holds a string comes to: the
    concatenation of a column of strings, or a [TypeError]. *)
Definition stringy (r : result amount) : Prop :=
  r = Raise TypeError \/ exists u, r = Ok (AStr u).

(** * Properties *)

(** ** The currency formatter *)

Section FormatCurrency.

(** The three thresholds are positive finite floats. *)
Lemma of_Z_threshold (k : Z) :
  k = 1000000000 \/ k = 1000000 \/ k = 1000 ->
  exists m e, PyFloat.of_Z k = S754_finite false m e.
Proof.
  intros [-> | [-> | ->]]; eexists; eexists; vm_compute; reflexivity.
Qed.

(** A float below zero is a negative finite number or minus infinity. *)
Lemma float_negative_inv (f : PyFloat.float) :
  PyFloat.ltb f (S754_zero false) = true ->
  f = S754_infinity true \/ exists m e, f = S754_finite true m e.
Proof.
  destruct f as [s | s | | s m e]; cbn; try discriminate.
  - destruct s; cbn; try discriminate. auto.
  - destruct s; cbn; try discriminate. eauto.
Qed.

Lemma negative_float_below (f : PyFloat.float) (k : Z) :
  PyFloat.ltb f (S754_zero false) = true ->
  k = 1000000000 \/ k = 1000000 \/ k = 1000 ->
  PyFloat.geb f (PyFloat.of_Z k) = false.
Proof.
  intros Hneg Hk.
  destruct (of_Z_threshold k Hk) as (m & e & ->).
  destruct (float_negative_inv f Hneg) as [-> | (m' & e' & ->)]; reflexivity.
Qed.

End FormatCurrency.

(** C3. The formatter at its boundaries: 0 gives "$0", 999 gives "$999.00",
    one thousand, one million and one billion give "$1.00K", "$1.00M" and
    "$1.00B", and both [None] and NaN give "$0". *)
Theorem format_currency_boundaries :
  format_currency (AInt 0) = Ok "$0" /\
  format_currency (AInt 999) = Ok "$999.00" /\
  format_currency (AInt 1000) = Ok "$1.00K" /\
  format_currency (AInt 1000000) = Ok "$1.00M" /\
  format_currency (AInt 1000000000) = Ok "$1.00B" /\
  format_currency ANone = Ok "$0" /\
  format_currency (AFloat S754_nan) = Ok "$0".
Proof.
  repeat split; vm_compute; reflexivity.
Qed.

(** The same boundaries as floats, and the values around them. *)
Example format_currency_floats :
  map (fun z => format_currency (AFloat (PyFloat.of_Z z)))
    [0; 999; 1000; 999999; 1000000; 999999999; 1000000000; 2500000500] =
  [Ok "$0"; Ok "$999.00"; Ok "$1.00K"; Ok "$1000.00K"; Ok "$1.00M";
   Ok "$1000.00M"; Ok "$1.00B"; Ok "$2.50B"].
Proof. vm_compute. reflexivity. Qed.

(** C9. A negative amount never gets a B, M or K suffix: the formatter
    returns "$" followed by the plain [.2f] rendering of the amount itself
    (and raises exactly when that rendering raises). *)
Theorem format_currency_negative (a : amount) :
  negative a ->
  format_currency a = let* s := format_2f a in Ok ("$" ++ s)%string.
Proof.
  destruct a as [| z | f | s]; cbn [negative]; intros Hneg;
    [contradiction | | | contradiction].
  - unfold format_currency; cbn [is_None pd_isna eq_int ge_int orb bind].
    replace (z =? 0) with false by (symmetry; apply Z.eqb_neq; lia).
    replace (1000000000 <=? z) with false by (symmetry; apply Z.leb_gt; lia).
    replace (1000000 <=? z) with false by (symmetry; apply Z.leb_gt; lia).
    replace (1000 <=? z) with false by (symmetry; apply Z.leb_gt; lia).
    reflexivity.
  - unfold format_currency; cbn [is_None pd_isna eq_int ge_int orb bind].
    rewrite !negative_float_below by auto.
    destruct (float_negative_inv f Hneg) as [-> | (m & e & ->)]; reflexivity.
Qed.

Lemma format_currency_negative_witness :
  negative (AInt (-2000000000)) /\
  format_currency (AInt (-2000000000)) = Ok "$-2000000000.00".
Proof.
  split.
  - cbn; lia.
  - rewrite (format_currency_negative (AInt (-2000000000))).
    + vm_compute; reflexivity.
    + cbn; lia.
Defined.

(** ** The stable sort *)

Section StableSortFacts.

Context {A : Type} (above : A -> A -> bool).

Hypothesis above_asym : forall x y, above x y = true -> above y x = false.
Hypothesis not_below_trans :
  forall x y z, not_below above x y -> not_below above y z -> not_below above x z.

Lemma insert_desc_perm (x : A) (l : list A) :
  Permutation (insert_desc above x l) (x :: l).
Proof.
  induction l as [| y l IH]; cbn.
  - reflexivity.
  - destruct (above y x).
    + rewrite IH. apply perm_swap.
    + reflexivity.
Qed.

Lemma sort_desc_perm (l : list A) : Permutation (sort_desc above l) l.
Proof.
  induction l as [| x l IH]; cbn.
  - constructor.
  - rewrite insert_desc_perm. now constructor.
Qed.

Lemma sort_desc_length (l : list A) :
  List.length (sort_desc above l) = List.length l.
Proof. apply Permutation_length, sort_desc_perm. Qed.

Lemma insert_desc_sorted (x : A) (l : list A) :
  StronglySorted (not_below above) l ->
  StronglySorted (not_below above) (insert_desc above x l).
Proof.
  induction 1 as [| y l Hl IH Hy]; cbn.
  - repeat constructor.
  - destruct (above y x) eqn:Hyx.
    + constructor; [exact IH |].
      eapply Permutation_Forall.
      * symmetry. apply insert_desc_perm.
      * constructor; [apply above_asym, Hyx | exact Hy].
    + constructor; [now constructor |].
      constructor; [exact Hyx |].
      eapply Forall_impl; [| exact Hy].
      intros z Hz. eapply not_below_trans; [exact Hyx | exact Hz].
Qed.

Lemma sort_desc_sorted (l : list A) :
  StronglySorted (not_below above) (sort_desc above l).
Proof.
  induction l as [| x l IH]; cbn.
  - constructor.
  - now apply insert_desc_sorted.
Qed.

(** Stability: a class of elements none of which ranks above another
    comes out in the order it went in. *)
Section Stable.

Variable p : A -> bool.
Hypothesis p_ties : forall x y, p x = true -> p y = true -> above x y = false.

Lemma insert_desc_filter (x : A) (l : list A) :
  filter p (insert_desc above x l) = filter p (x :: l).
Proof.
  induction l as [| y l IH]; cbn.
  - reflexivity.
  - destruct (above y x) eqn:Hyx; [| reflexivity].
    cbn. rewrite IH. cbn.
    destruct (p y) eqn:Hy, (p x) eqn:Hx; try reflexivity.
    rewrite (p_ties y x Hy Hx) in Hyx. discriminate.
Qed.

Lemma sort_desc_filter (l : list A) :
  filter p (sort_desc above l) = filter p l.
Proof.
  induction l as [| x l IH]; cbn.
  - reflexivity.
  - rewrite insert_desc_filter. cbn. now rewrite IH.
Qed.

End Stable.

End StableSortFacts.

(** Prefixes of sorted lists. *)
Lemma In_firstn {A : Type} (n : nat) (l : list A) (x : A) :
  In x (firstn n l) -> In x l.
Proof.
  intros H. rewrite <- (firstn_skipn n l). apply in_or_app. now left.
Qed.

Lemma StronglySorted_firstn {A : Type} (R : A -> A -> Prop) (n : nat) (l : list A) :
  StronglySorted R l -> StronglySorted R (firstn n l).
Proof.
  intros H. revert n.
  induction H as [| x l Hl IH Hx]; intros [| n]; cbn; try constructor.
  - apply IH.
  - rewrite Forall_forall in *. intros y Hy. apply Hx.
    eapply In_firstn, Hy.
Qed.

(** ** The descending order of a float column *)

Section FloatOrder.

Lemma lex_cmp_lt (a b : Z * Z * Z) : lex_cmp a b = Lt <-> lex_lt a b.
Proof.
  destruct a as [[a1 a2] a3], b as [[b1 b2] b3]; cbn.
  destruct (Z.compare_spec a1 b1), (Z.compare_spec a2 b2),
    (Z.compare_spec a3 b3); split; intros H'; try discriminate;
    try reflexivity; lia.
Qed.

(** IEEE comparison is the lexicographic comparison of the ranks. *)
Lemma SFcompare_rank (a b : PyFloat.float) :
  SFcompare a b =
  if PyFloat.is_nan a || PyFloat.is_nan b then None
  else Some (lex_cmp (rank a) (rank b)).
Proof.
  destruct a as [s | s | | s m e], b as [s' | s' | | s' m' e'];
    try destruct s; try destruct s'; try reflexivity; cbn.
  rewrite Z.compare_opp, (Z.compare_antisym e e').
  change (PosDef.Pos.compare_cont Eq m m') with (m ?= m')%positive.
  now destruct (e ?= e').
Qed.

Lemma float_above_rank (a b : PyFloat.float) :
  float_above a b = true <-> lex_lt (rank b) (rank a).
Proof.
  rewrite <- lex_cmp_lt.
  unfold float_above, PyFloat.ltb, SFltb. rewrite SFcompare_rank.
  destruct (PyFloat.is_nan a) eqn:Ha, (PyFloat.is_nan b) eqn:Hb; cbn.
  - destruct a; try discriminate. destruct b; try discriminate.
    cbn. split; discriminate.
  - destruct a; try discriminate.
    destruct b as [[] | [] | | [] m e]; try discriminate; cbn;
      split; discriminate.
  - destruct b; try discriminate.
    destruct a as [[] | [] | | [] m e]; try discriminate; cbn;
      split; reflexivity.
  - destruct (lex_cmp (rank b) (rank a)); split; intros H;
      try reflexivity; discriminate.
Qed.

Lemma float_above_false (a b : PyFloat.float) :
  float_above a b = false <-> ~ lex_lt (rank b) (rank a).
Proof.
  rewrite <- float_above_rank. destruct (float_above a b); split;
    intros H; try reflexivity; try discriminate; try (intros H'; discriminate).
  now elim H.
Qed.

Lemma float_above_asym (a b : PyFloat.float) :
  float_above a b = true -> float_above b a = false.
Proof.
  rewrite float_above_rank, float_above_false.
  destruct (rank a) as [[a1 a2] a3], (rank b) as [[b1 b2] b3]; cbn; lia.
Qed.

Lemma float_not_above_trans (a b c : PyFloat.float) :
  float_above b a = false -> float_above c b = false -> float_above c a = false.
Proof.
  rewrite !float_above_false.
  destruct (rank a) as [[a1 a2] a3], (rank b) as [[b1 b2] b3],
    (rank c) as [[c1 c2] c3]; cbn; lia.
Qed.

(** Two values that tie with a third do not rank above one another. *)
Lemma float_ties (v a b : PyFloat.float) :
  float_tied v a = true -> float_tied v b = true -> float_above a b = false.
Proof.
  unfold float_tied. rewrite !andb_true_iff, !negb_true_iff, !float_above_false.
  destruct (rank a) as [[a1 a2] a3], (rank b) as [[b1 b2] b3],
    (rank v) as [[v1 v2] v3]; cbn; lia.
Qed.

(** The reading of "not ranked above": the later value is missing, or
    both are present and the earlier is at least the later. *)
Lemma float_above_descending (a b : PyFloat.float) :
  float_above b a = false <-> descending a b.
Proof.
  unfold descending, float_above, PyFloat.geb, PyFloat.ltb, SFleb, SFltb.
  rewrite !SFcompare_rank.
  destruct (PyFloat.is_nan b) eqn:Hb, (PyFloat.is_nan a) eqn:Ha; cbn;
    try tauto.
  - split; [discriminate | intros [H | [H _]]; discriminate].
  - assert (Hsym : lex_cmp (rank b) (rank a) = CompOpp (lex_cmp (rank a) (rank b))).
    { destruct (rank a) as [[a1 a2] a3], (rank b) as [[b1 b2] b3]; cbn.
      rewrite (Z.compare_antisym a1 b1), (Z.compare_antisym a2 b2),
        (Z.compare_antisym a3 b3).
      destruct (a1 ?= b1), (a2 ?= b2), (a3 ?= b3); reflexivity. }
    rewrite Hsym. destruct (lex_cmp (rank a) (rank b)); cbn; split;
      intros H; try reflexivity; try discriminate; auto;
      destruct H as [H | [_ H]]; discriminate.
Qed.

End FloatOrder.

(** ** Facts about the pandas operations *)

Section PandasFacts.

Lemma select_map {A B : Type} (f : A -> B) (l : list A) (mask : list bool) :
  select (map f l) mask = map f (select l mask).
Proof.
  revert mask. induction l as [| x l IH]; intros [| b mask]; cbn; try reflexivity.
  destruct b; cbn; now rewrite IH.
Qed.

(** A mask computed from the list itself is a [filter]. *)
Lemma select_filter {A : Type} (keep : A -> bool) (l : list A) :
  select l (map keep l) = filter keep l.
Proof.
  induction l as [| x l IH]; cbn; [reflexivity |].
  destruct (keep x); now rewrite IH.
Qed.

Lemma select_all_false {A B : Type} (l : list A) (s : list B) :
  select l (map (fun _ => false) s) = [].
Proof.
  revert s. induction l as [| x l IH]; intros [| c s]; cbn; auto.
Qed.

Lemma has_column_pos (c : string) (df : DataFrame) :
  has_column c df = true <-> exists i, column_pos c (columns df) = Some i.
Proof.
  unfold has_column. destruct (column_pos c (columns df)) as [i |].
  - split; eauto.
  - split; [discriminate | intros [i H]; discriminate].
Qed.

Lemma has_column_false (c : string) (df : DataFrame) :
  has_column c df = false <-> column_pos c (columns df) = None.
Proof.
  unfold has_column. destruct (column_pos c (columns df)); split;
    congruence.
Qed.

Lemma getitem_ok (c : string) (df : DataFrame) :
  has_column c df = true -> exists s, getitem df c = Ok s.
Proof.
  rewrite has_column_pos. intros [i H]. unfold getitem. rewrite H. eauto.
Qed.

Lemma getitem_has_column (c : string) (df : DataFrame) (s : Series) :
  getitem df c = Ok s -> has_column c df = true.
Proof.
  unfold getitem, has_column. now destruct (column_pos c (columns df)).
Qed.

Lemma getitem_missing (c : string) (df : DataFrame) :
  has_column c df = false -> getitem df c = Raise (KeyError c).
Proof.
  rewrite has_column_false. unfold getitem. now intros ->.
Qed.

Lemma getitem_value_at (c : string) (df : DataFrame) (s : Series) :
  getitem df c = Ok s -> s = map (value_at df c) (rows df).
Proof.
  unfold getitem, value_at.
  destruct (column_pos c (columns df)); [| discriminate].
  now intros [= <-].
Qed.

(** Boolean indexing keeps the columns and selects in every column. *)
Lemma getitem_bool_index (c : string) (df : DataFrame) (mask : list bool) :
  getitem (bool_index df mask) c =
  let* s := getitem df c in Ok (select s mask).
Proof.
  unfold getitem, bool_index; cbn.
  destruct (column_pos c (columns df)); cbn; [| reflexivity].
  now rewrite select_map.
Qed.

Lemma has_column_bool_index (c : string) (df : DataFrame) (mask : list bool) :
  has_column c (bool_index df mask) = has_column c df.
Proof. reflexivity. Qed.

(** [isin] on the column of a frame, row by row. *)
Lemma isin_rows (c : string) (df : DataFrame) (s : Series) (values : list cell) :
  getitem df c = Ok s ->
  bool_index df (isin s values) =
  {| columns := columns df;
     rows := filter (fun r => cell_in (value_at df c r) values) (rows df) |}.
Proof.
  intros H. rewrite (getitem_value_at _ _ _ H).
  unfold bool_index, isin. rewrite map_map.
  now rewrite (select_filter (fun r => cell_in (value_at df c r) values)).
Qed.

(** On strings, membership for [isin] is membership in the list. *)
Lemma cell_in_str (s : string) (values : list cell) :
  cell_in (CStr s) values = true <-> In (CStr s) values.
Proof.
  unfold cell_in. rewrite existsb_exists. split.
  - intros [[| t | f] [Hin Heq]]; cbn in Heq; try discriminate.
    apply String.eqb_eq in Heq. now subst.
  - intros Hin. exists (CStr s). split; [exact Hin |].
    cbn. apply String.eqb_refl.
Qed.

(** *** The fuel of the pairwise sum

    Splitting stops at blocks of at most 128 values; fuel beyond the
    length of the list is never used. *)

Lemma pairwise_sum_more_fuel (fuel : nat) :
  forall l : list PyFloat.float,
    (List.length l <= fuel)%nat ->
    pairwise_sum (S fuel) l = pairwise_sum fuel l.
Proof.
  induction fuel as [| fuel IH]; intros l Hlen.
  - destruct l; [reflexivity | cbn in Hlen; lia].
  - change (pairwise_sum (S (S fuel)) l) with
      (if (128 <? List.length l)%nat then
         PyFloat.add
           (pairwise_sum (S fuel)
              (firstn (List.length l / 2 - (List.length l / 2) mod 8) l))
           (pairwise_sum (S fuel)
              (skipn (List.length l / 2 - (List.length l / 2) mod 8) l))
       else unrolled_sum l).
    change (pairwise_sum (S fuel) l) with
      (if (128 <? List.length l)%nat then
         PyFloat.add
           (pairwise_sum fuel
              (firstn (List.length l / 2 - (List.length l / 2) mod 8) l))
           (pairwise_sum fuel
              (skipn (List.length l / 2 - (List.length l / 2) mod 8) l))
       else unrolled_sum l).
    destruct (Nat.ltb_spec 128 (List.length l)) as [Hlong | Hshort];
      [| reflexivity].
    pose proof (Nat.div_mod_eq (List.length l) 2) as Hhalf.
    pose proof (Nat.mod_upper_bound (List.length l) 2) as Hrem.
    pose proof (Nat.mod_upper_bound (List.length l / 2) 8) as Hblock.
    rewrite !IH; [reflexivity | |].
    + rewrite length_skipn. lia.
    + rewrite length_firstn. lia.
Qed.

Lemma pairwise_sum_fuel (fuel : nat) (l : list PyFloat.float) :
  (List.length l <= fuel)%nat ->
  pairwise_sum fuel l = pairwise_sum (List.length l) l.
Proof.
  induction 1 as [| fuel Hle IH]; [reflexivity |].
  now rewrite pairwise_sum_more_fuel.
Qed.

End PandasFacts.

(** ** Filtering *)

(** C1. Whatever the selected protocols [S], after line 90 the Protocol
    values of the filtered TVL table are those of the original table that
    belong to [S], no more and no fewer; the table has the original columns,
    and its rows are the original rows with a selected Protocol, unchanged
    and in their original order. *)
Theorem protocol_filter_correct (df_protocols_tvl : DataFrame) (S : list cell)
    (p : Series) :
  getitem df_protocols_tvl "Protocol" = Ok p ->
  exists ft,
    protocol_filter df_protocols_tvl S = Ok ft /\
    getitem ft "Protocol" = Ok (filter (fun c => cell_in c S) p) /\
    (forall c, In c (filter (fun c => cell_in c S) p) <->
               In c p /\ cell_in c S = true) /\
    (forall s, In (CStr s) (filter (fun c => cell_in c S) p) <->
               In (CStr s) p /\ In (CStr s) S) /\
    columns ft = columns df_protocols_tvl /\
    rows ft =
      filter (fun r => cell_in (value_at df_protocols_tvl "Protocol" r) S)
        (rows df_protocols_tvl).
Proof.
  intros Hp. unfold protocol_filter. rewrite Hp. cbn [bind].
  eexists. split; [reflexivity |].
  split; [| split; [| split; [| split]]].
  - rewrite getitem_bool_index, Hp. cbn [bind]. unfold isin.
    now rewrite select_filter.
  - intros c. apply filter_In.
  - intros s. rewrite filter_In, cell_in_str. reflexivity.
  - reflexivity.
  - now rewrite (isin_rows _ _ _ _ Hp).
Qed.

Lemma protocol_filter_correct_witness :
  exists ft,
    protocol_filter scenario_tvl [CStr "B"; CStr "Z"] = Ok ft /\
    getitem ft "Protocol" = Ok [CStr "B"] /\
    rows ft = [[CStr "B"; CStr "Cat2"; num 2500000000]].
Proof.
  destruct (protocol_filter_correct scenario_tvl [CStr "B"; CStr "Z"]
              [CStr "A"; CStr "B"] eq_refl)
    as (ft & Hft & Hcol & _ & _ & _ & Hrows).
  exists ft. split; [exact Hft |]. split; [exact Hcol | exact Hrows].
Defined.

(** *** The sidebar and the category filter *)

Lemma multiselect_no_options (default : list cell) (picked : option (list nat)) :
  default = [] -> multiselect [] default picked = [].
Proof.
  intros ->. destruct picked as [picks |]; cbn; [| reflexivity].
  induction picks as [| i picks IH]; cbn; [reflexivity |].
  now destruct i.
Qed.

Lemma categories_without_column (df : DataFrame) :
  has_column "Category" df = false -> categories df = Ok [].
Proof. unfold categories. now intros ->. Qed.

(** What a successful sidebar tells about its table and its result. *)
Lemma sidebar_inv (df : DataFrame) (ui : widgets) (sel : selection) :
  sidebar df ui = Ok sel ->
  exists ps cs,
    protocols df = Ok ps /\ categories df = Ok cs /\
    selected_protocols sel = multiselect ps (default_protocols ps) (protocol_picks ui) /\
    selected_categories sel = multiselect cs cs (category_picks ui).
Proof.
  unfold sidebar.
  destruct (protocols df) as [ps | e]; cbn [bind]; [| discriminate].
  destruct (categories df) as [cs | e]; cbn [bind]; [| discriminate].
  intros [= <-]. exists ps, cs. cbn. auto.
Qed.

Lemma protocols_has_column (df : DataFrame) (ps : list cell) :
  protocols df = Ok ps -> has_column "Protocol" df = true.
Proof.
  unfold protocols. destruct (getitem df "Protocol") as [p | e] eqn:Hp;
    cbn [bind]; [| discriminate].
  intros _. eapply getitem_has_column, Hp.
Qed.

Lemma sidebar_categories (df : DataFrame) (ui : widgets) (sel : selection) :
  sidebar df ui = Ok sel ->
  selected_categories sel <> [] -> has_column "Category" df = true.
Proof.
  intros Hs Hne. destruct (sidebar_inv _ _ _ Hs) as (ps & cs & _ & Hcs & _ & Hsel).
  destruct (has_column "Category" df) eqn:Hc; [reflexivity |].
  rewrite (categories_without_column _ Hc) in Hcs. injection Hcs as <-.
  rewrite multiselect_no_options in Hsel by reflexivity. contradiction.
Qed.

Lemma protocol_filter_ok (df : DataFrame) (S : list cell) :
  has_column "Protocol" df = true ->
  exists p, getitem df "Protocol" = Ok p /\
            protocol_filter df S = Ok (bool_index df (isin p S)).
Proof.
  intros H. destruct (getitem_ok _ _ H) as [p Hp]. exists p.
  unfold protocol_filter. now rewrite Hp.
Qed.

Lemma category_filter_ok (df : DataFrame) (S : list cell) :
  (S <> [] -> has_column "Category" df = true) ->
  exists ft, category_filter df S = Ok ft.
Proof.
  intros H. destruct S as [| c S]; cbn; [eauto |].
  destruct (getitem_ok "Category" df) as [s Hs]; [apply H; discriminate |].
  rewrite Hs. cbn. eauto.
Qed.

Lemma filtered_tvl_ok (df : DataFrame) (ui : widgets) (sel : selection) :
  sidebar df ui = Ok sel -> exists ft, filtered_tvl df sel = Ok ft.
Proof.
  intros Hs. destruct (sidebar_inv _ _ _ Hs) as (ps & cs & Hps & _ & _ & _).
  destruct (protocol_filter_ok df (selected_protocols sel)
              (protocols_has_column _ _ Hps)) as (p & Hp & Hpf).
  unfold filtered_tvl. rewrite Hpf. cbn [bind].
  apply category_filter_ok. intros Hne.
  rewrite has_column_bool_index. eapply sidebar_categories; eauto.
Qed.

(** C10. The rows are selected by Category only for a non-empty category
    selection; the selection the sidebar returns is non-empty only for a
    table with a Category column; so after a sidebar that went through, the
    category step finds its column and the filtered TVL table is produced,
    without a key error. *)
Theorem category_filter_safe (df_protocols_tvl : DataFrame) (ui : widgets)
    (sel : selection) :
  sidebar df_protocols_tvl ui = Ok sel ->
  (forall df, category_filter df [] = Ok df) /\
  (selected_categories sel <> [] -> has_column "Category" df_protocols_tvl = true) /\
  (forall by_protocol,
      protocol_filter df_protocols_tvl (selected_protocols sel) = Ok by_protocol ->
      exists ft, category_filter by_protocol (selected_categories sel) = Ok ft) /\
  (exists ft, filtered_tvl df_protocols_tvl sel = Ok ft).
Proof.
  intros Hs. split; [reflexivity |]. split; [| split].
  - eapply sidebar_categories, Hs.
  - intros bp Hbp. apply category_filter_ok. intros Hne.
    pose proof (sidebar_categories _ _ _ Hs Hne) as Hc.
    unfold protocol_filter in Hbp.
    destruct (getitem df_protocols_tvl "Protocol"); cbn in Hbp; [| discriminate].
    injection Hbp as <-. exact Hc.
  - eapply filtered_tvl_ok, Hs.
Qed.

Lemma category_filter_safe_witness :
  exists sel ft,
    sidebar scenario_tvl {| protocol_picks := None; category_picks := Some [1%nat] |}
      = Ok sel /\
    selected_categories sel = [CStr "Cat2"] /\
    filtered_tvl scenario_tvl sel = Ok ft.
Proof.
  eexists. 
  destruct (category_filter_safe scenario_tvl
              {| protocol_picks := None; category_picks := Some [1%nat] |}
              _ eq_refl) as (_ & _ & _ & ft & Hft).
  exists ft. split; [reflexivity |]. split; [reflexivity | exact Hft].
Defined.

(** ** Rankings *)

Lemma StronglySorted_impl {A : Type} (R Q : A -> A -> Prop) (l : list A) :
  (forall x y, R x y -> Q x y) -> StronglySorted R l -> StronglySorted Q l.
Proof.
  intros HRQ. induction 1 as [| x l Hl IH Hx]; constructor; auto.
  eapply Forall_impl; [| exact Hx]. auto.
Qed.

(** In a sorted list nothing of the tail ranks before anything of the head. *)
Lemma StronglySorted_app_cross {A : Type} (R : A -> A -> Prop) (l1 l2 : list A) :
  StronglySorted R (l1 ++ l2) ->
  Forall (fun y => Forall (fun x => R x y) l1) l2.
Proof.
  induction l1 as [| x l1 IH]; cbn; intros H.
  - apply Forall_forall. intros y _. constructor.
  - inversion H as [| ? ? Hs Hx]; subst.
    specialize (IH Hs). rewrite Forall_forall in *.
    intros y Hy. constructor; [| now apply IH].
    apply Hx. apply in_or_app. now right.
Qed.

Section Rankings.

Variables (df : DataFrame) (c : string) (i : nat).
Hypothesis Hpos : column_pos c (columns df) = Some i.

Lemma ranks_above_metric (r1 r2 : list cell) :
  ranks_above i r1 r2 = float_above (metric df c r1) (metric df c r2).
Proof. unfold ranks_above, metric, value_at. now rewrite Hpos. Qed.

Lemma ranks_above_asym (r1 r2 : list cell) :
  ranks_above i r1 r2 = true -> ranks_above i r2 r1 = false.
Proof. apply float_above_asym. Qed.

Lemma ranks_not_below_trans (r1 r2 r3 : list cell) :
  not_below (ranks_above i) r1 r2 -> not_below (ranks_above i) r2 r3 ->
  not_below (ranks_above i) r1 r3.
Proof. unfold not_below. apply float_not_above_trans. Qed.

Lemma not_below_descending (r1 r2 : list cell) :
  not_below (ranks_above i) r1 r2 ->
  descending (metric df c r1) (metric df c r2).
Proof.
  unfold not_below. rewrite ranks_above_metric. apply float_above_descending.
Qed.

(** The first [n] rows of the sorted table are a top-[n] ranking. *)
Lemma sorted_prefix_top_n (n : nat) :
  top_n_of n c df (firstn n (sort_desc (ranks_above i) (rows df))).
Proof.
  pose proof (sort_desc_sorted (ranks_above i) ranks_above_asym
                ranks_not_below_trans (rows df)) as Hsorted.
  repeat split.
  - now rewrite length_firstn, sort_desc_length.
  - apply StronglySorted_firstn.
    eapply StronglySorted_impl; [| exact Hsorted].
    apply not_below_descending.
  - intros v.
    exists (filter (fun r => float_tied v (metric df c r))
              (skipn n (sort_desc (ranks_above i) (rows df)))).
    rewrite <- filter_app, firstn_skipn.
    symmetry. apply sort_desc_filter.
    intros x y Hx Hy. rewrite ranks_above_metric.
    eapply float_ties; eassumption.
  - exists (skipn n (sort_desc (ranks_above i) (rows df))). split.
    + rewrite firstn_skipn. apply sort_desc_perm.
    + rewrite <- (firstn_skipn n) in Hsorted.
      apply StronglySorted_app_cross in Hsorted.
      eapply Forall_impl; [| exact Hsorted].
      intros r Hr. eapply Forall_impl; [| exact Hr].
      intros t. apply not_below_descending.
Qed.

End Rankings.

Lemma numeric_column_inv (c : string) (df : DataFrame) :
  numeric_column c df = true ->
  exists i fs, column_pos c (columns df) = Some i /\
               float_values (map (cell_at i) (rows df)) = Ok fs.
Proof.
  unfold numeric_column, getitem.
  destruct (column_pos c (columns df)) as [i |]; [| discriminate].
  destruct (float_values (map (cell_at i) (rows df))) as [fs | e] eqn:Hfs;
    [| discriminate].
  intros _. eauto.
Qed.

Lemma nlargest_top_n (n : nat) (c : string) (df : DataFrame) :
  numeric_column c df = true ->
  exists top, nlargest n c df = Ok top /\
              columns top = columns df /\
              top_n_of n c df (rows top).
Proof.
  intros H. destruct (numeric_column_inv _ _ H) as (i & fs & Hpos & Hfs).
  unfold nlargest. rewrite Hpos, Hfs. cbn [bind].
  eexists. split; [reflexivity |]. split; [reflexivity |].
  now apply sorted_prefix_top_n.
Qed.

Lemma positions_ok (cols have : list string) :
  forallb (fun c => match column_pos c have with Some _ => true | None => false end)
    cols = true ->
  exists ps, positions cols have = Some ps.
Proof.
  induction cols as [| c cols IH]; cbn; [eauto |].
  destruct (column_pos c have) as [i |]; cbn; [| discriminate].
  intros H. destruct (IH H) as [ps ->]. eauto.
Qed.

Lemma getitems_ok (cols : list string) (df : DataFrame) :
  has_columns cols df = true -> exists shown, getitems df cols = Ok shown.
Proof.
  intros H. unfold getitems.
  destruct (positions_ok cols (columns df) H) as [ps ->]. eauto.
Qed.

Lemma has_columns_same (cols : list string) (df df' : DataFrame) :
  columns df' = columns df -> has_columns cols df' = has_columns cols df.
Proof.
  intros H. unfold has_columns, has_column. now rewrite H.
Qed.

Lemma empty_rows (df : DataFrame) (c : string) :
  has_column c df = true -> empty df = true -> rows df = [].
Proof.
  unfold has_column, empty. destruct (rows df); [reflexivity |].
  destruct (columns df); cbn; discriminate.
Qed.

Lemma top_n_of_nothing (n : nat) (c : string) (df : DataFrame) :
  rows df = [] -> top_n_of n c df [].
Proof.
  intros H. unfold top_n_of. rewrite H. repeat split.
  - cbn. now rewrite Nat.min_0_r.
  - constructor.
  - intros v. exists []. reflexivity.
  - exists []. split; constructor.
Qed.

Lemma top_section_top_n (df : DataFrame) (c : string) :
  numeric_column c df = true ->
  exists top, top_section df c = Ok top /\
              top_n_of 10 c df (ranked_rows top) /\
              (forall t, top = Some t -> columns t = columns df).
Proof.
  intros Hnum. unfold top_section.
  destruct (empty df) eqn:He.
  - exists None. split; [reflexivity |]. split; [| discriminate].
    apply top_n_of_nothing.
    destruct (numeric_column_inv _ _ Hnum) as (i & fs & Hpos & _).
    eapply empty_rows; [| exact He]. apply has_column_pos. eauto.
  - destruct (nlargest_top_n 10 c df Hnum) as (top & -> & Hcols & Htop).
    cbn [bind]. exists (Some top). split; [reflexivity |].
    split; [exact Htop |]. now intros t [= <-].
Qed.

Lemma shown_table_ok (top : option DataFrame) (df : DataFrame) (shown : list string) :
  (forall t, top = Some t -> columns t = columns df) ->
  has_columns shown df = true ->
  exists table, shown_table top shown = Ok table.
Proof.
  intros Hcols Hshown. destruct top as [t |]; cbn; [| eauto].
  destruct (getitems_ok shown t) as [table ->].
  { now rewrite (has_columns_same shown df t (Hcols t eq_refl)). }
  cbn. eauto.
Qed.



(** The ranking of the twelve-row table: ties in table order, the two
    rows without a value ranked last and cut off. *)
Example top_tvl_ranking_tvl :
  (let* top := top_tvl ranking_tvl in getitem top "Protocol") =
  Ok [CStr "f"; CStr "c"; CStr "h"; CStr "l"; CStr "a"; CStr "d"; CStr "j";
      CStr "k"; CStr "i"; CStr "e"].
Proof. vm_compute. reflexivity. Qed.

(** With three rows, the row without a value is kept, last. *)
Example top_tvl_bare_tvl :
  (let* top := top_tvl bare_tvl in getitem top "Protocol") =
  Ok [CStr "B"; CStr "C"; CStr "A"].
Proof. vm_compute. reflexivity. Qed.

(** ** The overview join *)

Lemma remove_at_length {A : Type} (i : nat) (l : list A) :
  (i < List.length l)%nat -> List.length (remove_at i l) = (List.length l - 1)%nat.
Proof.
  revert i. induction l as [| x l IH]; intros [| i]; cbn; intros H; try lia.
  rewrite IH by lia. destruct l; cbn in *; lia.
Qed.

Lemma column_pos_lt (c : string) (cols : list string) (i : nat) :
  column_pos c cols = Some i -> (i < List.length cols)%nat.
Proof.
  revert i. induction cols as [| c' cols IH]; cbn; [discriminate |].
  destruct (String.eqb c c').
  - intros i [= <-]. lia.
  - destruct (column_pos c cols) as [k |]; cbn; [| discriminate].
    intros i [= <-]. specialize (IH k eq_refl). lia.
Qed.

(** The TVL part of every output row of one TVL row is that row. *)
Lemma joined_left_part (i j width : nat) (right_rows : list (list cell))
    (l : list cell) :
  map (firstn (List.length l)) (joined i j width right_rows l) =
  repeat l (Nat.max 1 (List.length (matches i j right_rows l))).
Proof.
  unfold joined. destruct (matches i j right_rows l) as [| r ms].
  - cbn. now rewrite firstn_app, firstn_all, Nat.sub_diag, firstn_O, app_nil_r.
  - rewrite map_map. change (Nat.max 1 (List.length (r :: ms))) with (List.length (r :: ms)).
    induction (r :: ms) as [| r' ms' IH]; cbn; [reflexivity |].
    rewrite IH. f_equal.
    now rewrite firstn_app, firstn_all, Nat.sub_diag, firstn_O, app_nil_r.
Qed.

Lemma flat_map_joined_left (i j width w : nat) (right_rows left_rows : list (list cell)) :
  Forall (fun r => List.length r = w) left_rows ->
  map (firstn w) (flat_map (joined i j width right_rows) left_rows) =
  flat_map (fun l => repeat l (Nat.max 1 (List.length (matches i j right_rows l))))
    left_rows.
Proof.
  induction 1 as [| l ls Hl Hls IH]; cbn; [reflexivity |].
  rewrite map_app, IH. f_equal.
  rewrite <- Hl. apply joined_left_part.
Qed.

Lemma flat_map_repeat_once {A : Type} (count : A -> nat) (l : list A) :
  (forall x, In x l -> count x = 1%nat) ->
  flat_map (fun x => repeat x (count x)) l = l.
Proof.
  induction l as [| x l IH]; cbn; intros H; [reflexivity |].
  rewrite (H x) by now left. cbn. f_equal. apply IH. intros y Hy. apply H. now right.
Qed.

(** C4 (amended). In the left join of the filtered TVL table with the
    filtered market table, the output rows are the TVL rows in their order,
    each once per market row with the same Protocol and once, with NaN in
    every market column, when there is none: no TVL row is dropped, and
    each TVL row appears exactly once whenever at most one market row has
    its Protocol. *)
Theorem overview_join_rows (filtered_tvl filtered_market : DataFrame) (i j : nat) :
  column_pos "Protocol" (columns filtered_tvl) = Some i ->
  column_pos "Protocol" (columns filtered_market) = Some j ->
  string_column "Protocol" filtered_tvl = true ->
  string_column "Protocol" filtered_market = true ->
  aligned filtered_tvl ->
  exists ov,
    overview_df filtered_tvl filtered_market = Ok ov /\
    map (firstn (List.length (columns filtered_tvl))) (rows ov) =
      flat_map
        (fun l => repeat l
           (Nat.max 1 (List.length (matches i j (rows filtered_market) l))))
        (rows filtered_tvl) /\
    (forall l, In l (rows filtered_tvl) ->
               matches i j (rows filtered_market) l = [] ->
               In (l ++ repeat NaN (List.length (columns filtered_market) - 1))
                 (rows ov)) /\
    ((forall l, In l (rows filtered_tvl) ->
                (List.length (matches i j (rows filtered_market) l) <= 1)%nat) ->
     map (firstn (List.length (columns filtered_tvl))) (rows ov) =
       rows filtered_tvl).
Proof.
  intros Hi Hj _ _ Hwf.
  unfold overview_df, merge_left. rewrite Hi, Hj.
  eexists. split; [reflexivity |]. cbn [rows].
  rewrite (flat_map_joined_left _ _ _ _ _ _ Hwf).
  split; [reflexivity |]. split.
  - intros l Hl Hnone. apply in_flat_map. exists l. split; [exact Hl |].
    unfold joined. rewrite Hnone.
    rewrite (remove_at_length _ _ (column_pos_lt _ _ _ Hj)). now left.
  - intros Hone. apply flat_map_repeat_once.
    intros l Hl. specialize (Hone l Hl). lia.
Qed.

Lemma overview_join_rows_witness :
  exists ov,
    overview_df scenario_tvl scenario_market = Ok ov /\
    map (firstn 3) (rows ov) = rows scenario_tvl /\
    In ([CStr "B"; CStr "Cat2"; num 2500000000] ++ [NaN; NaN]) (rows ov).
Proof.
  destruct (overview_join_rows scenario_tvl scenario_market 0 0
              eq_refl eq_refl eq_refl eq_refl)
    as (ov & Hov & _ & Hnan & Honce).
  - repeat constructor.
  - exists ov. split; [exact Hov |]. split.
    + apply Honce. intros l _. cbn. lia.
    + apply (Hnan [CStr "B"; CStr "Cat2"; num 2500000000]).
      * cbn. auto.
      * reflexivity.
Defined.

(** C4 does not hold as the specification words it: with two market rows for protocol A, the
    TVL row of A is twice in the join and in the overview table. *)
Lemma overview_join_not_once :
  exists d ov,
    run scenario_tvl scenario_revenue scenario_fees duplicate_market all_defaults
      = Ok d /\
    f_tvl (d_filtered d) = scenario_tvl /\
    f_market (d_filtered d) = duplicate_market /\
    overview_df (f_tvl (d_filtered d)) (f_market (d_filtered d)) = Ok ov /\
    appearances 3 [CStr "A"; CStr "Cat1"; num 500] (rows ov) = 2%nat /\
    appearances 3 [CStr "A"; CStr "Cat1"; num 500] (rows (d_overview d)) = 2%nat.
Proof.
  eexists. eexists.
  split; [vm_compute; reflexivity |].
  cbn [d_filtered f_tvl f_market].
  split; [reflexivity |]. split; [reflexivity |].
  split; [vm_compute; reflexivity |].
  split; vm_compute; reflexivity.
Qed.

(** ** Empty selections *)

Lemma bool_index_nothing (df : DataFrame) (s : Series) :
  rows (bool_index df (isin s [])) = [].
Proof. cbn. apply select_all_false. Qed.

Lemma category_filter_rows_nil (df ft : DataFrame) (S : list cell) :
  rows df = [] -> category_filter df S = Ok ft ->
  rows ft = [] /\ columns ft = columns df.
Proof.
  intros Hnil. destruct S as [| c S]; cbn.
  - intros [= <-]. auto.
  - destruct (getitem df "Category"); cbn; [| discriminate].
    intros [= <-]. cbn. rewrite Hnil. auto.
Qed.

Lemma filtered_tvl_columns (df ft : DataFrame) (sel : selection) :
  filtered_tvl df sel = Ok ft -> columns ft = columns df.
Proof.
  unfold filtered_tvl, protocol_filter.
  destruct (getitem df "Protocol"); cbn [bind]; [| discriminate].
  destruct (selected_categories sel) as [| c S]; cbn.
  - now intros [= <-].
  - match goal with |- context [getitem ?d "Category"] =>
      destruct (getitem d "Category") end; cbn; [| discriminate].
    now intros [= <-].
Qed.

Lemma filtered_tvl_no_protocols (df ft : DataFrame) (sel : selection) :
  selected_protocols sel = [] -> filtered_tvl df sel = Ok ft -> rows ft = [].
Proof.
  intros Hsel. unfold filtered_tvl, protocol_filter. rewrite Hsel.
  destruct (getitem df "Protocol") as [p | e]; cbn [bind]; [| discriminate].
  intros H. eapply category_filter_rows_nil; [| exact H].
  apply bool_index_nothing.
Qed.

(** A table filtered by the keys of an empty TVL table is empty. *)
Lemma filtered_by_nothing (df ft : DataFrame) :
  has_column "Protocol" df = true -> has_column "Protocol" ft = true ->
  rows ft = [] ->
  exists out, filtered_by df ft = Ok out /\ rows out = [] /\
              columns out = columns df.
Proof.
  intros Hdf Hft Hnil. unfold filtered_by.
  destruct (getitem_ok _ _ Hdf) as [p ->].
  destruct (getitem_ok _ _ Hft) as [k Hk]. rewrite Hk. cbn [bind].
  rewrite (getitem_value_at _ _ _ Hk), Hnil. cbn [map].
  eexists. split; [reflexivity |]. split; [apply bool_index_nothing | reflexivity].
Qed.

Lemma getitem_rows_nil (df : DataFrame) (c : string) :
  has_column c df = true -> rows df = [] -> getitem df c = Ok [].
Proof.
  intros H Hnil. destruct (getitem_ok _ _ H) as [s Hs].
  rewrite Hs, (getitem_value_at _ _ _ Hs), Hnil. reflexivity.
Qed.

Lemma has_column_same (c : string) (df df' : DataFrame) :
  columns df' = columns df -> has_column c df' = has_column c df.
Proof. unfold has_column. now intros ->. Qed.


(** ** When the script raises *)

Section Shape.

Lemma Forall_forallb {A : Type} (ok : A -> bool) (l : list A) :
  forallb ok l = true <-> Forall (fun x => ok x = true) l.
Proof.
  rewrite forallb_forall, Forall_forall. reflexivity.
Qed.

Lemma column_all_spec (ok : cell -> bool) (c : string) (df : DataFrame) :
  column_all ok c df = true <->
  exists i, column_pos c (columns df) = Some i /\
            Forall (fun r => ok (cell_at i r) = true) (rows df).
Proof.
  unfold column_all, getitem.
  destruct (column_pos c (columns df)) as [i |].
  - rewrite Forall_forallb, Forall_map. split.
    + intros H. exists i. auto.
    + intros (k & [= <-] & H). exact H.
  - split; [discriminate | intros (k & H & _); discriminate].
Qed.

Lemma float_values_ok (s : Series) :
  (exists fs, float_values s = Ok fs) <->
  Forall (fun x => match x with CFloat _ => true | _ => false end = true) s.
Proof.
  induction s as [| x s IH]; cbn.
  - split; [constructor | eauto].
  - destruct x as [| t | f]; cbn.
    + split; [intros [fs H]; discriminate | intros H; inversion H; discriminate].
    + split; [intros [fs H]; discriminate | intros H; inversion H; discriminate].
    + split.
      * intros [fs H]. constructor; [reflexivity |]. apply IH.
        destruct (float_values s); cbn in H; [eauto | discriminate].
      * intros H. inversion H as [| ? ? _ Hs]; subst.
        apply IH in Hs. destruct Hs as [fs ->]. cbn. eauto.
Qed.

Lemma numeric_column_all (c : string) (df : DataFrame) :
  numeric_column c df = true <->
  column_all (fun x => match x with CFloat _ => true | _ => false end) c df = true.
Proof.
  unfold numeric_column, column_all.
  destruct (getitem df c) as [s | e]; [| reflexivity].
  rewrite Forall_forallb, <- float_values_ok.
  destruct (float_values s) as [fs | e'].
  - split; eauto.
  - split; [discriminate | intros [fs H]; discriminate].
Qed.

Lemma select_incl {A : Type} (l : list A) (mask : list bool) :
  incl (select l mask) l.
Proof.
  revert mask. induction l as [| x l IH]; intros [| b mask]; cbn;
    try (intros y []).
  destruct b.
  - intros y [<- | Hy]; [now left | right; now apply (IH mask)].
  - intros y Hy. right. now apply (IH mask).
Qed.

Lemma inside_trans (a b c : DataFrame) : inside a b -> inside b c -> inside a c.
Proof.
  intros [Hc1 Hr1] [Hc2 Hr2]. split; [congruence | eapply incl_tran; eauto].
Qed.

Lemma bool_index_inside (df : DataFrame) (mask : list bool) :
  inside (bool_index df mask) df.
Proof. split; [reflexivity | apply select_incl]. Qed.

Lemma column_all_inside (ok : cell -> bool) (c : string) (ft df : DataFrame) :
  inside ft df -> column_all ok c df = true -> column_all ok c ft = true.
Proof.
  intros [Hcols Hrows]. rewrite !column_all_spec, Hcols.
  intros (i & Hi & Hall). exists i. split; [exact Hi |].
  rewrite Forall_forall in *. auto.
Qed.

Lemma numeric_column_inside (c : string) (ft df : DataFrame) :
  inside ft df -> numeric_column c df = true -> numeric_column c ft = true.
Proof. rewrite !numeric_column_all. apply column_all_inside. Qed.

Lemma optional_column_all_inside (ok : cell -> bool) (c : string) (ft df : DataFrame) :
  inside ft df -> optional_column_all ok c df = true ->
  optional_column_all ok c ft = true.
Proof.
  intros Hin. unfold optional_column_all.
  rewrite (has_column_same c df ft (proj1 Hin)).
  destruct (has_column c df); [apply column_all_inside, Hin | reflexivity].
Qed.

Lemma column_all_has_column (ok : cell -> bool) (c : string) (df : DataFrame) :
  column_all ok c df = true -> has_column c df = true.
Proof.
  rewrite column_all_spec, has_column_pos. intros (i & Hi & _). eauto.
Qed.

End Shape.

Section Sidebar.

Lemma sorted_insert_str (x : cell) (l : list cell) :
  is_str x = true -> Forall (fun y => is_str y = true) l ->
  exists r, sorted_insert x l = Ok r /\ Forall (fun y => is_str y = true) r.
Proof.
  intros Hx. induction 1 as [| y l Hy Hl IH]; cbn.
  - eexists. split; [reflexivity |]. now constructor.
  - destruct x as [| s | f]; try discriminate.
    destruct y as [| t | g]; try discriminate. cbn.
    destruct (String.ltb t s).
    + destruct IH as (r & -> & Hr). cbn. eexists. split; [reflexivity |].
      now constructor.
    + eexists. split; [reflexivity |]. repeat constructor; assumption.
Qed.

Lemma sorted_str (xs : list cell) :
  Forall (fun y => is_str y = true) xs ->
  exists r, sorted xs = Ok r /\ Forall (fun y => is_str y = true) r.
Proof.
  induction 1 as [| x xs Hx Hxs IH]; cbn.
  - eexists. split; [reflexivity | constructor].
  - destruct IH as (r & -> & Hr). cbn. now apply sorted_insert_str.
Qed.

Lemma unique_from_Forall (P : cell -> Prop) (seen : list cell) (s : Series) :
  Forall P s -> Forall P (unique_from seen s).
Proof.
  intros H. revert seen. induction H as [| x s Hx Hs IH]; intros seen; cbn.
  - constructor.
  - destruct (cell_in x seen); [apply IH | constructor; [exact Hx | apply IH]].
Qed.

Lemma dropna_str (s : Series) :
  Forall (fun y => str_or_missing y = true) s ->
  Forall (fun y => is_str y = true) (dropna s).
Proof.
  induction 1 as [| x s Hx Hs IH]; cbn; [constructor |].
  destruct x as [| t | f]; cbn in *.
  - exact IH.
  - now constructor.
  - rewrite Hx. exact IH.
Qed.

Lemma protocols_ok (df : DataFrame) :
  string_column "Protocol" df = true -> exists ps, protocols df = Ok ps.
Proof.
  unfold string_column, column_all, protocols.
  destruct (getitem df "Protocol") as [p | e]; [| discriminate].
  rewrite Forall_forallb. intros H. cbn [bind].
  destruct (sorted_str (unique p)) as (r & Hr & _);
    [now apply unique_from_Forall | eauto].
Qed.

Lemma categories_ok (df : DataFrame) :
  optional_column_all str_or_missing "Category" df = true ->
  exists cs, categories df = Ok cs.
Proof.
  unfold optional_column_all, categories, column_all.
  destruct (has_column "Category" df); [| eauto].
  destruct (getitem df "Category") as [c | e]; [| discriminate].
  rewrite Forall_forallb. intros H. cbn [bind].
  destruct (sorted_str (unique (dropna c))) as (r & Hr & _);
    [now apply unique_from_Forall, dropna_str | eauto].
Qed.

Lemma sidebar_ok (df : DataFrame) (ui : widgets) :
  string_column "Protocol" df = true ->
  optional_column_all str_or_missing "Category" df = true ->
  exists sel, sidebar df ui = Ok sel.
Proof.
  intros Hp Hc. unfold sidebar.
  destruct (protocols_ok _ Hp) as [ps ->].
  destruct (categories_ok _ Hc) as [cs ->]. cbn. eauto.
Qed.

(** Without its key column the TVL table stops the script at line 81. *)
Lemma sidebar_missing_key (df : DataFrame) (ui : widgets) :
  has_column "Protocol" df = false ->
  sidebar df ui = Raise (KeyError "Protocol").
Proof.
  intros H. unfold sidebar, protocols. now rewrite (getitem_missing _ _ H).
Qed.

End Sidebar.

Section Stages.

Lemma filtered_tvl_inside (df ft : DataFrame) (sel : selection) :
  filtered_tvl df sel = Ok ft -> inside ft df.
Proof.
  unfold filtered_tvl, protocol_filter.
  destruct (getitem df "Protocol") as [p | e]; cbn [bind]; [| discriminate].
  destruct (selected_categories sel) as [| c S]; cbn.
  - intros [= <-]. apply bool_index_inside.
  - match goal with |- context [getitem ?d "Category"] =>
      destruct (getitem d "Category") end; cbn; [| discriminate].
    intros [= <-].
    eapply inside_trans; apply bool_index_inside.
Qed.

Lemma filtered_by_ok (df ft : DataFrame) :
  has_column "Protocol" df = true -> has_column "Protocol" ft = true ->
  exists out, filtered_by df ft = Ok out /\ inside out df.
Proof.
  intros Hdf Hft. unfold filtered_by.
  destruct (getitem_ok _ _ Hdf) as [p ->].
  destruct (getitem_ok _ _ Hft) as [k ->]. cbn [bind].
  eexists. split; [reflexivity | apply bool_index_inside].
Qed.

Lemma filter_data_ok (tvl revenue fees market : DataFrame) (ui : widgets)
    (sel : selection) :
  sidebar tvl ui = Ok sel ->
  has_column "Protocol" revenue = true ->
  has_column "Protocol" fees = true ->
  has_column "Protocol" market = true ->
  exists f, filter_data tvl revenue fees market sel = Ok f /\
            inside (f_tvl f) tvl /\ inside (f_fees f) fees /\
            inside (f_revenue f) revenue /\ inside (f_market f) market.
Proof.
  intros Hs Hrev Hfees Hmkt.
  destruct (filtered_tvl_ok _ _ _ Hs) as [ft Hft].
  pose proof (filtered_tvl_inside _ _ _ Hft) as Hin.
  destruct (sidebar_inv _ _ _ Hs) as (ps & _ & Hps & _).
  assert (Hkey : has_column "Protocol" ft = true).
  { rewrite (has_column_same _ _ _ (proj1 Hin)).
    eapply protocols_has_column, Hps. }
  destruct (filtered_by_ok _ _ Hfees Hkey) as (ff & Hff & Hffin).
  destruct (filtered_by_ok _ _ Hrev Hkey) as (fr & Hfr & Hfrin).
  destruct (filtered_by_ok _ _ Hmkt Hkey) as (fm & Hfm & Hfmin).
  unfold filter_data. rewrite Hft. cbn [bind]. rewrite Hff. cbn [bind].
  rewrite Hfr. cbn [bind]. rewrite Hfm. cbn [bind].
  eexists. split; [reflexivity |]. cbn. auto.
Qed.

(** *** The cards *)

Lemma py_add_number (a b : amount) :
  is_number a = true -> is_number b = true ->
  exists c, py_add a b = Ok c /\ is_number c = true.
Proof.
  destruct a as [| x | f | s], b as [| y | g | t]; cbn [is_number];
    try discriminate; intros Ha Hb.
  - apply Z.eqb_eq in Ha, Hb. subst. eexists. split; reflexivity.
  - apply Z.eqb_eq in Ha. subst. eexists. split; reflexivity.
  - apply Z.eqb_eq in Hb. subst. eexists. split; reflexivity.
  - eexists. split; reflexivity.
Qed.

Lemma object_sum_from_number (values : list amount) :
  Forall (fun v => is_number v = true) values ->
  forall acc, is_number acc = true ->
  exists a, object_sum_from acc values = Ok a /\ is_number a = true.
Proof.
  induction 1 as [| v values Hv Hvs IH]; intros acc Hacc; cbn; [eauto |].
  destruct (py_add_number acc v Hacc Hv) as (acc' & -> & Hacc'). cbn [bind].
  now apply IH.
Qed.

Lemma object_value_number (x : cell) :
  float_or_missing x = true -> is_number (object_value x) = true.
Proof.
  destruct x as [| t | f]; cbn; [reflexivity | discriminate |].
  intros _. now destruct (PyFloat.is_nan f).
Qed.

(** A column without strings sums to a number. *)
Lemma sum_number (s : Series) :
  Forall (fun x => float_or_missing x = true) s ->
  exists a, sum s = Ok a /\ is_number a = true.
Proof.
  intros H. unfold sum. destruct (float_values s) as [fs | e]; [eauto |].
  assert (Hv : Forall (fun v => is_number v = true) (map object_value s)).
  { apply Forall_map. eapply Forall_impl; [| exact H].
    apply object_value_number. }
  unfold object_sum. destruct Hv as [| v values Hv Hvs]; [eauto |].
  now apply object_sum_from_number.
Qed.

Lemma sum_ok (ok : cell -> bool) (c : string) (df : DataFrame) :
  (forall x, ok x = true -> float_or_missing x = true) ->
  column_all ok c df = true ->
  exists s a, getitem df c = Ok s /\ sum s = Ok a /\ is_number a = true.
Proof.
  intros Hok. unfold column_all.
  destruct (getitem df c) as [s | e]; [| discriminate].
  rewrite Forall_forallb. intros H.
  destruct (sum_number s) as (a & Ha & Hnum).
  { eapply Forall_impl; [| exact H]. exact Hok. }
  exists s, a. auto.
Qed.

(** A float is always formatted. *)
Lemma format_currency_float_ok (f : PyFloat.float) :
  exists s, format_currency (AFloat f) = Ok s.
Proof.
  unfold format_currency.
  destruct (is_None (AFloat f) || pd_isna (AFloat f) || eq_int (AFloat f) 0);
    [eauto |].
  cbn [ge_int truediv_int format_2f bind].
  repeat match goal with
         | |- context [if ?b then _ else _] => destruct b
         end; eauto.
Qed.

Lemma format_currency_number_ok (a : amount) :
  is_number a = true -> exists s, format_currency a = Ok s.
Proof.
  destruct a as [| z | f | t]; cbn [is_number]; try discriminate.
  - intros H. apply Z.eqb_eq in H. subst. now exists "$0".
  - intros _. apply format_currency_float_ok.
Qed.

Lemma kpi_cards_ok (f : filtered) :
  numeric_column "TVL (USD)" (f_tvl f) = true ->
  optional_column_all float_or_missing "Market Cap (USD)" (f_market f) = true ->
  exists k, kpi_cards f = Ok k.
Proof.
  intros Htvl Hcap. unfold kpi_cards, total_tvl, total_market_cap.
  apply numeric_column_all in Htvl.
  destruct (sum_ok _ _ _ (fun x => match x with
                                   | CFloat _ => fun _ => eq_refl
                                   | _ => fun H => False_ind _ (diff_false_true H)
                                   end) Htvl)
    as (s & total & Hs & Hsum & Hnum).
  rewrite Hs. cbn [bind]. rewrite Hsum. cbn [bind].
  destruct (format_currency_number_ok total Hnum) as [card ->]. cbn [bind].
  unfold optional_column_all in Hcap.
  destruct (has_column "Market Cap (USD)" (f_market f)).
  - destruct (sum_ok _ _ _ (fun x H => H) Hcap)
      as (s' & total' & Hs' & Hsum' & Hnum').
    rewrite Hs'. cbn [bind]. rewrite Hsum'. cbn [bind].
    destruct (format_currency_number_ok total' Hnum') as [card' ->].
    cbn [bind]. eauto.
  - cbn. eauto.
Qed.

(** *** The overview table *)

Lemma column_pos_In (c : string) (cols : list string) :
  In c cols <-> exists i, column_pos c cols = Some i.
Proof.
  induction cols as [| c' cols IH]; cbn.
  - split; [intros [] | intros [i H]; discriminate].
  - destruct (String.eqb_spec c c') as [-> | Hne].
    + split; eauto.
    + split.
      * intros [Heq | Hin]; [congruence |].
        apply IH in Hin. destruct Hin as [i ->]. cbn. eauto.
      * intros [i H]. right. apply IH.
        destruct (column_pos c cols); [eauto | discriminate].
Qed.

Lemma has_column_In (c : string) (df : DataFrame) :
  has_column c df = true <-> In c (columns df).
Proof. rewrite has_column_pos, column_pos_In. reflexivity. Qed.

Lemma label_in_In (c : string) (cols : list string) :
  label_in c cols = true <-> In c cols.
Proof.
  unfold label_in. rewrite existsb_exists. split.
  - intros (x & Hin & Heq). apply String.eqb_eq in Heq. now subst.
  - intros Hin. exists c. split; [exact Hin | apply String.eqb_refl].
Qed.

Lemma remove_at_incl {A : Type} (i : nat) (l : list A) : incl (remove_at i l) l.
Proof.
  revert i. induction l as [| x l IH]; intros [| i]; cbn; intros y Hy; auto.
  - now right.
  - destruct Hy as [<- | Hy]; [now left | right; now apply (IH i)].
Qed.

Lemma remove_at_keeps (k c : string) (cols : list string) (j : nat) :
  column_pos k cols = Some j -> c <> k -> In c cols -> In c (remove_at j cols).
Proof.
  revert j. induction cols as [| c' cols IH]; cbn; [discriminate |].
  intros j Hj Hne Hin. destruct (String.eqb_spec k c') as [<- | Hk].
  - injection Hj as <-. destruct Hin as [Heq | Hin]; [congruence | exact Hin].
  - destruct (column_pos k cols) as [n |]; cbn in Hj; [| discriminate].
    injection Hj as <-. cbn.
    destruct Hin as [<- | Hin]; [now left | right; now apply IH].
Qed.

Variables (ft fm : DataFrame).
Hypothesis Hdisjoint : only_key_shared ft fm = true.

Lemma shared_label (c : string) :
  In c (columns ft) -> In c (columns fm) -> c = "Protocol".
Proof.
  intros Hl Hr. unfold only_key_shared in Hdisjoint.
  rewrite forallb_forall in Hdisjoint.
  specialize (Hdisjoint c Hl). apply orb_true_iff in Hdisjoint.
  destruct Hdisjoint as [H | H].
  - now apply String.eqb_eq.
  - apply label_in_In in Hr. rewrite Hr in H. discriminate.
Qed.

Lemma merged_left_label (ov : DataFrame) (c : string) :
  merge_left ft fm "Protocol" = Ok ov ->
  has_column c ft = true -> has_column c ov = true.
Proof.
  unfold merge_left.
  destruct (column_pos "Protocol" (columns ft)) as [i |]; [| discriminate].
  destruct (column_pos "Protocol" (columns fm)) as [j |]; [| discriminate].
  intros [= <-]. rewrite !has_column_In. cbn [columns]. intros Hin.
  apply in_or_app. left. apply in_map_iff. exists c. split; [| exact Hin].
  destruct (String.eqb_spec c "Protocol") as [-> | Hne]; [reflexivity |].
  cbn. destruct (label_in c (remove_at j (columns fm))) eqn:Hr; [| reflexivity].
  apply label_in_In, remove_at_incl in Hr.
  elim Hne. now apply shared_label.
Qed.

Lemma merged_right_label (ov : DataFrame) (c : string) :
  merge_left ft fm "Protocol" = Ok ov ->
  c <> "Protocol" ->
  has_column c fm = true -> has_column c ov = true.
Proof.
  unfold merge_left.
  destruct (column_pos "Protocol" (columns ft)) as [i |]; [| discriminate].
  destruct (column_pos "Protocol" (columns fm)) as [j |] eqn:Hj; [| discriminate].
  intros [= <-] Hne. rewrite !has_column_In. cbn [columns]. intros Hin.
  apply in_or_app. right. apply in_map_iff. exists c.
  split; [| now apply (remove_at_keeps "Protocol")].
  destruct (label_in c (remove_at i (columns ft))) eqn:Hl; [| reflexivity].
  apply label_in_In, remove_at_incl in Hl.
  elim Hne. now apply shared_label.
Qed.

Lemma overview_table_ok (f : filtered) :
  f_tvl f = ft -> f_market f = fm ->
  has_column "Protocol" ft = true -> has_column "Protocol" fm = true ->
  exists ov, overview_table f = Ok ov.
Proof.
  intros Hft Hfm Hl Hr. unfold overview_table, overview_df. rewrite Hft, Hfm.
  destruct (merge_left ft fm "Protocol") as [ov | e] eqn:Hm.
  - cbn [bind]. apply getitems_ok.
    pose proof (merged_left_label ov "Protocol" Hm) as HP.
    pose proof (merged_left_label ov "Category" Hm) as HC.
    pose proof (merged_left_label ov "TVL (USD)" Hm) as HT.
    pose proof (merged_right_label ov "Market Cap (USD)" Hm) as HM.
    pose proof (merged_right_label ov "Current Price (USD)" Hm) as HR.
    unfold overview_cols, has_columns. cbn [filter].
    destruct (has_column "Protocol" ft);
      destruct (has_column "Category" ft);
      destruct (has_column "TVL (USD)" ft);
      destruct (has_column "Market Cap (USD)" fm);
      destruct (has_column "Current Price (USD)" fm);
      cbn [app forallb];
      rewrite ?HP, ?HC, ?HT, ?HM, ?HR by (reflexivity || discriminate);
      reflexivity.
  - exfalso. unfold merge_left in Hm.
    apply has_column_pos in Hl, Hr. destruct Hl as [i Hi], Hr as [j Hj].
    rewrite Hi, Hj in Hm. discriminate.
Qed.

End Stages.
(** ** The charts *)

Section Charts.

Lemma bar_ok (df : DataFrame) (names : list string) :
  has_columns names df = true -> Plotly.bar df names = Ok tt.
Proof. unfold Plotly.bar, has_columns. now intros ->. Qed.

(** A name that is not a column stops the chart. *)
Lemma bar_missing (df : DataFrame) (names : list string) (c : string) :
  In c names -> has_column c df = false ->
  Plotly.bar df names = Raise ValueError.
Proof.
  intros Hin Hc. unfold Plotly.bar.
  destruct (forallb (fun c => has_column c df) names) eqn:H; [| reflexivity].
  rewrite forallb_forall in H. rewrite (H c Hin) in Hc. discriminate.
Qed.

Lemma numeric_column_has_column (c : string) (df : DataFrame) :
  numeric_column c df = true -> has_column c df = true.
Proof.
  intros H. destruct (numeric_column_inv _ _ H) as (i & fs & Hpos & _).
  apply has_column_pos. eauto.
Qed.

Lemma nlargest_columns (n : nat) (c : string) (df top : DataFrame) :
  nlargest n c df = Ok top -> columns top = columns df.
Proof.
  unfold nlargest. destruct (column_pos c (columns df)) as [i |];
    [| discriminate].
  destruct (float_values (map (cell_at i) (rows df))); cbn [bind];
    [| discriminate].
  now intros [= <-].
Qed.

Lemma metric_chart_ok (top : option DataFrame) (df : DataFrame) (metric : string) :
  (forall t, top = Some t -> columns t = columns df) ->
  has_column "Protocol" df = true -> has_column metric df = true ->
  metric_chart top metric = Ok tt.
Proof.
  intros Hcols Hkey Hmetric. destruct top as [t |]; [| reflexivity].
  cbn. apply bar_ok. unfold has_columns. cbn [forallb].
  rewrite !(has_column_same _ df t (Hcols t eq_refl)), Hkey, Hmetric.
  reflexivity.
Qed.

(** Without a Category column in the TVL table, the chart of line 142
    is refused, whatever was ranked. *)
Lemma tvl_chart_without_category (tvl ft by_tvl : DataFrame) :
  has_column "Category" tvl = false ->
  columns ft = columns tvl ->
  top_tvl ft = Ok by_tvl ->
  tvl_chart by_tvl = Raise ValueError.
Proof.
  intros Hc Hcols Htop. unfold tvl_chart.
  apply (bar_missing _ _ "Category"); [cbn; tauto |].
  rewrite (has_column_same _ ft by_tvl (nlargest_columns _ _ _ _ Htop)).
  now rewrite (has_column_same _ tvl ft Hcols).
Qed.

End Charts.

(** ** The whole run *)

(** With the required shape, the script goes through every stage; only
    the chart of line 142 is left open. *)
Lemma stages_ok (tvl revenue fees market : DataFrame) (ui : widgets) :
  required_schema tvl revenue fees market = true ->
  exists sel f k ov by_tvl by_revenue revenue_table by_fees fees_table,
    sidebar tvl ui = Ok sel /\
    filter_data tvl revenue fees market sel = Ok f /\
    kpi_cards f = Ok k /\
    overview_table f = Ok ov /\
    top_tvl (f_tvl f) = Ok by_tvl /\
    columns by_tvl = columns tvl /\
    top_revenue (f_revenue f) = Ok by_revenue /\
    shown_table by_revenue revenue_shown = Ok revenue_table /\
    metric_chart by_revenue "24h Revenue (USD)" = Ok tt /\
    top_fees (f_fees f) = Ok by_fees /\
    shown_table by_fees fees_shown = Ok fees_table /\
    metric_chart by_fees "24h Fees (USD)" = Ok tt.
Proof.
  unfold required_schema. rewrite !andb_true_iff.
  intros [[[[[[[[[[[Hkey Htvl] Hcat] Hrkey] Hrev] Hrshown] Hfkey] Hfees]
                  Hfshown] Hmkey] Hcap] Hdisjoint].
  destruct (sidebar_ok tvl ui Hkey Hcat) as [sel Hsel].
  destruct (filter_data_ok tvl revenue fees market ui sel Hsel)
    as (f & Hf & Hin_t & Hin_f & Hin_r & Hin_m);
    try (eapply column_all_has_column; eassumption).
  destruct (kpi_cards_ok f) as [k Hk].
  { eapply numeric_column_inside; eassumption. }
  { eapply optional_column_all_inside; eassumption. }
  destruct (overview_table_ok (f_tvl f) (f_market f)) with (f := f) as [ov Hov];
    try reflexivity.
  { unfold only_key_shared. now rewrite (proj1 Hin_t), (proj1 Hin_m). }
  { rewrite (has_column_same _ _ _ (proj1 Hin_t)).
    eapply column_all_has_column, Hkey. }
  { rewrite (has_column_same _ _ _ (proj1 Hin_m)).
    eapply column_all_has_column, Hmkey. }
  destruct (nlargest_top_n 10 "TVL (USD)" (f_tvl f)) as (by_tvl & Ht & Htcols & _).
  { eapply numeric_column_inside; eassumption. }
  destruct (top_section_top_n (f_revenue f) "24h Revenue (USD)")
    as (by_revenue & Hr & _ & Hrcols).
  { eapply numeric_column_inside; eassumption. }
  destruct (shown_table_ok by_revenue (f_revenue f) revenue_shown Hrcols)
    as [revenue_table Hrt].
  { now rewrite (has_columns_same _ _ _ (proj1 Hin_r)). }
  destruct (top_section_top_n (f_fees f) "24h Fees (USD)")
    as (by_fees & Hfe & _ & Hfcols).
  { eapply numeric_column_inside; eassumption. }
  destruct (shown_table_ok by_fees (f_fees f) fees_shown Hfcols)
    as [fees_table Hfet].
  { now rewrite (has_columns_same _ _ _ (proj1 Hin_f)). }
  exists sel, f, k, ov, by_tvl, by_revenue, revenue_table, by_fees, fees_table.
  repeat (split; [assumption |]).
  split; [now rewrite Htcols, (proj1 Hin_t) |].
  repeat (split; [assumption |]).
  split.
  { apply (metric_chart_ok _ (f_revenue f)); [exact Hrcols | |].
    - rewrite (has_column_same _ _ _ (proj1 Hin_r)).
      eapply column_all_has_column, Hrkey.
    - rewrite (has_column_same _ _ _ (proj1 Hin_r)).
      now apply numeric_column_has_column. }
  repeat (split; [assumption |]).
  apply (metric_chart_ok _ (f_fees f)); [exact Hfcols | |].
  - rewrite (has_column_same _ _ _ (proj1 Hin_f)).
    eapply column_all_has_column, Hfkey.
  - rewrite (has_column_same _ _ _ (proj1 Hin_f)).
    now apply numeric_column_has_column.
Qed.

(** With the required shape and a Category column for the chart of the
    TVL ranking, the run goes through. *)
Lemma run_ok (tvl revenue fees market : DataFrame) (ui : widgets) :
  required_schema tvl revenue fees market = true ->
  has_column "Category" tvl = true ->
  exists d, run tvl revenue fees market ui = Ok d.
Proof.
  intros Hschema Hcat.
  destruct (stages_ok tvl revenue fees market ui Hschema)
    as (sel & f & k & ov & by_tvl & by_revenue & revenue_table & by_fees
        & fees_table & Hsel & Hf & Hk & Hov & Ht & Htcols & Hr & Hrt & Hrc
        & Hfe & Hfet & Hfc).
  assert (Hchart : tvl_chart by_tvl = Ok tt).
  { apply bar_ok. unfold has_columns. cbn [forallb].
    rewrite !(has_column_same _ tvl by_tvl Htcols), Hcat.
    revert Hschema. unfold required_schema. rewrite !andb_true_iff.
    intros [[[[[[[[[[[Hkey Htvl] _] _] _] _] _] _] _] _] _] _].
    rewrite (column_all_has_column _ _ _ Hkey).
    now rewrite (numeric_column_has_column _ _ Htvl). }
  unfold run. rewrite Hsel. cbn [bind]. rewrite Hf. cbn [bind].
  rewrite Hk. cbn [bind]. rewrite Hov. cbn [bind]. rewrite Ht. cbn [bind].
  rewrite Hchart. cbn [bind]. rewrite Hr. cbn [bind]. rewrite Hrt. cbn [bind].
  rewrite Hrc. cbn [bind]. rewrite Hfe. cbn [bind]. rewrite Hfet. cbn [bind].
  rewrite Hfc. cbn [bind]. eauto.
Qed.

(** Without a Category column in the TVL table no run completes. *)
Lemma run_without_category (tvl revenue fees market : DataFrame) (ui : widgets)
    (d : dashboard) :
  has_column "Category" tvl = false ->
  run tvl revenue fees market ui <> Ok d.
Proof.
  intros Hc. unfold run.
  destruct (sidebar tvl ui) as [sel | e]; cbn [bind]; [| discriminate].
  destruct (filter_data tvl revenue fees market sel) as [f | e] eqn:Hf;
    cbn [bind]; [| discriminate].
  destruct (kpi_cards f); cbn [bind]; [| discriminate].
  destruct (overview_table f); cbn [bind]; [| discriminate].
  destruct (top_tvl (f_tvl f)) as [by_tvl | e] eqn:Ht; cbn [bind];
    [| discriminate].
  rewrite (tvl_chart_without_category tvl (f_tvl f) by_tvl Hc);
    [discriminate | | exact Ht].
  unfold filter_data in Hf.
  destruct (filtered_tvl tvl sel) as [ft | e] eqn:Hft; cbn [bind] in Hf;
    [| discriminate].
  destruct (filtered_by fees ft); cbn [bind] in Hf; [| discriminate].
  destruct (filtered_by revenue ft); cbn [bind] in Hf; [| discriminate].
  destruct (filtered_by market ft); cbn [bind] in Hf; [| discriminate].
  injection Hf as <-. cbn. eapply filtered_tvl_columns, Hft.
Qed.

(** C6. On a TVL table without a Category column the sidebar returns the
    empty category selection and the filtered TVL table is the table
    filtered by protocol alone; but the missing column does cause an error:
    the run stops with the [ValueError] of the chart of line 142, which
    names the missing column as its colour. *)
Theorem missing_category_stops_run :
  has_column "Category" no_category_tvl = false /\
  (exists sel ft,
      sidebar no_category_tvl all_defaults = Ok sel /\
      selected_categories sel = [] /\
      protocol_filter no_category_tvl (selected_protocols sel) = Ok ft /\
      filtered_tvl no_category_tvl sel = Ok ft /\
      top_tvl ft = Ok {| columns := ["Protocol"; "TVL (USD)"];
                         rows := [[CStr "B"; num 2500000000]; [CStr "A"; num 500]] |}) /\
  tvl_chart {| columns := ["Protocol"; "TVL (USD)"];
               rows := [[CStr "B"; num 2500000000]; [CStr "A"; num 500]] |}
    = Raise ValueError /\
  run no_category_tvl scenario_revenue scenario_fees scenario_market all_defaults
    = Raise ValueError.
Proof.
  split; [reflexivity |]. split; [| split; vm_compute; reflexivity].
  eexists. eexists. split; [vm_compute; reflexivity |].
  repeat split; vm_compute; reflexivity.
Qed.

(** C7 (amended). A TVL table without a Protocol column makes the script
    raise [KeyError('Protocol')] before anything is computed, whatever the
    other inputs.  And when the tables have the columns the script reads
    unconditionally, with strings as keys and floats as metrics, and the
    TVL table has its Category column, the run goes through whether or not
    Market Cap (USD) or Current Price (USD) are there. *)
Theorem missing_key_column (df_protocols_tvl df_protocols_revenue df_protocols_fees
    df_protocols_market_data : DataFrame) (ui : widgets) :
  (has_column "Protocol" df_protocols_tvl = false ->
   sidebar df_protocols_tvl ui = Raise (KeyError "Protocol") /\
   run df_protocols_tvl df_protocols_revenue df_protocols_fees
     df_protocols_market_data ui = Raise (KeyError "Protocol")) /\
  (required_schema df_protocols_tvl df_protocols_revenue df_protocols_fees
     df_protocols_market_data = true ->
   has_column "Category" df_protocols_tvl = true ->
   exists d,
     run df_protocols_tvl df_protocols_revenue df_protocols_fees
       df_protocols_market_data ui = Ok d).
Proof.
  split.
  - intros H. pose proof (sidebar_missing_key _ ui H) as Hs.
    split; [exact Hs |]. unfold run. now rewrite Hs.
  - apply run_ok.
Qed.

Lemma missing_key_column_witness :
  run tvl_without_key scenario_revenue scenario_fees scenario_market all_defaults
    = Raise (KeyError "Protocol") /\
  has_column "Market Cap (USD)" bare_market = false /\
  has_column "Current Price (USD)" bare_market = false /\
  exists d,
    run scenario_tvl scenario_revenue scenario_fees bare_market all_defaults = Ok d.
Proof.
  split.
  - apply (missing_key_column tvl_without_key scenario_revenue scenario_fees
             scenario_market all_defaults).
    reflexivity.
  - repeat (split; [reflexivity |]).
    apply (missing_key_column scenario_tvl scenario_revenue scenario_fees
             bare_market all_defaults); reflexivity.
Defined.

(** C7 does not hold as the specification words it: the script also raises for TVL tables that
    have their Protocol column, when the TVL column is missing or when
    another table has no Protocol column. *)
Lemma raise_with_key_column :
  has_column "Protocol" tvl_without_values = true /\
  run tvl_without_values scenario_revenue scenario_fees scenario_market all_defaults
    = Raise (KeyError "TVL (USD)") /\
  has_column "Protocol" scenario_tvl = true /\
  run scenario_tvl scenario_revenue fees_without_key scenario_market all_defaults
    = Raise (KeyError "Protocol").
Proof.
  repeat split; vm_compute; reflexivity.
Qed.

(** ** The empty protocol selection *)

Lemma top_section_rows_nil (c : string) (df : DataFrame) :
  rows df = [] -> top_section df c = Ok None.
Proof. intros H. unfold top_section, empty. now rewrite H. Qed.

(** C5 (amended). When the selected-protocol list is empty, the four
    filtered tables are empty and the cards show zero: protocol count 0,
    total TVL 0 and total market cap 0; filtering and the cards raise
    nothing.  An empty category selection alone does not empty anything:
    the category step is skipped and the filtered TVL table is the one
    filtered by protocol. *)
Theorem empty_selection (df_protocols_tvl df_protocols_revenue df_protocols_fees
    df_protocols_market_data : DataFrame) (ui : widgets) (sel : selection) :
  sidebar df_protocols_tvl ui = Ok sel ->
  has_column "TVL (USD)" df_protocols_tvl = true ->
  has_column "Protocol" df_protocols_revenue = true ->
  has_column "Protocol" df_protocols_fees = true ->
  has_column "Protocol" df_protocols_market_data = true ->
  (selected_protocols sel = [] ->
   exists f total cap k,
     filter_data df_protocols_tvl df_protocols_revenue df_protocols_fees
       df_protocols_market_data sel = Ok f /\
     emptied f /\
     len (f_tvl f) = 0%nat /\
     total_tvl (f_tvl f) = Ok total /\ eq_int total 0 = true /\
     total_market_cap (f_market f) = Ok cap /\ eq_int cap 0 = true /\
     kpi_cards f = Ok k /\ zero_cards k) /\
  (selected_categories sel = [] ->
   filtered_tvl df_protocols_tvl sel =
   protocol_filter df_protocols_tvl (selected_protocols sel)).
Proof.
  intros Hs Htvl Hrev Hfees Hmkt. split.
  - intros Hnone.
    destruct (filter_data_ok _ _ _ _ _ _ Hs Hrev Hfees Hmkt)
      as (f & Hf & Hin_t & _ & _ & Hin_m).
    assert (Hparts : exists ft ff fr fm,
               filtered_tvl df_protocols_tvl sel = Ok ft /\
               filtered_by df_protocols_fees ft = Ok ff /\
               filtered_by df_protocols_revenue ft = Ok fr /\
               filtered_by df_protocols_market_data ft = Ok fm /\
               f = {| f_tvl := ft; f_fees := ff; f_revenue := fr; f_market := fm |}).
    { unfold filter_data in Hf.
      destruct (filtered_tvl df_protocols_tvl sel) as [ft | e] eqn:E1;
        cbn [bind] in Hf; [| discriminate].
      destruct (filtered_by df_protocols_fees ft) as [ff | e] eqn:E2;
        cbn [bind] in Hf; [| discriminate].
      destruct (filtered_by df_protocols_revenue ft) as [fr | e] eqn:E3;
        cbn [bind] in Hf; [| discriminate].
      destruct (filtered_by df_protocols_market_data ft) as [fm | e] eqn:E4;
        cbn [bind] in Hf; [| discriminate].
      injection Hf as <-. exists ft, ff, fr, fm. repeat split; assumption. }
    destruct Hparts as (ft & ff & fr & fm & Hft & Hff & Hfr & Hfm & ->).
    cbn [f_tvl f_market] in Hin_t, Hin_m.
    pose proof (filtered_tvl_no_protocols _ _ _ Hnone Hft) as Hnil.
    destruct (sidebar_inv _ _ _ Hs) as (ps & _ & Hps & _).
    assert (Hkey : has_column "Protocol" ft = true).
    { rewrite (has_column_same _ _ _ (proj1 Hin_t)).
      eapply protocols_has_column, Hps. }
    destruct (filtered_by_nothing _ _ Hfees Hkey Hnil) as (ff' & Hff' & Hffn & _).
    destruct (filtered_by_nothing _ _ Hrev Hkey Hnil) as (fr' & Hfr' & Hfrn & _).
    destruct (filtered_by_nothing _ _ Hmkt Hkey Hnil) as (fm' & Hfm' & Hfmn & _).
    rewrite Hff in Hff'. injection Hff' as <-.
    rewrite Hfr in Hfr'. injection Hfr' as <-.
    rewrite Hfm in Hfm'. injection Hfm' as <-.
    assert (Htotal : total_tvl ft = Ok (AFloat (S754_zero false))).
    { unfold total_tvl. rewrite getitem_rows_nil; [reflexivity | | exact Hnil].
      now rewrite (has_column_same _ _ _ (proj1 Hin_t)). }
    assert (Hcap : exists cap, total_market_cap fm = Ok cap /\ eq_int cap 0 = true /\
                               format_currency cap = Ok "$0").
    { unfold total_market_cap.
      destruct (has_column "Market Cap (USD)" fm) eqn:Hc.
      - rewrite getitem_rows_nil by assumption.
        exists (AFloat (S754_zero false)). repeat split.
      - exists (AInt 0). repeat split. }
    destruct Hcap as (cap & Hcap & Hzero & Hcard).
    exists {| f_tvl := ft; f_fees := ff; f_revenue := fr; f_market := fm |},
      (AFloat (S754_zero false)), cap.
    eexists. split; [exact Hf |].
    split; [repeat split; assumption |].
    split; [unfold len; cbn; now rewrite Hnil |].
    split; [exact Htotal |]. split; [reflexivity |].
    split; [exact Hcap |]. split; [exact Hzero |].
    unfold kpi_cards. cbn [f_tvl f_market]. rewrite Htotal. cbn [bind].
    change (format_currency (AFloat (S754_zero false))) with (@Ok string "$0").
    cbn [bind]. rewrite Hcap. cbn [bind]. rewrite Hcard. cbn [bind].
    split; [reflexivity |]. unfold zero_cards, len. cbn. rewrite Hnil.
    repeat split.
  - intros Hnone. unfold filtered_tvl. rewrite Hnone.
    destruct (protocol_filter df_protocols_tvl (selected_protocols sel)); reflexivity.
Qed.

Lemma empty_selection_witness :
  exists sel f k,
    sidebar scenario_tvl nothing_selected = Ok sel /\
    selected_protocols sel = [] /\
    selected_categories sel = [] /\
    filter_data scenario_tvl scenario_revenue scenario_fees scenario_market sel
      = Ok f /\
    emptied f /\
    kpi_cards f = Ok k /\ zero_cards k /\
    filtered_tvl scenario_tvl sel = protocol_filter scenario_tvl [].
Proof.
  eexists.
  destruct (empty_selection scenario_tvl scenario_revenue scenario_fees
              scenario_market nothing_selected _ eq_refl eq_refl eq_refl eq_refl
              eq_refl)
    as [Hempty Hskip].
  destruct (Hempty eq_refl)
    as (f & total & cap & k & Hf & Hem & _ & _ & _ & _ & _ & Hk & Hzero).
  exists f, k.
  split; [reflexivity |]. split; [reflexivity |]. split; [reflexivity |].
  split; [exact Hf |]. split; [exact Hem |].
  split; [exact Hk |]. split; [exact Hzero |].
  exact (Hskip eq_refl).
Defined.

(** C5 does not hold as the specification words it: with every category deselected and the
    protocols left selected, nothing is emptied and the cards are not
    zero. *)
Lemma empty_categories_keep_tables :
  exists d,
    run scenario_tvl scenario_revenue scenario_fees scenario_market no_categories
      = Ok d /\
    selected_categories (d_selection d) = [] /\
    selected_protocols (d_selection d) = [CStr "A"; CStr "B"] /\
    f_tvl (d_filtered d) = scenario_tvl /\
    f_revenue (d_filtered d) = scenario_revenue /\
    card_protocols (d_kpis d) = "2" /\
    card_tvl (d_kpis d) = "$2.50B".
Proof.
  eexists. split; [vm_compute; reflexivity |].
  cbn. repeat split.
Qed.

(** ** The scenario *)

(** C8. The end-to-end scenario: two TVL rows, one revenue row, empty fees
    and market tables, protocols A and B and both categories selected. The
    run shows protocol count 2 and total TVL "$2.50B", ranks B before A by
    TVL, and ranks A alone by revenue. *)
Theorem end_to_end_scenario :
  exists d,
    run scenario_tvl scenario_revenue scenario_fees scenario_market
      {| protocol_picks := Some [0%nat; 1%nat]; category_picks := Some [0%nat; 1%nat] |}
      = Ok d /\
    selected_protocols (d_selection d) = [CStr "A"; CStr "B"] /\
    selected_categories (d_selection d) = [CStr "Cat1"; CStr "Cat2"] /\
    card_protocols (d_kpis d) = "2" /\
    card_tvl (d_kpis d) = "$2.50B" /\
    getitem (d_top_tvl d) "Protocol" = Ok [CStr "B"; CStr "A"] /\
    (exists by_revenue,
        d_top_revenue d = Some by_revenue /\
        getitem by_revenue "Protocol" = Ok [CStr "A"]) /\
    d_top_fees d = None.
Proof.
  eexists. split; [vm_compute; reflexivity |].
  cbn [d_selection d_kpis d_top_tvl d_top_revenue d_top_fees selected_protocols
       selected_categories card_protocols card_tvl].
  repeat (split; [reflexivity |]).
  split; [| reflexivity].
  eexists. split; reflexivity.
Qed.

(** * Further properties *)

(** ** The card markup *)

(** X1. Two card types get the same CSS class exactly when they are equal
    or are ["default"] and ["orange"]: ["default"] is the orange card, every
    other type has a class of its own; so a card of type ["default"] is,
    character for character, the card of type ["orange"]. *)
Theorem card_class_same (t1 t2 : string) :
  (card_class t1 = card_class t2 <->
   t1 = t2 \/
   ((t1 = "default" \/ t1 = "orange") /\ (t2 = "default" \/ t2 = "orange"))) /\
  (forall title value,
      create_metric_card title value "default" =
      create_metric_card title value "orange").
Proof.
  split; [| reflexivity].
  unfold card_class.
  destruct (String.eqb_spec t1 "default") as [-> | H1],
           (String.eqb_spec t2 "default") as [-> | H2]; cbn.
  - split; auto.
  - split.
    + intros H. injection H as <-. auto.
    + intros [<- | [_ [-> | ->]]]; congruence.
  - split.
    + intros H. injection H as ->. auto.
    + intros [-> | [[-> | ->] _]]; congruence.
  - split.
    + intros H. injection H as ->. auto.
    + intros [-> | [[-> | ->] [-> | ->]]]; congruence.
Qed.

(** ** The currency formatter, further *)

Section FormatShape.

Lemma length_append (a b : string) :
  String.length (a ++ b) = (String.length a + String.length b)%nat.
Proof. induction a as [| c a IH]; cbn; [reflexivity | now rewrite IH]. Qed.

(** The two digits after the point. *)
Lemma pad2_length (n : Z) :
  0 <= n < 100 -> String.length (PyFloat.pad2 n) = 2%nat.
Proof.
  intros H.
  assert (Hall : forallb (fun k => Nat.eqb (String.length (PyFloat.pad2 (Z.of_nat k))) 2)
                   (seq 0 100) = true) by (vm_compute; reflexivity).
  rewrite forallb_forall in Hall.
  specialize (Hall (Z.to_nat n)). rewrite Z2Nat.id in Hall by lia.
  apply Nat.eqb_eq, Hall, in_seq. lia.
Qed.

Lemma fixed2_length (s : bool) (h : Z) :
  (3 <= String.length (PyFloat.fixed2 s h))%nat.
Proof.
  unfold PyFloat.fixed2. rewrite !length_append.
  rewrite (pad2_length (h mod 100)) by (apply Z.mod_pos_bound; lia).
  cbn. lia.
Qed.

Lemma format_2f_length (f : PyFloat.float) :
  (3 <= String.length (PyFloat.format_2f f))%nat.
Proof.
  destruct f as [s | s | | s m e]; cbn [PyFloat.format_2f].
  - apply fixed2_length.
  - destruct s; cbn; lia.
  - cbn; lia.
  - apply fixed2_length.
Qed.

Lemma suffixed_not_zero (q : PyFloat.float) (unit : string) :
  (1 <= String.length unit)%nat ->
  @Ok string ("$" ++ PyFloat.format_2f q ++ unit)%string <> Ok "$0".
Proof.
  intros Hu H. injection H as H. apply (f_equal String.length) in H.
  cbn in H. rewrite length_append in H.
  pose proof (format_2f_length q). lia.
Qed.

Lemma plain_not_zero (f : PyFloat.float) :
  @Ok string ("$" ++ PyFloat.format_2f f)%string <> Ok "$0".
Proof.
  intros H. injection H as H. apply (f_equal String.length) in H.
  cbn in H. pose proof (format_2f_length f). lia.
Qed.

End FormatShape.

(** X2. The formatter returns "$0" for [None], NaN and zero, and for
    nothing else: a small amount that is not zero is shown with its two
    decimals. *)
Theorem format_currency_zero_iff (a : amount) :
  format_currency a = Ok "$0" <-> shown_as_zero a = true.
Proof.
  unfold format_currency, shown_as_zero.
  destruct (is_None a || pd_isna a || eq_int a 0) eqn:Hz.
  - split; reflexivity.
  - split; [| discriminate]. intros H. exfalso. revert H.
    destruct a as [| z | f | s]; [discriminate Hz | | |];
      cbn [ge_int truediv_int format_2f bind];
      repeat match goal with
             | |- context [if ?b then _ else _] => destruct b
             end; cbn [bind];
      first [ discriminate
            | apply suffixed_not_zero; cbn; lia
            | apply plain_not_zero ].
Qed.

(** An int is formatted unless it is too large for a float. *)
Lemma format_currency_int (z : Z) :
  if overflows z then format_currency (AInt z) = Raise OverflowError
  else exists t, format_currency (AInt z) = Ok ("$" ++ t)%string.
Proof.
  unfold overflows, unit_of, format_currency.
  cbn [is_None pd_isna eq_int ge_int truediv_int format_2f orb bind].
  destruct (Z.eqb_spec z 0) as [-> | Hz]; [now exists "0" |].
  destruct (Z.leb_spec 1000000000 z), (Z.leb_spec 1000000 z),
    (Z.leb_spec 1000 z); try lia;
    match goal with
    | |- context [PyFloat.is_inf ?q] => destruct (PyFloat.is_inf q)
    end; cbn [bind]; eauto.
Qed.

(** X3. On [None] and on every float the formatter returns a string that
    starts with "$"; on a string it raises [TypeError]; on an int it raises
    [OverflowError] when the int is too large for a float, and otherwise
    returns a string that starts with "$".  It raises in no other way, and
    every string it returns starts with "$". *)
Theorem format_currency_result (a : amount) :
  match a with
  | ANone | AFloat _ => exists t, format_currency a = Ok ("$" ++ t)%string
  | AStr _ => format_currency a = Raise TypeError
  | AInt z =>
      (overflows z = true /\ format_currency a = Raise OverflowError) \/
      (overflows z = false /\ exists t, format_currency a = Ok ("$" ++ t)%string)
  end.
Proof.
  destruct a as [| z | f | s].
  - now exists "0".
  - pose proof (format_currency_int z) as H.
    destruct (overflows z); [left | right]; auto.
  - unfold format_currency.
    destruct (is_None (AFloat f) || pd_isna (AFloat f) || eq_int (AFloat f) 0);
      [now exists "0" |].
    cbn [ge_int truediv_int format_2f bind].
    repeat match goal with
           | |- context [if ?b then _ else _] => destruct b
           end; cbn [bind]; eauto.
  - reflexivity.
Qed.

(** Ints around the largest float, [1.797e308]. *)
Example format_currency_overflow :
  overflows (10 ^ 308) = false /\
  overflows (- 10 ^ 308) = false /\
  overflows (- (2 * 10 ^ 308)) = true /\
  overflows (10 ^ 317) = false /\
  overflows (2 * 10 ^ 317) = true /\
  format_currency (AInt (2 * 10 ^ 317)) = Raise OverflowError /\
  format_currency (AInt (- (2 * 10 ^ 308))) = Raise OverflowError /\
  format_currency (AStr "12") = Raise TypeError /\
  format_currency (AFloat (S754_infinity false)) = Ok "$infB" /\
  format_currency (AFloat (S754_infinity true)) = Ok "$-inf".
Proof. repeat split; vm_compute; reflexivity. Qed.

(** X4. A positive int below one thousand is shown as itself with ".00",
    and a negative int above minus one thousand likewise, with its sign. *)
Theorem format_currency_small_int (z : Z) :
  (0 < z < 1000 ->
   format_currency (AInt z) = Ok ("$" ++ PyFloat.digits z ++ ".00")%string) /\
  (-1000 < z < 0 ->
   format_currency (AInt z) = Ok ("$-" ++ PyFloat.digits (- z) ++ ".00")%string).
Proof.
  assert (Hpos : forallb (fun k =>
            match format_currency (AInt (Z.of_nat k)) with
            | Ok s => String.eqb s ("$" ++ PyFloat.digits (Z.of_nat k) ++ ".00")
            | Raise _ => false
            end) (seq 1 999) = true) by (vm_compute; reflexivity).
  assert (Hneg : forallb (fun k =>
            match format_currency (AInt (- Z.of_nat k)) with
            | Ok s => String.eqb s ("$-" ++ PyFloat.digits (Z.of_nat k) ++ ".00")
            | Raise _ => false
            end) (seq 1 999) = true) by (vm_compute; reflexivity).
  rewrite forallb_forall in Hpos, Hneg. split; intros H.
  - specialize (Hpos (Z.to_nat z)). rewrite Z2Nat.id in Hpos by lia.
    destruct (format_currency (AInt z)) as [s | e].
    + f_equal. apply String.eqb_eq, Hpos, in_seq. lia.
    + assert (false = true) by (apply Hpos, in_seq; lia). discriminate.
  - specialize (Hneg (Z.to_nat (- z))). rewrite Z2Nat.id in Hneg by lia.
    rewrite Z.opp_involutive in Hneg.
    destruct (format_currency (AInt z)) as [s | e].
    + f_equal. apply String.eqb_eq, Hneg, in_seq. lia.
    + assert (false = true) by (apply Hneg, in_seq; lia). discriminate.
Qed.

Lemma format_currency_small_int_witness :
  format_currency (AInt 42) = Ok "$42.00" /\
  format_currency (AInt (-7)) = Ok "$-7.00".
Proof.
  split.
  - apply (format_currency_small_int 42). lia.
  - apply (format_currency_small_int (-7)). lia.
Defined.

(** ** The sidebar, further *)

Section StringOrder.

Lemma string_compare_lt_trans (s1 s2 s3 : string) :
  (s1 ?= s2)%string = Lt -> (s2 ?= s3)%string = Lt -> (s1 ?= s3)%string = Lt.
Proof.
  revert s2 s3. induction s1 as [| c1 s1 IH]; intros [| c2 s2] [| c3 s3];
    cbn; try discriminate; try reflexivity.
  unfold Ascii.compare.
  destruct (N.compare_spec (N_of_ascii c1) (N_of_ascii c2)) as [E12 | L12 | G12];
    try discriminate;
    destruct (N.compare_spec (N_of_ascii c2) (N_of_ascii c3)) as [E23 | L23 | G23];
    try discriminate;
    destruct (N.compare_spec (N_of_ascii c1) (N_of_ascii c3)) as [E13 | L13 | G13];
    try reflexivity; try lia.
  apply IH.
Qed.

Lemma str_lt_trans (a b c : cell) : str_lt a b -> str_lt b c -> str_lt a c.
Proof.
  destruct a as [| s | f], b as [| t | g], c as [| u | h]; cbn;
    try contradiction.
  unfold String.ltb.
  destruct (s ?= t)%string eqn:E1; try discriminate.
  destruct (t ?= u)%string eqn:E2; try discriminate.
  now rewrite (string_compare_lt_trans _ _ _ E1 E2).
Qed.

(** Two different strings are ordered one way or the other. *)
Lemma str_lt_total (s t : string) :
  s <> t -> String.ltb t s = false -> String.ltb s t = true.
Proof.
  unfold String.ltb. rewrite (String.compare_antisym s t).
  destruct (t ?= s)%string eqn:E; cbn; try reflexivity; try discriminate.
  intros Hne _. elim Hne. symmetry. now apply String.compare_eq_iff.
Qed.

Lemma str_lt_irrefl (a : cell) : ~ str_lt a a.
Proof.
  destruct a as [| s | f]; cbn; auto.
  unfold String.ltb. pose proof (String.compare_antisym s s) as H.
  destruct (s ?= s)%string; cbn in H; discriminate.
Qed.

End StringOrder.

Section Sorted.

Lemma sorted_insert_perm (x : cell) (l r : list cell) :
  sorted_insert x l = Ok r -> Permutation r (x :: l).
Proof.
  revert r. induction l as [| y l IH]; cbn; intros r.
  - intros [= <-]. reflexivity.
  - destruct (py_lt y x) as [[|] | e]; cbn; try discriminate.
    + destruct (sorted_insert x l) as [r' | e]; cbn; [| discriminate].
      intros [= <-]. rewrite (IH r' eq_refl). apply perm_swap.
    + intros [= <-]. reflexivity.
Qed.

(** What [sorted] returns is a rearrangement of what it was given. *)
Lemma sorted_perm (xs r : list cell) : sorted xs = Ok r -> Permutation r xs.
Proof.
  revert r. induction xs as [| x xs IH]; cbn; intros r.
  - intros [= <-]. constructor.
  - destruct (sorted xs) as [r' | e]; cbn; [| discriminate].
    intros H. rewrite (sorted_insert_perm _ _ _ H). constructor. now apply IH.
Qed.

Lemma sorted_insert_strict (x : cell) (l : list cell) :
  is_str x = true -> Forall (fun y => is_str y = true) l ->
  StronglySorted str_lt l -> ~ In x l ->
  exists r, sorted_insert x l = Ok r /\ StronglySorted str_lt r.
Proof.
  intros Hx Hl Hs. revert Hl. induction Hs as [| y l Hs IH Hy]; intros Hl Hnin.
  - cbn. eexists. split; [reflexivity |]. repeat constructor.
  - inversion Hl as [| ? ? Hys Hls]; subst.
    destruct x as [| s | f]; try discriminate.
    destruct y as [| t | g]; try discriminate. cbn.
    destruct (String.ltb t s) eqn:Hlt.
    + destruct IH as (r & Hr & Hrs); [exact Hls | | ].
      { intros Hin. apply Hnin. now right. }
      rewrite Hr. cbn. eexists. split; [reflexivity |].
      constructor; [exact Hrs |].
      eapply Permutation_Forall; [symmetry; eapply sorted_insert_perm, Hr |].
      constructor; [exact Hlt | exact Hy].
    + eexists. split; [reflexivity |].
      assert (Hst : str_lt (CStr s) (CStr t)).
      { cbn. apply str_lt_total; [| exact Hlt].
        intros ->. apply Hnin. now left. }
      constructor; [now constructor |].
      constructor; [exact Hst |].
      eapply Forall_impl; [| exact Hy].
      intros z Hz. eapply str_lt_trans; eassumption.
Qed.

(** Distinct strings come out of [sorted] in strictly ascending order. *)
Lemma sorted_strict (xs : list cell) :
  Forall (fun y => is_str y = true) xs -> NoDup xs ->
  exists r, sorted xs = Ok r /\ StronglySorted str_lt r /\ Permutation r xs.
Proof.
  intros Hstr Hnd. induction Hnd as [| x xs Hnin Hnd IH]; cbn.
  - eexists. split; [reflexivity |]. split; constructor.
  - inversion Hstr as [| ? ? Hx Hxs]; subst.
    destruct (IH Hxs) as (r & Hr & Hrs & Hperm). rewrite Hr. cbn.
    destruct (sorted_insert_strict x r Hx) as (r' & Hr' & Hrs'); auto.
    + eapply Permutation_Forall; [symmetry; exact Hperm | exact Hxs].
    + intros Hin. apply Hnin. eapply Permutation_in; eassumption.
    + exists r'. split; [exact Hr' |]. split; [exact Hrs' |].
      rewrite (sorted_insert_perm _ _ _ Hr'). now constructor.
Qed.

End Sorted.

Section Unique.

Lemma unique_from_incl (seen : list cell) (s : Series) (x : cell) :
  In x (unique_from seen s) -> In x s.
Proof.
  revert seen. induction s as [| c s IH]; cbn; intros seen; [auto |].
  destruct (cell_in c seen).
  - intros H. right. eapply IH, H.
  - intros [<- | H]; [now left | right; eapply IH, H].
Qed.

(** On strings [unique] keeps one copy of each value. *)
Lemma unique_from_str (seen : list cell) (s : Series) :
  Forall (fun y => is_str y = true) s ->
  NoDup (unique_from seen s) /\
  (forall x, In x (unique_from seen s) <-> In x s /\ ~ In x seen).
Proof.
  intros H. revert seen. induction H as [| c s Hc Hs IH]; intros seen; cbn.
  - split; [constructor | tauto].
  - destruct c as [| t | f]; try discriminate.
    destruct (cell_in (CStr t) seen) eqn:Hin.
    + apply cell_in_str in Hin. destruct (IH seen) as [Hnd Hiff].
      split; [exact Hnd |]. intros x. rewrite Hiff. split.
      * intros [Hx Hn]. auto.
      * intros [[<- | Hx] Hn]; [contradiction | auto].
    + assert (Hnin : ~ In (CStr t) seen).
      { intros Hc'. apply cell_in_str in Hc'. congruence. }
      destruct (IH (CStr t :: seen)) as [Hnd Hiff]. split.
      * constructor; [| exact Hnd]. rewrite Hiff. cbn. tauto.
      * intros x. cbn. rewrite Hiff. cbn. split.
        -- intros [<- | [Hx Hn]]; [auto | tauto].
        -- intros [[<- | Hx] Hn]; [auto |].
           destruct (cell_eq_dec (CStr t) x) as [-> | Hne]; [auto | tauto].
Qed.

Lemma dropna_In (s : Series) (x : cell) :
  In x (dropna s) <-> In x s /\ isna x = false.
Proof.
  unfold dropna. rewrite filter_In, negb_true_iff. reflexivity.
Qed.

End Unique.

(** X5. For a Protocol column of strings, the options of the protocol
    widget are the distinct Protocol values in strictly ascending order,
    whether or not the table has a Category column.  For a Category column
    of strings and missing values, the options of the category widget are
    the distinct categories, the missing values left out, in strictly
    ascending order; without a Category column there are no options. *)
Theorem sidebar_options (df_protocols_tvl : DataFrame) :
  (forall p,
      getitem df_protocols_tvl "Protocol" = Ok p ->
      forallb is_str p = true ->
      exists ps,
        protocols df_protocols_tvl = Ok ps /\
        StronglySorted str_lt ps /\ NoDup ps /\
        (forall x, In x ps <-> In x p)) /\
  (forall c,
      getitem df_protocols_tvl "Category" = Ok c ->
      forallb str_or_missing c = true ->
      exists cs,
        categories df_protocols_tvl = Ok cs /\
        StronglySorted str_lt cs /\ NoDup cs /\
        (forall x, In x cs <-> In x c /\ isna x = false)) /\
  (has_column "Category" df_protocols_tvl = false ->
   categories df_protocols_tvl = Ok []).
Proof.
  split; [| split].
  - intros p Hp Hpstr. apply Forall_forallb in Hpstr.
    destruct (unique_from_str [] p Hpstr) as [Hnd Hin].
    destruct (sorted_strict (unique p)) as (ps & Hps & Hsorted & Hperm);
      [now apply unique_from_Forall | exact Hnd |].
    exists ps.
    split; [unfold protocols; rewrite Hp; exact Hps |].
    split; [exact Hsorted |].
    split; [eapply Permutation_NoDup; [symmetry; exact Hperm | exact Hnd] |].
    intros x. split; intros H.
    + eapply Permutation_in in H; [| exact Hperm]. apply Hin in H. tauto.
    + eapply Permutation_in; [symmetry; exact Hperm |]. apply Hin. cbn. tauto.
  - intros c Hc Hcstr. apply Forall_forallb in Hcstr.
    pose proof (dropna_str c Hcstr) as Hdrop.
    destruct (unique_from_str [] (dropna c) Hdrop) as [Hnd' Hin'].
    destruct (sorted_strict (unique (dropna c))) as (cs & Hcs & Hsorted' & Hperm');
      [now apply unique_from_Forall | exact Hnd' |].
    exists cs.
    split.
    { unfold categories. rewrite (getitem_has_column _ _ _ Hc), Hc. exact Hcs. }
    split; [exact Hsorted' |].
    split; [eapply Permutation_NoDup; [symmetry; exact Hperm' | exact Hnd'] |].
    intros x. rewrite <- dropna_In. split; intros H.
    + eapply Permutation_in in H; [| exact Hperm']. apply Hin' in H. tauto.
    + eapply Permutation_in; [symmetry; exact Hperm' |]. apply Hin'. cbn. tauto.
  - apply categories_without_column.
Qed.

Lemma sidebar_options_witness :
  protocols uncategorised_tvl = Ok [CStr "A"; CStr "B"; CStr "C"] /\
  categories uncategorised_tvl = Ok [CStr "Dexes"; CStr "Lending"] /\
  protocols no_category_tvl = Ok [CStr "A"; CStr "B"] /\
  categories no_category_tvl = Ok [].
Proof.
  destruct (sidebar_options uncategorised_tvl) as (Hp & Hc & _).
  destruct (Hp [CStr "A"; CStr "B"; CStr "C"] eq_refl eq_refl)
    as (ps & Hps & _).
  destruct (Hc [CStr "Dexes"; NaN; CStr "Lending"] eq_refl eq_refl)
    as (cs & Hcs & _).
  destruct (sidebar_options no_category_tvl) as (Hp' & _ & Hnone).
  destruct (Hp' [CStr "B"; CStr "A"] eq_refl eq_refl) as (ps' & Hps' & _).
  split; [rewrite Hps; vm_compute in Hps; congruence |].
  split; [rewrite Hcs; vm_compute in Hcs; congruence |].
  split; [rewrite Hps'; vm_compute in Hps'; congruence |].
  exact (Hnone eq_refl).
Defined.

Lemma default_protocols_firstn (ps : list cell) :
  default_protocols ps = firstn 5 ps.
Proof.
  unfold default_protocols. destruct (Nat.ltb_spec 5 (List.length ps)) as [H | H].
  - reflexivity.
  - symmetry. now apply firstn_all2.
Qed.

(** X6. Until the user touches the widgets, the selected protocols are the
    first five options, or all of them when there are at most five, and
    every category is selected. *)
Theorem default_selection (df_protocols_tvl : DataFrame) (ps cs : list cell) :
  protocols df_protocols_tvl = Ok ps ->
  categories df_protocols_tvl = Ok cs ->
  exists sel,
    sidebar df_protocols_tvl all_defaults = Ok sel /\
    selected_protocols sel = firstn 5 ps /\
    List.length (selected_protocols sel) = Nat.min 5 (List.length ps) /\
    ((List.length ps <= 5)%nat -> selected_protocols sel = ps) /\
    selected_categories sel = cs.
Proof.
  intros Hps Hcs. unfold sidebar. rewrite Hps, Hcs. cbn.
  eexists. split; [reflexivity |]. cbn.
  rewrite default_protocols_firstn.
  split; [reflexivity |]. split; [apply length_firstn |].
  split; [intros H; now apply firstn_all2 | reflexivity].
Qed.

Lemma default_selection_witness :
  exists sel,
    sidebar ranking_tvl all_defaults = Ok sel /\
    selected_protocols sel = [CStr "a"; CStr "b"; CStr "c"; CStr "d"; CStr "e"] /\
    selected_categories sel = [].
Proof.
  destruct (default_selection ranking_tvl
              [CStr "a"; CStr "b"; CStr "c"; CStr "d"; CStr "e"; CStr "f";
               CStr "g"; CStr "h"; CStr "i"; CStr "j"; CStr "k"; CStr "l"] []
              eq_refl eq_refl)
    as (sel & Hs & Hp & _ & _ & Hc).
  exists sel. split; [exact Hs |]. split; [exact Hp | exact Hc].
Defined.

Lemma multiselect_incl (options default : list cell) (picked : option (list nat))
    (x : cell) :
  incl default options ->
  In x (multiselect options default picked) -> In x options.
Proof.
  intros Hd. destruct picked as [picks |]; cbn; [| apply Hd].
  rewrite in_flat_map. intros (i & _ & Hi).
  destruct (nth_error options i) as [o |] eqn:Ho; [| contradiction].
  destruct Hi as [<- | []]. eapply nth_error_In, Ho.
Qed.

Lemma protocols_from_column (df : DataFrame) (ps : list cell) (x : cell) :
  protocols df = Ok ps -> In x ps ->
  exists p, getitem df "Protocol" = Ok p /\ In x p.
Proof.
  unfold protocols. destruct (getitem df "Protocol") as [p | e]; cbn; [| discriminate].
  intros Hs Hx. exists p. split; [reflexivity |].
  eapply unique_from_incl, Permutation_in; [eapply sorted_perm, Hs | exact Hx].
Qed.

Lemma categories_from_column (df : DataFrame) (cs : list cell) (x : cell) :
  categories df = Ok cs -> In x cs ->
  exists c, getitem df "Category" = Ok c /\ In x c /\ isna x = false.
Proof.
  unfold categories. destruct (has_column "Category" df).
  - destruct (getitem df "Category") as [c | e]; cbn; [| discriminate].
    intros Hs Hx. exists c. split; [reflexivity |].
    apply dropna_In.
    eapply unique_from_incl, Permutation_in; [eapply sorted_perm, Hs | exact Hx].
  - intros [= <-] [].
Qed.

Lemma selected_categories_present (df : DataFrame) (ui : widgets) (sel : selection)
    (x : cell) :
  sidebar df ui = Ok sel -> In x (selected_categories sel) ->
  exists c, getitem df "Category" = Ok c /\ In x c /\ isna x = false.
Proof.
  intros Hs Hx. destruct (sidebar_inv _ _ _ Hs) as (ps & cs & _ & Hcs & _ & Hsc).
  rewrite Hsc in Hx. apply multiselect_incl in Hx; [| apply incl_refl].
  eapply categories_from_column; eassumption.
Qed.

(** X7. Whatever the user picks, every selected protocol is a Protocol
    value of the TVL table and every selected category is a Category value
    of the table that is not missing. *)
Theorem selection_from_table (df_protocols_tvl : DataFrame) (ui : widgets)
    (sel : selection) :
  sidebar df_protocols_tvl ui = Ok sel ->
  (forall x, In x (selected_protocols sel) ->
             exists p, getitem df_protocols_tvl "Protocol" = Ok p /\ In x p) /\
  (forall x, In x (selected_categories sel) ->
             exists c, getitem df_protocols_tvl "Category" = Ok c /\ In x c /\
                       isna x = false).
Proof.
  intros Hs. split.
  - intros x Hx.
    destruct (sidebar_inv _ _ _ Hs) as (ps & cs & Hps & _ & Hsp & _).
    rewrite Hsp in Hx. apply multiselect_incl in Hx.
    + eapply protocols_from_column; eassumption.
    + rewrite default_protocols_firstn. intros y. apply In_firstn.
  - intros x Hx. eapply selected_categories_present; eassumption.
Qed.

Lemma selection_from_table_witness :
  exists sel,
    sidebar uncategorised_tvl
      {| protocol_picks := Some [2%nat; 0%nat; 7%nat]; category_picks := None |}
      = Ok sel /\
    selected_protocols sel = [CStr "C"; CStr "A"] /\
    (forall x, In x (selected_categories sel) -> isna x = false).
Proof.
  eexists. split; [reflexivity |]. split; [reflexivity |].
  intros x Hx.
  destruct (selection_from_table uncategorised_tvl
              {| protocol_picks := Some [2%nat; 0%nat; 7%nat]; category_picks := None |}
              _ eq_refl) as [_ Hc].
  destruct (Hc x Hx) as (c & _ & _ & Hna). exact Hna.
Defined.

(** ** The filters, further *)

Section FilterFacts.

Lemma filter_and {A : Type} (p q : A -> bool) (l : list A) :
  filter q (filter p l) = filter (fun x => p x && q x) l.
Proof.
  induction l as [| x l IH]; cbn; [reflexivity |].
  destruct (p x); cbn; [destruct (q x) |]; now rewrite IH.
Qed.

Lemma filter_subseq {A : Type} (p : A -> bool) (l : list A) :
  subseq (filter p l) l.
Proof.
  induction l as [| x l IH]; cbn; [constructor |].
  destruct (p x); now constructor.
Qed.

Lemma value_at_same (df df' : DataFrame) (c : string) (r : list cell) :
  columns df' = columns df -> value_at df' c r = value_at df c r.
Proof. unfold value_at. now intros ->. Qed.

(** The two steps of the TVL filter, as one selection of rows. *)
Lemma filtered_tvl_passes (df ft : DataFrame) (sel : selection) :
  filtered_tvl df sel = Ok ft ->
  ft = {| columns := columns df; rows := filter (passes df sel) (rows df) |}.
Proof.
  unfold filtered_tvl, protocol_filter, passes.
  destruct (getitem df "Protocol") as [p | e] eqn:Hp; cbn [bind]; [| discriminate].
  rewrite (isin_rows _ _ _ _ Hp).
  destruct (selected_categories sel) as [| c0 S]; cbn [category_filter].
  - intros [= <-]. f_equal. apply filter_ext. intros r. now rewrite andb_true_r.
  - match goal with |- context [getitem ?d "Category"] =>
      destruct (getitem d "Category") as [c | e] eqn:Hc end;
      cbn [bind]; [| discriminate].
    intros [= <-]. rewrite (isin_rows _ _ _ _ Hc). cbn [columns rows].
    f_equal. rewrite filter_and. apply filter_ext. intros r. reflexivity.
Qed.

Lemma filtered_by_rows (df ft out : DataFrame) (keys : Series) :
  filtered_by df ft = Ok out -> getitem ft "Protocol" = Ok keys ->
  out = {| columns := columns df;
           rows := filter (fun r => cell_in (value_at df "Protocol" r) keys)
                     (rows df) |}.
Proof.
  unfold filtered_by.
  destruct (getitem df "Protocol") as [p | e] eqn:Hp; cbn [bind]; [| discriminate].
  intros H Hk. rewrite Hk in H. cbn [bind] in H. injection H as <-.
  apply (isin_rows _ _ _ _ Hp).
Qed.

Lemma cell_eqb_isna (a b : cell) : cell_eqb a b = true -> isna a = isna b.
Proof.
  destruct a as [| s | f], b as [| t | g]; cbn; try discriminate; try reflexivity.
  destruct f, g; cbn; try discriminate; reflexivity.
Qed.

(** A missing value is not among values that are all present. *)
Lemma cell_in_present (x : cell) (values : list cell) :
  (forall v, In v values -> isna v = false) ->
  cell_in x values = true -> isna x = false.
Proof.
  intros Hv. unfold cell_in. rewrite existsb_exists.
  intros (v & Hin & Heq). rewrite (cell_eqb_isna _ _ Heq). now apply Hv.
Qed.

End FilterFacts.

(** X8. The filtered TVL table has the columns of the TVL table, and its
    rows are, in their original order, the rows that pass both steps: a
    selected Protocol and, when some category is selected, a selected
    Category. *)
Theorem filtered_tvl_rows (df_protocols_tvl ft : DataFrame) (sel : selection) :
  filtered_tvl df_protocols_tvl sel = Ok ft ->
  columns ft = columns df_protocols_tvl /\
  rows ft = filter (passes df_protocols_tvl sel) (rows df_protocols_tvl) /\
  subseq (rows ft) (rows df_protocols_tvl) /\
  (forall r, In r (rows ft) <->
             In r (rows df_protocols_tvl) /\ passes df_protocols_tvl sel r = true).
Proof.
  intros H. rewrite (filtered_tvl_passes _ _ _ H). cbn.
  split; [reflexivity |]. split; [reflexivity |].
  split; [apply filter_subseq | intros r; apply filter_In].
Qed.

Lemma filtered_tvl_rows_witness :
  exists ft,
    filtered_tvl uncategorised_tvl
      {| selected_protocols := [CStr "A"; CStr "B"];
         selected_categories := [CStr "Dexes"; CStr "Lending"] |} = Ok ft /\
    rows ft = [[CStr "A"; CStr "Dexes"; num 500]].
Proof.
  eexists. split; [reflexivity |].
  apply (filtered_tvl_rows uncategorised_tvl _
           {| selected_protocols := [CStr "A"; CStr "B"];
              selected_categories := [CStr "Dexes"; CStr "Lending"] |} eq_refl).
Defined.

(** X9. As soon as one category is selected, a row whose Category is
    missing is left out of the filtered TVL table, also when every category
    is selected, as by default. *)
Theorem missing_category_dropped (df_protocols_tvl ft : DataFrame) (ui : widgets)
    (sel : selection) :
  sidebar df_protocols_tvl ui = Ok sel ->
  selected_categories sel <> [] ->
  filtered_tvl df_protocols_tvl sel = Ok ft ->
  Forall (fun r => isna (value_at df_protocols_tvl "Category" r) = false) (rows ft).
Proof.
  intros Hs Hne Hft. rewrite (filtered_tvl_passes _ _ _ Hft). cbn [rows].
  apply Forall_forall. intros r Hr. apply filter_In in Hr.
  destruct Hr as [_ Hpass]. unfold passes in Hpass.
  apply andb_true_iff in Hpass. destruct Hpass as [_ Hcat].
  destruct (selected_categories sel) as [| c0 S] eqn:Hsel; [contradiction |].
  rewrite <- Hsel in Hcat. eapply cell_in_present; [| exact Hcat].
  intros v Hv.
  destruct (selected_categories_present _ _ _ v Hs Hv) as (c & _ & _ & Hna).
  exact Hna.
Qed.

Lemma missing_category_dropped_witness :
  exists sel ft,
    sidebar uncategorised_tvl all_defaults = Ok sel /\
    selected_protocols sel = [CStr "A"; CStr "B"; CStr "C"] /\
    filtered_tvl uncategorised_tvl sel = Ok ft /\
    getitem ft "Protocol" = Ok [CStr "A"; CStr "C"] /\
    Forall (fun r => isna (value_at uncategorised_tvl "Category" r) = false) (rows ft).
Proof.
  eexists. eexists.
  split; [reflexivity |]. split; [reflexivity |].
  split; [reflexivity |]. split; [reflexivity |].
  apply (missing_category_dropped uncategorised_tvl _ all_defaults _ eq_refl).
  - discriminate.
  - reflexivity.
Defined.

(** X10. The filtered fees, revenue and market tables have the columns of
    their tables and hold, in their original order, the rows whose Protocol
    is a Protocol of the filtered TVL table: no row of a filtered table is
    about a protocol that was filtered out. *)
Theorem filter_data_keys (df_protocols_tvl df_protocols_revenue df_protocols_fees
    df_protocols_market_data : DataFrame) (sel : selection) (f : filtered) :
  filter_data df_protocols_tvl df_protocols_revenue df_protocols_fees
    df_protocols_market_data sel = Ok f ->
  exists keys,
    getitem (f_tvl f) "Protocol" = Ok keys /\
    f_fees f =
      {| columns := columns df_protocols_fees;
         rows := filter (fun r => cell_in (value_at df_protocols_fees "Protocol" r) keys)
                   (rows df_protocols_fees) |} /\
    f_revenue f =
      {| columns := columns df_protocols_revenue;
         rows := filter (fun r => cell_in (value_at df_protocols_revenue "Protocol" r) keys)
                   (rows df_protocols_revenue) |} /\
    f_market f =
      {| columns := columns df_protocols_market_data;
         rows := filter (fun r => cell_in (value_at df_protocols_market_data "Protocol" r) keys)
                   (rows df_protocols_market_data) |} /\
    subseq (rows (f_fees f)) (rows df_protocols_fees) /\
    subseq (rows (f_revenue f)) (rows df_protocols_revenue) /\
    subseq (rows (f_market f)) (rows df_protocols_market_data).
Proof.
  unfold filter_data.
  destruct (filtered_tvl df_protocols_tvl sel) as [ft | e]; cbn [bind];
    [| discriminate].
  destruct (filtered_by df_protocols_fees ft) as [ff | e] eqn:Hff; cbn [bind];
    [| discriminate].
  destruct (filtered_by df_protocols_revenue ft) as [fr | e] eqn:Hfr; cbn [bind];
    [| discriminate].
  destruct (filtered_by df_protocols_market_data ft) as [fm | e] eqn:Hfm; cbn [bind];
    [| discriminate].
  intros [= <-]. cbn [f_tvl f_fees f_revenue f_market].
  assert (Hk : exists keys, getitem ft "Protocol" = Ok keys).
  { unfold filtered_by in Hff.
    destruct (getitem df_protocols_fees "Protocol"); cbn [bind] in Hff;
      [| discriminate].
    destruct (getitem ft "Protocol") as [keys | e]; [eauto | discriminate]. }
  destruct Hk as [keys Hk]. exists keys.
  rewrite (filtered_by_rows _ _ _ _ Hff Hk), (filtered_by_rows _ _ _ _ Hfr Hk),
    (filtered_by_rows _ _ _ _ Hfm Hk). cbn [rows].
  split; [exact Hk |]. repeat (split; [reflexivity |]).
  repeat split; apply filter_subseq.
Qed.

Lemma filter_data_keys_witness :
  exists f,
    filter_data scenario_tvl scenario_revenue scenario_fees duplicate_market
      {| selected_protocols := [CStr "B"]; selected_categories := [] |} = Ok f /\
    getitem (f_tvl f) "Protocol" = Ok [CStr "B"] /\
    rows (f_revenue f) = [] /\ rows (f_market f) = [].
Proof.
  eexists. split; [reflexivity |].
  destruct (filter_data_keys scenario_tvl scenario_revenue scenario_fees
              duplicate_market
              {| selected_protocols := [CStr "B"]; selected_categories := [] |}
              _ eq_refl) as (keys & Hk & _ & Hr & Hm & _).
  split; [reflexivity |]. rewrite Hr, Hm. vm_compute in Hk.
  injection Hk as <-. split; reflexivity.
Defined.

(** X11. Filtering is idempotent: the filtered TVL table, filtered again
    with the same selection, is itself. *)
Theorem filtered_tvl_idempotent (df_protocols_tvl ft : DataFrame) (sel : selection) :
  filtered_tvl df_protocols_tvl sel = Ok ft ->
  filtered_tvl ft sel = Ok ft.
Proof.
  intros H. pose proof (filtered_tvl_passes _ _ _ H) as Hft.
  assert (Hcols : columns ft = columns df_protocols_tvl) by (now rewrite Hft).
  assert (Hok : exists ft', filtered_tvl ft sel = Ok ft').
  { revert H. unfold filtered_tvl, protocol_filter.
    destruct (getitem df_protocols_tvl "Protocol") as [p | e] eqn:Hp; cbn [bind];
      [| discriminate].
    destruct (getitem_ok "Protocol" ft) as [p' ->].
    { rewrite (has_column_same _ _ _ Hcols). eapply getitem_has_column, Hp. }
    cbn [bind]. destruct (selected_categories sel) as [| c0 S]; cbn; [eauto |].
    match goal with |- context [getitem ?d "Category"] =>
      destruct (getitem d "Category") as [c | e] eqn:Hc end; cbn; [| discriminate].
    intros _. apply getitem_has_column in Hc.
    match goal with |- context [getitem ?d "Category"] =>
      destruct (getitem_ok "Category" d) as [c' ->] end; cbn; [| eauto].
    cbn in Hc |- *. unfold has_column in *. cbn in *. now rewrite Hcols. }
  destruct Hok as [ft' Hft']. rewrite Hft'. f_equal.
  assert (Hrows : rows ft = filter (passes df_protocols_tvl sel) (rows df_protocols_tvl))
    by (rewrite Hft; reflexivity).
  rewrite (filtered_tvl_passes _ _ _ Hft').
  rewrite (filter_ext (passes ft sel) (passes df_protocols_tvl sel)).
  - rewrite Hcols, Hrows, filter_and.
    rewrite (filter_ext _ (passes df_protocols_tvl sel)).
    + symmetry. exact Hft.
    + intros r. apply andb_diag.
  - intros r. unfold passes.
    now rewrite !(value_at_same df_protocols_tvl ft) by exact Hcols.
Qed.

Lemma filtered_tvl_idempotent_witness :
  exists ft,
    filtered_tvl uncategorised_tvl
      {| selected_protocols := [CStr "A"; CStr "B"];
         selected_categories := [CStr "Dexes"] |} = Ok ft /\
    filtered_tvl ft
      {| selected_protocols := [CStr "A"; CStr "B"];
         selected_categories := [CStr "Dexes"] |} = Ok ft.
Proof.
  eexists. split; [reflexivity |].
  apply (filtered_tvl_idempotent uncategorised_tvl). reflexivity.
Defined.

(** X20. Without a Category column the sidebar can only return the empty
    category selection, whatever the user does with the widget; the category
    step is then skipped, so that the filtered TVL table is the table
    filtered by protocol alone, and lines 81 to 92 raise nothing for want
    of the column. *)
Theorem category_noop_without_column (df_protocols_tvl : DataFrame) (ui : widgets)
    (ps : list cell) :
  has_column "Category" df_protocols_tvl = false ->
  protocols df_protocols_tvl = Ok ps ->
  exists sel ft,
    sidebar df_protocols_tvl ui = Ok sel /\
    selected_categories sel = [] /\
    protocol_filter df_protocols_tvl (selected_protocols sel) = Ok ft /\
    filtered_tvl df_protocols_tvl sel = Ok ft.
Proof.
  intros Hc Hps.
  destruct (protocol_filter_ok df_protocols_tvl
              (multiselect ps (default_protocols ps) (protocol_picks ui))
              (protocols_has_column _ _ Hps)) as (p & Hp & Hpf).
  unfold sidebar. rewrite Hps, (categories_without_column _ Hc). cbn [bind].
  eexists. eexists. split; [reflexivity |]. cbn.
  rewrite multiselect_no_options by reflexivity.
  split; [reflexivity |]. split; [exact Hpf |].
  unfold filtered_tvl. cbn. rewrite Hpf. reflexivity.
Qed.

Lemma category_noop_without_column_witness :
  exists sel ft,
    sidebar no_category_tvl {| protocol_picks := None; category_picks := Some [0%nat; 3%nat] |}
      = Ok sel /\
    selected_categories sel = [] /\
    filtered_tvl no_category_tvl sel = Ok ft /\
    rows ft = rows no_category_tvl.
Proof.
  destruct (category_noop_without_column no_category_tvl
              {| protocol_picks := None; category_picks := Some [0%nat; 3%nat] |}
              [CStr "A"; CStr "B"] eq_refl eq_refl)
    as (sel & ft & Hs & Hc & Hpf & Hft).
  exists sel, ft. split; [exact Hs |]. split; [exact Hc |]. split; [exact Hft |].
  vm_compute in Hs. injection Hs as <-.
  vm_compute in Hpf. injection Hpf as <-. reflexivity.
Defined.
(** ** The cards, further *)

Section SumFacts.

Lemma add_zero (a b : PyFloat.float) :
  is_zero a = true -> is_zero b = true -> is_zero (PyFloat.add a b) = true.
Proof.
  destruct a as [sa | | |], b as [sb | | |]; try discriminate.
  intros _ _. now destruct sa, sb.
Qed.

Lemma add_all_zero (l : list PyFloat.float) :
  Forall (fun f => is_zero f = true) l ->
  forall acc, is_zero acc = true -> is_zero (add_all acc l) = true.
Proof.
  unfold add_all. induction 1 as [| f l Hf Hl IH]; intros acc Hacc; cbn;
    [exact Hacc |].
  apply IH. now apply add_zero.
Qed.

Lemma add_blocks_zero :
  forall (l : list PyFloat.float) (r : acc8),
    Forall (fun f => is_zero f = true) l -> zeros8 r ->
    zeros8 (fst (add_blocks r l)) /\
    Forall (fun f => is_zero f = true) (snd (add_blocks r l)).
Proof.
  fix IH 1.
  intros [| a0 [| a1 [| a2 [| a3 [| a4 [| a5 [| a6 [| a7 l']]]]]]]] r Hl Hr;
    try (split; [exact Hr | exact Hl]).
  cbn [add_blocks].
  repeat match goal with
         | H : Forall _ (_ :: _) |- _ => inversion H; subst; clear H
         end.
  destruct Hr as (Hr0 & Hr1 & Hr2 & Hr3 & Hr4 & Hr5 & Hr6 & Hr7).
  apply IH; [assumption |].
  unfold zeros8. cbn. repeat split; now apply add_zero.
Qed.

Lemma unrolled_sum_zero (l : list PyFloat.float) :
  Forall (fun f => is_zero f = true) l -> is_zero (unrolled_sum l) = true.
Proof.
  intros Hl. unfold unrolled_sum.
  destruct l as [| a0 [| a1 [| a2 [| a3 [| a4 [| a5 [| a6 [| a7 l']]]]]]]];
    try (now apply add_all_zero).
  repeat match goal with
         | H : Forall _ (_ :: _) |- _ => inversion H; subst; clear H
         end.
  match goal with
  | |- context [add_blocks ?r l'] =>
      pose proof (add_blocks_zero l' r) as Hb; destruct (add_blocks r l') as [r' rest]
  end.
  destruct Hb as [(Hr0 & Hr1 & Hr2 & Hr3 & Hr4 & Hr5 & Hr6 & Hr7) Hrest];
    [assumption | unfold zeros8; cbn; tauto |].
  cbn [fst snd] in *.
  apply add_all_zero; [exact Hrest |].
  repeat apply add_zero; assumption.
Qed.

Lemma Forall_take {A : Type} (P : A -> Prop) (n : nat) (l : list A) :
  Forall P l -> Forall P (firstn n l).
Proof.
  intros H. apply Forall_forall. intros x Hx.
  rewrite Forall_forall in H. apply H. rewrite <- (firstn_skipn n l).
  apply in_or_app. now left.
Qed.

Lemma Forall_drop {A : Type} (P : A -> Prop) (n : nat) (l : list A) :
  Forall P l -> Forall P (skipn n l).
Proof.
  intros H. apply Forall_forall. intros x Hx.
  rewrite Forall_forall in H. apply H. rewrite <- (firstn_skipn n l).
  apply in_or_app. now right.
Qed.

Lemma pairwise_sum_zero (fuel : nat) (l : list PyFloat.float) :
  Forall (fun f => is_zero f = true) l -> is_zero (pairwise_sum fuel l) = true.
Proof.
  revert l. induction fuel as [| fuel IH]; intros l Hl; cbn [pairwise_sum].
  - now apply unrolled_sum_zero.
  - destruct (128 <? List.length l)%nat; [| now apply unrolled_sum_zero].
    apply add_zero; apply IH; [now apply Forall_take | now apply Forall_drop].
Qed.

(** Zeros sum to zero. *)
Lemma np_sum_zero (l : list PyFloat.float) :
  Forall (fun f => is_zero f = true) l -> is_zero (np_sum l) = true.
Proof.
  intros Hl. unfold np_sum. destruct l as [| f l]; [reflexivity |].
  apply add_zero; [reflexivity | now apply pairwise_sum_zero].
Qed.

Lemma zero_eq_int (f : PyFloat.float) :
  is_zero f = true ->
  eq_int (AFloat f) 0 = true /\ format_currency (AFloat f) = Ok "$0".
Proof. destruct f as [[|] | | |]; try discriminate; intros _; split; reflexivity. Qed.

(** Every value is fed to the sum with its NaN replaced by zero. *)
Lemma sum_float_column (s : Series) (fs : list PyFloat.float) :
  float_values s = Ok fs ->
  sum s = Ok (AFloat (np_sum (map zero_if_nan fs))).
Proof. intros H. unfold sum. now rewrite H. Qed.

Lemma float_values_fillna (s : Series) (fs : list PyFloat.float) :
  float_values s = Ok fs ->
  float_values (fillna_zero s) = Ok (map zero_if_nan fs).
Proof.
  unfold fillna_zero. revert fs. induction s as [| x s IH]; cbn; intros fs.
  - now intros [= <-].
  - destruct x as [| t | f]; try discriminate.
    destruct (float_values s) as [fs' | e]; cbn; [| discriminate].
    intros [= <-]. cbn. unfold zero_if_nan at 1.
    destruct (PyFloat.is_nan f) eqn:Hf; cbn; now rewrite (IH fs' eq_refl).
Qed.

Lemma zero_if_nan_twice (f : PyFloat.float) :
  zero_if_nan (zero_if_nan f) = zero_if_nan f.
Proof.
  unfold zero_if_nan. destruct (PyFloat.is_nan f) eqn:H; [reflexivity |].
  now rewrite H.
Qed.

Lemma all_missing_zeros (fs : list PyFloat.float) :
  present fs = [] ->
  Forall (fun f => is_zero f = true) (map zero_if_nan fs).
Proof.
  unfold present. induction fs as [| f fs IH]; cbn; [constructor |].
  unfold zero_if_nan at 1. destruct (PyFloat.is_nan f); cbn; [| discriminate].
  intros H. constructor; [reflexivity | now apply IH].
Qed.

(** *** Object columns that hold a string *)

Lemma object_sum_from_str (values : list amount) (u : string) :
  stringy (object_sum_from (AStr u) values).
Proof.
  revert u. induction values as [| v values IH]; intros u; cbn.
  - right. eauto.
  - destruct v as [| z | f | t]; cbn; try (now left). apply IH.
Qed.

Lemma object_sum_from_mixed (s : Series) (t : string) :
  In (CStr t) s ->
  forall acc, is_number acc = true ->
  object_sum_from acc (map object_value s) = Raise TypeError.
Proof.
  induction s as [| x s IH]; cbn [In map]; [intros [] |].
  intros Hin acc Hacc. cbn [object_sum_from].
  destruct x as [| u | f].
  - destruct Hin as [Heq | Hin]; [discriminate |].
    destruct (py_add_number acc (object_value CNone) Hacc eq_refl)
      as (acc' & -> & Hacc'). cbn [bind]. now apply IH.
  - destruct acc as [| z | g | w]; try discriminate; reflexivity.
  - destruct Hin as [Heq | Hin]; [discriminate |].
    destruct (py_add_number acc (object_value (CFloat f)) Hacc
                (object_value_number (CFloat f) eq_refl))
      as (acc' & -> & Hacc'). cbn [bind]. now apply IH.
Qed.

(** The sum of a column that holds a string is the concatenation of a
    column of strings, or a [TypeError]. *)
Lemma sum_with_string (s : Series) (t : string) :
  In (CStr t) s -> stringy (sum s).
Proof.
  intros Hin. unfold sum.
  destruct (float_values s) as [fs | e] eqn:Hfs.
  - exfalso. assert (H : exists fs, float_values s = Ok fs) by eauto.
    apply float_values_ok in H. rewrite Forall_forall in H.
    specialize (H _ Hin). discriminate.
  - unfold object_sum. destruct s as [| x s]; [destruct Hin |].
    cbn [map]. destruct x as [| u | f].
    + destruct Hin as [Heq | Hin]; [discriminate |].
      left. now apply (object_sum_from_mixed s t).
    + apply object_sum_from_str.
    + destruct Hin as [Heq | Hin]; [discriminate |].
      left. apply (object_sum_from_mixed s t Hin).
      apply (object_value_number (CFloat f)). reflexivity.
Qed.

End SumFacts.

(** X12. In the total TVL a missing value counts as zero: the total of a
    float TVL column is the sum of its values with every NaN replaced by
    zero, so that filling the missing values with zero beforehand changes
    no total; a column in which every value is missing totals zero and is
    shown as "$0", like the column of a table without rows. *)
Theorem total_tvl_missing_as_zero (filtered_tvl : DataFrame) (s : Series)
    (fs : list PyFloat.float) :
  getitem filtered_tvl "TVL (USD)" = Ok s ->
  float_values s = Ok fs ->
  total_tvl filtered_tvl = Ok (AFloat (np_sum (map zero_if_nan fs))) /\
  sum (fillna_zero s) = total_tvl filtered_tvl /\
  (present fs = [] \/ rows filtered_tvl = [] ->
   exists total, total_tvl filtered_tvl = Ok total /\
                 eq_int total 0 = true /\ format_currency total = Ok "$0").
Proof.
  intros Hs Hfs. unfold total_tvl. rewrite Hs. cbn [bind].
  rewrite (sum_float_column _ _ Hfs).
  split; [reflexivity |]. split.
  - rewrite (sum_float_column _ _ (float_values_fillna _ _ Hfs)).
    rewrite map_map. do 3 f_equal. apply map_ext, zero_if_nan_twice.
  - intros Hnone. eexists. split; [reflexivity |].
    apply zero_eq_int, np_sum_zero, all_missing_zeros.
    destruct Hnone as [Hnone | Hnil]; [exact Hnone |].
    rewrite (getitem_value_at _ _ _ Hs), Hnil in Hfs.
    injection Hfs as <-. reflexivity.
Qed.

Lemma total_tvl_missing_as_zero_witness :
  total_tvl bare_tvl = sum [num 2500000000; num 0; num 500] /\
  exists total,
    total_tvl {| columns := ["Protocol"; "TVL (USD)"];
                 rows := [[CStr "A"; NaN]; [CStr "B"; NaN]] |} = Ok total /\
    format_currency total = Ok "$0".
Proof.
  split.
  - symmetry.
    apply (total_tvl_missing_as_zero bare_tvl [num 2500000000; NaN; num 500]
             [PyFloat.of_Z 2500000000; S754_nan; PyFloat.of_Z 500]
             eq_refl eq_refl).
  - destruct (total_tvl_missing_as_zero
                {| columns := ["Protocol"; "TVL (USD)"];
                   rows := [[CStr "A"; NaN]; [CStr "B"; NaN]] |}
                [NaN; NaN] [S754_nan; S754_nan] eq_refl eq_refl)
      as (_ & _ & Hnone).
    destruct (Hnone (or_introl eq_refl)) as (total & Ht & _ & Hcard).
    exists total. split; assumption.
Defined.

(** X13. The cards raise [KeyError('TVL (USD)')] when the filtered TVL
    table has no TVL column, and [TypeError] when that column holds a
    string.  For a float TVL column and a Market Cap column that is absent
    or holds floats and missing values only, the cards raise nothing.  A
    market table without Market Cap gives the card "$0", and the protocol
    card is the number of rows of the filtered TVL table. *)
Theorem kpi_cards_errors (f : filtered) :
  (has_column "TVL (USD)" (f_tvl f) = false ->
   kpi_cards f = Raise (KeyError "TVL (USD)")) /\
  (forall s t, getitem (f_tvl f) "TVL (USD)" = Ok s -> In (CStr t) s ->
               kpi_cards f = Raise TypeError) /\
  (numeric_column "TVL (USD)" (f_tvl f) = true ->
   optional_column_all float_or_missing "Market Cap (USD)" (f_market f) = true ->
   exists k, kpi_cards f = Ok k) /\
  (forall k, kpi_cards f = Ok k ->
             card_protocols k = str (List.length (rows (f_tvl f))) /\
             (has_column "Market Cap (USD)" (f_market f) = false ->
              card_market_cap k = "$0")).
Proof.
  split; [| split; [| split]].
  - intros Htvl. unfold kpi_cards, total_tvl.
    now rewrite (getitem_missing _ _ Htvl).
  - intros s t Hs Hin. unfold kpi_cards, total_tvl. rewrite Hs. cbn [bind].
    destruct (sum_with_string s t Hin) as [-> | [u ->]]; reflexivity.
  - apply kpi_cards_ok.
  - unfold kpi_cards, total_market_cap. intros k.
    destruct (total_tvl (f_tvl f)) as [tvl |]; cbn [bind]; [| discriminate].
    destruct (format_currency tvl) as [tvl_card |]; cbn [bind]; [| discriminate].
    destruct (has_column "Market Cap (USD)" (f_market f)) eqn:Hcap.
    + destruct (let* s := getitem (f_market f) "Market Cap (USD)" in sum s)
        as [cap |]; cbn [bind]; [| discriminate].
      destruct (format_currency cap) as [cap_card |]; cbn [bind];
        [| discriminate].
      intros [= <-]. cbn. split; [reflexivity | discriminate].
    + cbn. intros [= <-]. cbn. split; reflexivity.
Qed.

Lemma kpi_cards_errors_witness :
  kpi_cards {| f_tvl := tvl_without_values; f_fees := scenario_fees;
               f_revenue := scenario_revenue; f_market := scenario_market |}
    = Raise (KeyError "TVL (USD)") /\
  exists k,
    kpi_cards {| f_tvl := bare_tvl; f_fees := scenario_fees;
                 f_revenue := scenario_revenue; f_market := bare_market |} = Ok k /\
    card_protocols k = "3" /\ card_market_cap k = "$0".
Proof.
  split.
  - apply (kpi_cards_errors
             {| f_tvl := tvl_without_values; f_fees := scenario_fees;
                f_revenue := scenario_revenue; f_market := scenario_market |}).
    reflexivity.
  - destruct (kpi_cards_errors
                {| f_tvl := bare_tvl; f_fees := scenario_fees;
                   f_revenue := scenario_revenue; f_market := bare_market |})
      as (_ & _ & Hok & Hk).
    destruct (Hok eq_refl eq_refl) as [k Hcards].
    exists k. split; [exact Hcards |].
    destruct (Hk k Hcards) as [Hp Hc]. split; [exact Hp | exact (Hc eq_refl)].
Defined.

(** ** The overview table, further *)

Section OverviewFacts.

Lemma positions_length (cols have : list string) (ps : list nat) :
  positions cols have = Some ps -> List.length ps = List.length cols.
Proof.
  revert ps. induction cols as [| c cols IH]; cbn; intros ps.
  - now intros [= <-].
  - destruct (column_pos c have); [| discriminate].
    destruct (positions cols have) as [ps' |]; [| discriminate].
    intros [= <-]. cbn. now rewrite (IH ps' eq_refl).
Qed.

(** One missing label is enough for [df[cols]] to raise. *)
Lemma positions_missing (cols have : list string) (c : string) :
  In c cols -> column_pos c have = None -> positions cols have = None.
Proof.
  intros Hin Hc. induction cols as [| c' cols IH]; [destruct Hin |].
  cbn. destruct Hin as [-> | Hin]; [now rewrite Hc |].
  rewrite (IH Hin). now destruct (column_pos c' have).
Qed.

Lemma getitems_missing (df : DataFrame) (cols : list string) (c : string) :
  In c cols -> has_column c df = false ->
  getitems df cols = Raise (KeyError (not_in_index cols (columns df))).
Proof.
  intros Hin Hc. unfold getitems.
  now rewrite (positions_missing _ _ c Hin (proj1 (has_column_false _ _) Hc)).
Qed.

(** [df[cols]] has the columns asked for, one cell per column. *)
Lemma getitems_shape (df out : DataFrame) (cols : list string) :
  getitems df cols = Ok out ->
  columns out = cols /\ aligned out /\
  List.length (rows out) = List.length (rows df).
Proof.
  unfold getitems. destruct (positions cols (columns df)) as [ps |] eqn:Hps;
    [| discriminate].
  intros [= <-]. cbn. split; [reflexivity |]. split.
  - unfold aligned. cbn. apply Forall_forall. intros r Hr.
    apply in_map_iff in Hr. destruct Hr as (r0 & <- & _).
    rewrite length_map. eapply positions_length, Hps.
  - apply length_map.
Qed.

Lemma overview_cols_subseq (ft fm : DataFrame) :
  subseq (overview_cols ft fm) overview_labels.
Proof.
  unfold overview_cols, overview_labels. cbn [filter].
  destruct (has_column "Protocol" ft), (has_column "Category" ft),
    (has_column "TVL (USD)" ft), (has_column "Market Cap (USD)" fm),
    (has_column "Current Price (USD)" fm); cbn [app];
    repeat first [apply subseq_keep | apply subseq_skip | apply subseq_nil].
Qed.

Lemma column_pos_none (c : string) (cols : list string) :
  ~ In c cols -> column_pos c cols = None.
Proof.
  intros H. destruct (column_pos c cols) as [i |] eqn:Hi; [| reflexivity].
  elim H. apply column_pos_In. eauto.
Qed.

(** No label with a suffix [_x] or [_y] reads "Category". *)
Lemma suffixed_not_category (c : string) :
  (c ++ "_x")%string <> "Category" /\ (c ++ "_y")%string <> "Category".
Proof.
  split; intros H;
    repeat (destruct c as [| ? c]; cbn in H; [discriminate |];
            injection H as _ H);
    destruct c; discriminate.
Qed.

End OverviewFacts.

(** X14. The overview table that is shown has the labels of
    [overview_cols] as its columns, which are those of Protocol, Category,
    TVL (USD), Market Cap (USD) and Current Price (USD) that their table
    has, in this order; it has one row per row of the join, each with one
    cell per column. *)
Theorem overview_table_shape (f : filtered) (ov : DataFrame) :
  overview_table f = Ok ov ->
  columns ov = overview_cols (f_tvl f) (f_market f) /\
  subseq (columns ov) overview_labels /\
  (forall c, In c (columns ov) <->
             (In c ["Protocol"; "Category"; "TVL (USD)"] /\
              has_column c (f_tvl f) = true) \/
             (In c ["Market Cap (USD)"; "Current Price (USD)"] /\
              has_column c (f_market f) = true)) /\
  aligned ov /\
  exists joined,
    overview_df (f_tvl f) (f_market f) = Ok joined /\
    List.length (rows ov) = List.length (rows joined).
Proof.
  unfold overview_table.
  destruct (overview_df (f_tvl f) (f_market f)) as [joined | e]; cbn [bind];
    [| discriminate].
  intros H. destruct (getitems_shape _ _ _ H) as (Hcols & Hal & Hlen).
  rewrite Hcols. split; [reflexivity |].
  split; [apply overview_cols_subseq |]. split.
  - intros c. unfold overview_cols. rewrite !in_app_iff, filter_In.
    destruct (has_column "Market Cap (USD)" (f_market f)) eqn:Hm,
             (has_column "Current Price (USD)" (f_market f)) eqn:Hp; cbn;
      intuition (subst; try congruence; auto).
  - split; [exact Hal |]. exists joined. auto.
Qed.

Lemma overview_table_shape_witness :
  exists ov,
    overview_table {| f_tvl := bare_tvl; f_fees := scenario_fees;
                      f_revenue := scenario_revenue; f_market := duplicate_market |}
      = Ok ov /\
    columns ov = ["Protocol"; "TVL (USD)"; "Market Cap (USD)"; "Current Price (USD)"] /\
    List.length (rows ov) = 4%nat.
Proof.
  eexists. split; [vm_compute; reflexivity |].
  match goal with
  | |- columns ?o = _ /\ _ =>
      destruct (overview_table_shape
                  {| f_tvl := bare_tvl; f_fees := scenario_fees;
                     f_revenue := scenario_revenue; f_market := duplicate_market |}
                  o eq_refl) as (Hcols & _)
  end.
  split; [exact Hcols | reflexivity].
Defined.

Section SharedLabels.

Variables (ft fm joined : DataFrame).
Hypothesis Hjoined : overview_df ft fm = Ok joined.

Lemma joined_columns :
  exists i j,
    column_pos "Protocol" (columns ft) = Some i /\
    column_pos "Protocol" (columns fm) = Some j /\
    columns joined =
      map (fun c => if negb (String.eqb c "Protocol")
                       && label_in c (remove_at j (columns fm))
                    then (c ++ "_x")%string else c) (columns ft)
      ++ map (fun c => if label_in c (remove_at i (columns ft))
                       then (c ++ "_y")%string else c)
           (remove_at j (columns fm)).
Proof.
  revert Hjoined. unfold overview_df, merge_left.
  destruct (column_pos "Protocol" (columns ft)) as [i |]; [| discriminate].
  destruct (column_pos "Protocol" (columns fm)) as [j |]; [| discriminate].
  intros [= <-]. exists i, j. auto.
Qed.

(** A label of the TVL table that the market table does not have, and
    the key, keep their name in the join. *)
Lemma kept_left (c : string) :
  has_column c ft = true ->
  c = "Protocol" \/ has_column c fm = false ->
  has_column c joined = true.
Proof.
  destruct joined_columns as (i & j & Hi & Hj & Hcols).
  rewrite !has_column_In, Hcols. intros Hin Hfree.
  apply in_or_app. left. apply in_map_iff. exists c. split; [| exact Hin].
  destruct (String.eqb_spec c "Protocol") as [-> | Hne]; [reflexivity |].
  cbn. destruct (label_in c (remove_at j (columns fm))) eqn:Hr; [| reflexivity].
  apply label_in_In, remove_at_incl, has_column_In in Hr.
  destruct Hfree as [-> | Hfree]; congruence.
Qed.

(** A label of the market table that the TVL table does not have keeps
    its name in the join. *)
Lemma kept_right (c : string) :
  has_column c fm = true -> has_column c ft = false ->
  has_column c joined = true.
Proof.
  destruct joined_columns as (i & j & Hi & Hj & Hcols).
  intros Hin Hfree. rewrite has_column_In, Hcols.
  assert (Hne : c <> "Protocol").
  { intros ->. apply has_column_false in Hfree. congruence. }
  apply has_column_In in Hin.
  apply in_or_app. right. apply in_map_iff. exists c.
  split; [| now apply (remove_at_keeps "Protocol")].
  destruct (label_in c (remove_at i (columns ft))) eqn:Hl; [| reflexivity].
  apply label_in_In, remove_at_incl, has_column_In in Hl. congruence.
Qed.

(** A Category column on both sides is renamed on both sides. *)
Lemma shared_category_renamed :
  has_column "Category" ft = true -> has_column "Category" fm = true ->
  has_column "Category" joined = false /\
  has_column "Category_x" joined = true /\
  has_column "Category_y" joined = true.
Proof.
  destruct joined_columns as (i & j & Hi & Hj & Hcols).
  intros Hcl Hcr. apply has_column_In in Hcl, Hcr.
  assert (Hrr : In "Category" (remove_at j (columns fm)))
    by (apply (remove_at_keeps "Protocol"); [exact Hj | discriminate | exact Hcr]).
  assert (Hlr : In "Category" (remove_at i (columns ft)))
    by (apply (remove_at_keeps "Protocol"); [exact Hi | discriminate | exact Hcl]).
  split; [| split].
  - destruct (has_column "Category" joined) eqn:H; [| reflexivity].
    exfalso. apply has_column_In in H. rewrite Hcols in H.
    apply in_app_or in H. destruct H as [H | H];
      apply in_map_iff in H; destruct H as (c & Hc & _); revert Hc.
    + destruct (String.eqb_spec c "Protocol") as [-> | Hne]; [discriminate |].
      cbn [negb andb].
      destruct (label_in c (remove_at j (columns fm))) eqn:Hl.
      * apply suffixed_not_category.
      * intros ->. apply label_in_In in Hrr. congruence.
    + destruct (label_in c (remove_at i (columns ft))) eqn:Hl.
      * apply suffixed_not_category.
      * intros ->. apply label_in_In in Hlr. congruence.
  - apply has_column_In. rewrite Hcols. apply in_or_app. left.
    apply in_map_iff. exists "Category". split; [| exact Hcl].
    apply label_in_In in Hrr. now rewrite Hrr.
  - apply has_column_In. rewrite Hcols. apply in_or_app. right.
    apply in_map_iff. exists "Category". split; [| exact Hrr].
    apply label_in_In in Hlr. now rewrite Hlr.
Qed.

End SharedLabels.

Lemma label_in_has_column (c : string) (df : DataFrame) :
  label_in c (columns df) = has_column c df.
Proof.
  destruct (has_column c df) eqn:H.
  - now apply label_in_In, has_column_In.
  - destruct (label_in c (columns df)) eqn:Hl; [| reflexivity].
    apply label_in_In, has_column_In in Hl. congruence.
Qed.

(** X15. When the filtered TVL table and the filtered market table (with
    their string Protocol keys) both have a Category column, the join
    renames the two to Category_x and Category_y, and the overview table,
    which asks for Category, raises the [KeyError] that lists the labels not
    found; when Category is the only label of the overview that the two
    tables share, this is [KeyError("['Category'] not in index")]. *)
Theorem overview_shared_category (f : filtered) :
  string_column "Protocol" (f_tvl f) = true ->
  string_column "Protocol" (f_market f) = true ->
  has_column "Category" (f_tvl f) = true ->
  has_column "Category" (f_market f) = true ->
  exists joined,
    overview_df (f_tvl f) (f_market f) = Ok joined /\
    has_column "Category" joined = false /\
    has_column "Category_x" joined = true /\
    has_column "Category_y" joined = true /\
    overview_table f =
      Raise (KeyError (not_in_index (overview_cols (f_tvl f) (f_market f))
                         (columns joined))) /\
    (has_column "TVL (USD)" (f_market f) = false ->
     has_column "Market Cap (USD)" (f_tvl f) = false ->
     has_column "Current Price (USD)" (f_tvl f) = false ->
     overview_table f = Raise (KeyError "['Category'] not in index")).
Proof.
  intros Hkl Hkr Hcl Hcr.
  apply column_all_has_column in Hkl, Hkr.
  destruct (overview_df (f_tvl f) (f_market f)) as [joined | e] eqn:Hj.
  2:{ exfalso. unfold overview_df, merge_left in Hj.
      apply has_column_pos in Hkl, Hkr. destruct Hkl as [i Hi], Hkr as [j Hj'].
      rewrite Hi, Hj' in Hj. discriminate. }
  exists joined. split; [reflexivity |].
  destruct (shared_category_renamed _ _ _ Hj Hcl Hcr) as (Hgone & Hx & Hy).
  repeat (split; [assumption |]).
  assert (Hraise : overview_table f =
                   Raise (KeyError (not_in_index (overview_cols (f_tvl f) (f_market f))
                                      (columns joined)))).
  { unfold overview_table. rewrite Hj. cbn [bind].
    apply (getitems_missing _ _ "Category"); [| exact Hgone].
    unfold overview_cols. apply in_or_app. left. apply filter_In.
    split; [cbn; tauto | exact Hcl]. }
  split; [exact Hraise |].
  intros Htvl Hcap Hprice. rewrite Hraise. do 2 f_equal.
  pose proof (kept_left _ _ _ Hj "Protocol" Hkl (or_introl eq_refl)) as HP.
  pose proof (fun H => kept_left _ _ _ Hj "TVL (USD)" H (or_intror Htvl)) as HT.
  pose proof (fun H => kept_right _ _ _ Hj "Market Cap (USD)" H Hcap) as HM.
  pose proof (fun H => kept_right _ _ _ Hj "Current Price (USD)" H Hprice) as HC.
  unfold not_in_index, not_found, overview_cols. cbn [filter].
  rewrite Hkl, Hcl.
  destruct (has_column "TVL (USD)" (f_tvl f));
    destruct (has_column "Market Cap (USD)" (f_market f));
    destruct (has_column "Current Price (USD)" (f_market f));
    cbn [app forallb filter];
    rewrite !label_in_has_column, HP, Hgone, ?HT, ?HM, ?HC by reflexivity;
    reflexivity.
Qed.

Lemma overview_shared_category_witness :
  overview_table {| f_tvl := scenario_tvl; f_fees := scenario_fees;
                    f_revenue := scenario_revenue; f_market := categorised_market |}
    = Raise (KeyError "['Category'] not in index") /\
  run scenario_tvl scenario_revenue scenario_fees categorised_market all_defaults
    = Raise (KeyError "['Category'] not in index").
Proof.
  split.
  - destruct (overview_shared_category
                {| f_tvl := scenario_tvl; f_fees := scenario_fees;
                   f_revenue := scenario_revenue; f_market := categorised_market |}
                eq_refl eq_refl eq_refl eq_refl) as (joined & _ & _ & _ & _ & _ & H).
    apply H; reflexivity.
  - vm_compute. reflexivity.
Defined.

(** X16. The join of two tables with string Protocol keys that have one
    cell per column has one cell per column too, and as many columns as the
    two tables together, the key counted once; it has at least as many rows
    as the filtered TVL table. *)
Theorem overview_df_aligned (filtered_tvl filtered_market : DataFrame) :
  string_column "Protocol" filtered_tvl = true ->
  string_column "Protocol" filtered_market = true ->
  aligned filtered_tvl -> aligned filtered_market ->
  exists joined,
    overview_df filtered_tvl filtered_market = Ok joined /\
    aligned joined /\
    List.length (columns joined) =
      (List.length (columns filtered_tvl)
       + (List.length (columns filtered_market) - 1))%nat /\
    (List.length (rows filtered_tvl) <= List.length (rows joined))%nat.
Proof.
  intros Hl Hr Hal Har.
  apply column_all_has_column in Hl, Hr.
  apply has_column_pos in Hl, Hr. destruct Hl as [i Hi], Hr as [j Hj].
  unfold overview_df, merge_left. rewrite Hi, Hj.
  eexists. split; [reflexivity |]. cbn [columns rows].
  pose proof (remove_at_length j (columns filtered_market) (column_pos_lt _ _ _ Hj))
    as Hw.
  split; [| split].
  - unfold aligned. cbn [columns rows]. apply Forall_forall. intros r Hr.
    apply in_flat_map in Hr. destruct Hr as (l & Hl & Hr).
    unfold aligned in Hal, Har. rewrite Forall_forall in Hal, Har.
    rewrite length_app, !length_map, Hw. unfold joined in Hr.
    destruct (matches i j (rows filtered_market) l) as [| m ms] eqn:Hm.
    + destruct Hr as [<- | []]. rewrite length_app, repeat_length, Hw.
      now rewrite (Hal l Hl).
    + apply in_map_iff in Hr. destruct Hr as (r0 & <- & Hr0).
      assert (Hin : In r0 (rows filtered_market)).
      { assert (H0 : In r0 (matches i j (rows filtered_market) l))
          by (rewrite Hm; exact Hr0).
        unfold matches in H0. apply filter_In in H0. tauto. }
      rewrite length_app, (Hal l Hl), remove_at_length.
      * now rewrite (Har r0 Hin).
      * rewrite (Har r0 Hin). eapply column_pos_lt, Hj.
  - now rewrite length_app, !length_map, Hw.
  - induction (rows filtered_tvl) as [| l ls IH]; cbn; [lia |].
    rewrite length_app. unfold joined at 1.
    destruct (matches i j (rows filtered_market) l); cbn;
      [| rewrite length_map]; lia.
Qed.

Lemma overview_df_aligned_witness :
  exists joined,
    overview_df scenario_tvl duplicate_market = Ok joined /\
    aligned joined /\
    List.length (columns joined) = 5%nat /\
    List.length (rows joined) = 3%nat.
Proof.
  destruct (overview_df_aligned scenario_tvl duplicate_market eq_refl eq_refl)
    as (joined & Hj & Hal & Hc & _).
  - repeat constructor.
  - repeat constructor.
  - exists joined. split; [exact Hj |]. split; [exact Hal |].
    split; [exact Hc |]. vm_compute in Hj. injection Hj as <-. reflexivity.
Defined.

(** ** The rankings, further *)

Lemma nlargest_small (n : nat) (c : string) (df : DataFrame) :
  numeric_column c df = true ->
  (List.length (rows df) <= n)%nat ->
  exists top, nlargest n c df = Ok top /\
              columns top = columns df /\
              Permutation (rows top) (rows df).
Proof.
  intros Hnum Hlen.
  destruct (numeric_column_inv _ _ Hnum) as (i & fs & Hpos & Hfs).
  unfold nlargest. rewrite Hpos, Hfs. cbn [bind].
  eexists. split; [reflexivity |]. split; [reflexivity |]. cbn [rows].
  rewrite firstn_all2 by (now rewrite sort_desc_length).
  apply sort_desc_perm.
Qed.

(** X17. A table of at most ten rows is ranked whole: the ranking by TVL,
    and the ranking of a revenue or fees table by its metric, hold every
    row of the table exactly once. *)
Theorem small_table_ranked_whole (df : DataFrame) (metric : string) :
  numeric_column metric df = true ->
  (List.length (rows df) <= 10)%nat ->
  (metric = "TVL (USD)" ->
   exists top, top_tvl df = Ok top /\ Permutation (rows top) (rows df)) /\
  (exists top, top_section df metric = Ok top /\
               Permutation (ranked_rows top) (rows df)).
Proof.
  intros Hnum Hlen.
  destruct (nlargest_small 10 metric df Hnum Hlen) as (top & Htop & _ & Hperm).
  split.
  - intros ->. exists top. split; assumption.
  - unfold top_section. destruct (empty df) eqn:He.
    + exists None. split; [reflexivity |]. cbn.
      destruct (numeric_column_inv _ _ Hnum) as (i & fs & Hpos & _).
      rewrite (empty_rows df metric); [constructor | | exact He].
      apply has_column_pos. eauto.
    + rewrite Htop. cbn. exists (Some top). split; [reflexivity | exact Hperm].
Qed.

Lemma small_table_ranked_whole_witness :
  exists top,
    top_tvl bare_tvl = Ok top /\ Permutation (rows top) (rows bare_tvl).
Proof.
  apply (small_table_ranked_whole bare_tvl "TVL (USD)" eq_refl).
  - cbn. lia.
  - reflexivity.
Defined.

(** X18. The TVL ranking is computed whatever the table holds, so that a
    filtered TVL table without TVL column raises [KeyError('TVL (USD)')]
    even when it is empty.  The revenue and fees rankings are computed for a
    table with rows only: without rows nothing is ranked, nothing shown and
    nothing raised, also when the metric columns are missing; with rows, a
    missing metric column raises a [KeyError] that names it. *)
Theorem ranking_guards (df : DataFrame) (metric : string) (shown : list string) :
  (has_column "TVL (USD)" df = false ->
   top_tvl df = Raise (KeyError "TVL (USD)")) /\
  (rows df = [] ->
   top_section df metric = Ok None /\
   (let* top := top_section df metric in shown_table top shown) = Ok None) /\
  (rows df <> [] -> columns df <> [] -> has_column metric df = false ->
   top_section df metric = Raise (KeyError metric)).
Proof.
  split; [| split].
  - intros H. unfold top_tvl, nlargest.
    apply has_column_false in H. now rewrite H.
  - intros H. rewrite (top_section_rows_nil _ _ H). split; reflexivity.
  - intros Hr Hc H. unfold top_section, empty, nlargest.
    destruct (rows df); [contradiction |]. destruct (columns df) eqn:E;
      [contradiction |].
    apply has_column_false in H. rewrite E in H. now rewrite H.
Qed.

Lemma ranking_guards_witness :
  top_tvl {| columns := ["Protocol"]; rows := [] |} = Raise (KeyError "TVL (USD)") /\
  top_revenue {| columns := ["Protocol"]; rows := [] |} = Ok None /\
  top_revenue keys_only_revenue = Raise (KeyError "24h Revenue (USD)").
Proof.
  split; [| split].
  - apply (ranking_guards {| columns := ["Protocol"]; rows := [] |}
             "24h Revenue (USD)" revenue_shown). reflexivity.
  - apply (ranking_guards {| columns := ["Protocol"]; rows := [] |}
             "24h Revenue (USD)" revenue_shown). reflexivity.
  - apply (ranking_guards keys_only_revenue "24h Revenue (USD)" revenue_shown);
      [discriminate | discriminate | reflexivity].
Defined.
(** ** The chart of the TVL ranking *)

(** X21. A TVL table without a Category column never gets a run to its
    end: whatever the other tables and the widgets, the run does not
    complete, and when the tables have the shape the script relies on, it
    stops exactly at the chart of line 142, with a [ValueError]. *)
Theorem chart_needs_category (df_protocols_tvl df_protocols_revenue
    df_protocols_fees df_protocols_market_data : DataFrame) (ui : widgets) :
  has_column "Category" df_protocols_tvl = false ->
  (forall d, run df_protocols_tvl df_protocols_revenue df_protocols_fees
               df_protocols_market_data ui <> Ok d) /\
  (required_schema df_protocols_tvl df_protocols_revenue df_protocols_fees
     df_protocols_market_data = true ->
   exists by_tvl,
     (let* sel := sidebar df_protocols_tvl ui in
      let* ft := filtered_tvl df_protocols_tvl sel in
      top_tvl ft) = Ok by_tvl /\
     tvl_chart by_tvl = Raise ValueError /\
     run df_protocols_tvl df_protocols_revenue df_protocols_fees
       df_protocols_market_data ui = Raise ValueError).
Proof.
  intros Hc. split.
  - intros d. now apply run_without_category.
  - intros Hschema.
    destruct (stages_ok _ _ _ _ ui Hschema)
      as (sel & f & k & ov & by_tvl & by_revenue & revenue_table & by_fees
          & fees_table & Hsel & Hf & Hk & Hov & Ht & Htcols & _).
    assert (Hchart : tvl_chart by_tvl = Raise ValueError).
    { apply (bar_missing _ _ "Category"); [cbn; tauto |].
      now rewrite (has_column_same _ _ _ Htcols). }
    exists by_tvl. split; [| split; [exact Hchart |]].
    + rewrite Hsel. cbn [bind]. unfold filter_data in Hf.
      destruct (filtered_tvl df_protocols_tvl sel) as [ft | e]; cbn [bind] in *;
        [| discriminate].
      destruct (filtered_by df_protocols_fees ft); cbn [bind] in Hf;
        [| discriminate].
      destruct (filtered_by df_protocols_revenue ft); cbn [bind] in Hf;
        [| discriminate].
      destruct (filtered_by df_protocols_market_data ft); cbn [bind] in Hf;
        [| discriminate].
      injection Hf as <-. exact Ht.
    + unfold run. rewrite Hsel. cbn [bind]. rewrite Hf. cbn [bind].
      rewrite Hk. cbn [bind]. rewrite Hov. cbn [bind]. rewrite Ht. cbn [bind].
      now rewrite Hchart.
Qed.

Lemma chart_needs_category_witness :
  run bare_tvl scenario_revenue scenario_fees bare_market no_protocols
    = Raise ValueError.
Proof.
  destruct (chart_needs_category bare_tvl scenario_revenue scenario_fees
              bare_market no_protocols eq_refl) as [_ H].
  destruct (H eq_refl) as (by_tvl & _ & _ & Hrun). exact Hrun.
Defined.
